(** * The glyph atlas and instanced quad renderer of the terminal

    A shallow embedding of [src/renderer/atlas/BackendD3D.cpp]: the quad
    stream and its draw-call compaction ([_appendQuad], [_markStateChange],
    [_flushQuads]), the choice of the atlas texture size
    ([_resetGlyphAtlas]), glyph rasterization into the atlas ([_drawGlyph],
    [_drawSoftFontGlyph], [_splitDoubleHeightGlyph]), the text pass with its
    pack-failure retry ([_drawText], [_drawGlyphPrepareRetry]), the two
    cursor passes and the selection pass.

    Conventions.  Machine integers are [Z] with the wrap-around of every
    narrowing store written out ([to_u16], [to_i16], [to_u32], ...).  The
    renderer object is the record [BackendD3D]; every member function is a
    function on that record.  Calls into Direct3D / Direct2D are appended
    to the [device] log of the record, in program order.  Uploads of the
    instance buffer and of the color bitmap, the growth of the CPU-side
    instance buffer and the pixel expansion of soft fonts do not influence
    the quad stream, the glyph cache or the draw calls and are left out. *)

From stdpp Require Import gmap list.
From Stdlib Require Import ZArith Lia Bool.

Local Open Scope Z_scope.

(* ===================================================================== *)
(** * Part I: the model                                                   *)
(* ===================================================================== *)

(** ** Machine integers *)

Definition to_u16 (z : Z) : Z := z mod 2 ^ 16.
Definition to_u32 (z : Z) : Z := z mod 2 ^ 32.
Definition to_size_t (z : Z) : Z := z mod 2 ^ 64.
Definition to_i16 (z : Z) : Z := (z + 2 ^ 15) mod 2 ^ 16 - 2 ^ 15.
Definition to_i32 (z : Z) : Z := (z + 2 ^ 31) mod 2 ^ 32 - 2 ^ 31.

Definition is_u16 (z : Z) : Prop := 0 <= z < 2 ^ 16.
Definition is_i16 (z : Z) : Prop := - 2 ^ 15 <= z < 2 ^ 15.
Definition is_u32 (z : Z) : Prop := 0 <= z < 2 ^ 32.

(** [std::clamp(v, lo, hi)]. *)
Definition clamp (v lo hi : Z) : Z :=
  if v <? lo then lo else if hi <? v then hi else v.

(** A pair of 16 bit integers ([u16x2], [i16x2]). *)
Module v2.
Record t := mk { x : Z; y : Z }.
End v2.

Definition v2_zero : v2.t := v2.mk 0 0.

(** [til::rect] (til/rect.h): a rectangle is empty unless its corner is
    not negative and it has a positive width and height. *)
Module rect.
Record t := mk { left : Z; top : Z; right : Z; bottom : Z }.
Definition empty (r : t) : bool :=
  negb ((0 <=? left r) && (0 <=? top r) && (left r <? right r) && (top r <? bottom r)).
End rect.

(** [p.invalidatedRows], a half open range of rows. *)
Record range := { range_start : Z; range_end : Z }.

Definition range_contains (r : range) (v : Z) : bool :=
  (range_start r <=? v) && (v <? range_end r).

(** ** Enumerations *)

Inductive LineRendition :=
  | SingleWidth
  | DoubleWidth
  | DoubleHeightTop
  | DoubleHeightBottom.

Definition LineRendition_to_nat (l : LineRendition) : nat :=
  match l with
  | SingleWidth => 0
  | DoubleWidth => 1
  | DoubleHeightTop => 2
  | DoubleHeightBottom => 3
  end%nat.

Definition LineRendition_of_nat (n : nat) : option LineRendition :=
  match n with
  | 0 => Some SingleWidth
  | 1 => Some DoubleWidth
  | 2 => Some DoubleHeightTop
  | 3 => Some DoubleHeightBottom
  | _ => None
  end%nat.

#[global] Instance LineRendition_eq_dec : EqDecision LineRendition.
Proof. solve_decision. Defined.

#[global] Instance LineRendition_countable : Countable LineRendition.
Proof.
  apply (inj_countable LineRendition_to_nat LineRendition_of_nat).
  intros []; reflexivity.
Defined.

(** [lineRendition >= LineRendition::DoubleHeightTop]. *)
Definition isDoubleHeight (l : LineRendition) : bool :=
  match l with
  | DoubleHeightTop | DoubleHeightBottom => true
  | _ => false
  end.

Inductive AntialiasingMode := ClearType | Grayscale | Aliased.

Inductive CursorType :=
  | Legacy
  | VerticalBar
  | Underscore
  | EmptyBox
  | FullBox
  | DoubleUnderscore
  | CursorTypeOther. (* any value that reaches [default:] *)

(** Modelled from the spec: the [ShadingType] enumeration is declared in
    BackendD3D.h, which is not among the sources.  The spec (section 3)
    gives exclusive variants plus "the non-exclusive bit-flag
    [LigatureMarker] OR-ed in"; a shading type is therefore a variant
    together with the state of that one flag bit. *)
Inductive ShadingVariant :=
  | Default
  | Background
  | SolidFill
  | TextGrayscale
  | TextClearType
  | Passthrough.

Record ShadingType := {
  variant : ShadingVariant;
  LigatureMarker : bool
}.

#[global] Instance ShadingVariant_eq_dec : EqDecision ShadingVariant.
Proof. solve_decision. Defined.

#[global] Instance ShadingType_eq_dec : EqDecision ShadingType.
Proof. solve_decision. Defined.

Definition plain (v : ShadingVariant) : ShadingType :=
  {| variant := v; LigatureMarker := false |}.

(** [shadingType |= ShadingType::LigatureMarker]. *)
Definition or_LigatureMarker (s : ShadingType) : ShadingType :=
  {| variant := variant s; LigatureMarker := true |}.

(** [shadingType != ShadingType::Default]. *)
Definition isDefault (s : ShadingType) : bool :=
  bool_decide (s = plain Default).

(** The two blend states of the backend; [None] stands for [nullptr]. *)
Inductive BlendState := _blendState | _blendStateInvert.

(** ** Settings *)

Record FontSettings := {
  cellSize : v2.t;                    (* u16x2 *)
  baseline : Z;                       (* u16 *)
  descender : Z;                      (* u16 *)
  underlinePos : Z;                   (* u16 *)
  underlineWidth : Z;                 (* u16 *)
  doubleUnderlinePos : v2.t;          (* u16x2 *)
  thinLineWidth : Z;                  (* u16 *)
  antialiasingMode : AntialiasingMode;
  ligatureOverhangTriggerLeft : Z;
  ligatureOverhangTriggerRight : Z
}.

Record CursorSettings := {
  cursorColor : Z;                    (* u32 *)
  cursorType : CursorType;
  heightPercentage : Z                (* u16 *)
}.

Record MiscSettings := {
  backgroundColor : Z;
  selectionColor : Z
}.

Record Settings := {
  font : FontSettings;
  cursor : CursorSettings;
  misc : MiscSettings;
  targetSize : v2.t;                  (* u16x2 *)
  cellCount : v2.t                    (* u16x2 *)
}.

(** ** The size of the atlas texture ([_resetGlyphAtlas], first half) *)

(** [_BitScanReverse]: the index of the highest set bit; the index is
    undefined when the mask is 0. *)
Definition _BitScanReverse (mask : Z) : option Z :=
  if mask =? 0 then None else Some (Z.log2 mask).

Definition minArea : Z := 128 * 128.

(** d3d10.h *)
Definition D3D10_REQ_TEXTURE2D_U_OR_V_DIMENSION : Z := 8192.

Definition maxArea : Z :=
  D3D10_REQ_TEXTURE2D_U_OR_V_DIMENSION * D3D10_REQ_TEXTURE2D_U_OR_V_DIMENSION.

Definition cellArea (s : Settings) : Z :=
  to_u32 (to_u32 (v2.x (cellSize (font s))) * v2.y (cellSize (font s))).

Definition targetArea (s : Settings) : Z :=
  to_u32 (to_u32 (v2.x (targetSize s)) * v2.y (targetSize s)).

Definition minAreaByFont (s : Settings) : Z := to_u32 (cellArea s * 95).

Definition minAreaByGrowth (width height : Z) : Z :=
  to_u32 (to_u32 (to_u32 width * height) * 2).

Definition maxAreaByFont (s : Settings) : Z :=
  to_u32 (targetArea s + targetArea s / 4).

(** The [area] of [_resetGlyphAtlas]; [width] and [height] are those of
    the current [_rectPacker]. *)
Definition atlasArea (s : Settings) (width height : Z) : Z :=
  let min := Z.max minArea (Z.max (minAreaByFont s) (minAreaByGrowth width height)) in
  Z.min maxArea (Z.min (maxAreaByFont s) min).

(** The [u] and [v] of [_resetGlyphAtlas]. *)
Definition atlasSize (s : Settings) (width height : Z) : option (Z * Z) :=
  match _BitScanReverse (to_u32 (atlasArea s width height - 1)) with
  | None => None
  | Some index =>
      Some (to_u16 (to_u32 (Z.shiftl 1 ((index + 2) / 2))),
            to_u16 (to_u32 (Z.shiftl 1 ((index + 1) / 2))))
  end.

(** ** The quad stream *)

Record QuadInstance := {
  shadingType : ShadingType;
  position : v2.t;                    (* i16x2 *)
  size : v2.t;                        (* u16x2 *)
  texcoord : v2.t;                    (* u16x2 *)
  color : Z                           (* u32 *)
}.

Record StateChange := {
  blendState : option BlendState;
  offset : Z                          (* size_t *)
}.

Record CursorRect := {
  cr_position : v2.t;                 (* i16x2 *)
  cr_size : v2.t;                     (* u16x2 *)
  cr_color : Z                        (* u32 *)
}.

(** ** The glyph cache *)

Record AtlasFontFaceKey := {
  fontFace : Z;                       (* IDWriteFontFace*; 0 is nullptr *)
  lineRendition : LineRendition
}.

#[global] Instance AtlasFontFaceKey_eq_dec : EqDecision AtlasFontFaceKey.
Proof. solve_decision. Defined.

#[global] Instance AtlasFontFaceKey_countable : Countable AtlasFontFaceKey.
Proof.
  apply (inj_countable' (fun k => (fontFace k, lineRendition k))
                        (fun q => {| fontFace := q.1; lineRendition := q.2 |})).
  intros []; reflexivity.
Defined.

(** [AtlasGlyphEntry::data]; a freshly inserted entry is zero initialized. *)
Record AtlasGlyphEntryData := {
  g_shadingType : ShadingType;
  g_offset : v2.t;                    (* i16x2 *)
  g_size : v2.t;                      (* u16x2 *)
  g_texcoord : v2.t                   (* u16x2 *)
}.

Definition emptyGlyphEntry : AtlasGlyphEntryData :=
  {| g_shadingType := plain Default; g_offset := v2_zero;
     g_size := v2_zero; g_texcoord := v2_zero |}.

(** Modelled from the spec: [til::linear_flat_set] (til/flat_set.h) and
    the entry types of BackendD3D.h are not among the sources.  The spec
    (sections 3 and 4.4) describes a two-level map, font face and line
    rendition to glyph index to atlas entry, whose [insert] returns the
    entry and whether it was inserted, and whose outer entries survive an
    atlas reset while every inner glyph map is emptied. *)
Abbreviation GlyphMap := (gmap Z AtlasGlyphEntryData).
Abbreviation AtlasMap := (gmap AtlasFontFaceKey (gmap Z AtlasGlyphEntryData)).

(** ** The rectangle packer

    stb_rect_pack is a third-party library.  Its context is the extent
    given to [stbrp_init_target] and whatever was packed since; where a
    rectangle is placed, or that it does not fit, is decided by the
    library (see [Collaborators] below). *)
Record stbrp_rect := { r_x : Z; r_y : Z; r_w : Z; r_h : Z }.

Record stbrp_context := {
  width : Z;
  height : Z;
  packed : list stbrp_rect
}.

Definition stbrp_init_target (w h : Z) : stbrp_context :=
  {| width := w; height := h; packed := [] |}.

(** ** Calls into the graphics device, in program order *)

Inductive DeviceCall :=
  | DrawIndexedInstanced
      (IndexCountPerInstance InstanceCount StartIndexLocation
       BaseVertexLocation StartInstanceLocation : Z)
  | OMSetBlendState (b : BlendState)
  | CreateTexture2D (Width Height : Z)
  | BeginDraw
  | EndDraw
  | Clear
  | SetTransform (m11 m22 dx dy : Z)
  | DrawGlyphRun (fontFace glyphIndex baselineOriginX baselineOriginY : Z)
  | DrawBitmap (glyphIndex x y w h : Z).

(** ** The renderer object *)

Record BackendD3D := {
  _glyphAtlasMap : AtlasMap;
  _rectPacker : stbrp_context;
  _d2dBeganDrawing : bool;
  _fontChangedResetGlyphAtlas : bool;
  _textShadingType : ShadingType;
  _skipForegroundBitmapUpload : bool;
  _instances : list QuadInstance;     (* the first _instancesCount quads *)
  _instancesStateChanges : list StateChange;
  _cursorRects : list CursorRect;
  device : list DeviceCall
}.

Definition _instancesCount (b : BackendD3D) : Z := Z.of_nat (length (_instances b)).

Definition set_glyphAtlasMap (m : AtlasMap) (b : BackendD3D) : BackendD3D :=
  {| _glyphAtlasMap := m; _rectPacker := _rectPacker b;
     _d2dBeganDrawing := _d2dBeganDrawing b;
     _fontChangedResetGlyphAtlas := _fontChangedResetGlyphAtlas b;
     _textShadingType := _textShadingType b;
     _skipForegroundBitmapUpload := _skipForegroundBitmapUpload b;
     _instances := _instances b;
     _instancesStateChanges := _instancesStateChanges b;
     _cursorRects := _cursorRects b; device := device b |}.

Definition set_rectPacker (c : stbrp_context) (b : BackendD3D) : BackendD3D :=
  {| _glyphAtlasMap := _glyphAtlasMap b; _rectPacker := c;
     _d2dBeganDrawing := _d2dBeganDrawing b;
     _fontChangedResetGlyphAtlas := _fontChangedResetGlyphAtlas b;
     _textShadingType := _textShadingType b;
     _skipForegroundBitmapUpload := _skipForegroundBitmapUpload b;
     _instances := _instances b;
     _instancesStateChanges := _instancesStateChanges b;
     _cursorRects := _cursorRects b; device := device b |}.

Definition set_d2dBeganDrawing (v : bool) (b : BackendD3D) : BackendD3D :=
  {| _glyphAtlasMap := _glyphAtlasMap b; _rectPacker := _rectPacker b;
     _d2dBeganDrawing := v;
     _fontChangedResetGlyphAtlas := _fontChangedResetGlyphAtlas b;
     _textShadingType := _textShadingType b;
     _skipForegroundBitmapUpload := _skipForegroundBitmapUpload b;
     _instances := _instances b;
     _instancesStateChanges := _instancesStateChanges b;
     _cursorRects := _cursorRects b; device := device b |}.

Definition set_fontChangedResetGlyphAtlas (v : bool) (b : BackendD3D) : BackendD3D :=
  {| _glyphAtlasMap := _glyphAtlasMap b; _rectPacker := _rectPacker b;
     _d2dBeganDrawing := _d2dBeganDrawing b;
     _fontChangedResetGlyphAtlas := v;
     _textShadingType := _textShadingType b;
     _skipForegroundBitmapUpload := _skipForegroundBitmapUpload b;
     _instances := _instances b;
     _instancesStateChanges := _instancesStateChanges b;
     _cursorRects := _cursorRects b; device := device b |}.

Definition set_textShadingType (v : ShadingType) (b : BackendD3D) : BackendD3D :=
  {| _glyphAtlasMap := _glyphAtlasMap b; _rectPacker := _rectPacker b;
     _d2dBeganDrawing := _d2dBeganDrawing b;
     _fontChangedResetGlyphAtlas := _fontChangedResetGlyphAtlas b;
     _textShadingType := v;
     _skipForegroundBitmapUpload := _skipForegroundBitmapUpload b;
     _instances := _instances b;
     _instancesStateChanges := _instancesStateChanges b;
     _cursorRects := _cursorRects b; device := device b |}.

Definition set_skipForegroundBitmapUpload (v : bool) (b : BackendD3D) : BackendD3D :=
  {| _glyphAtlasMap := _glyphAtlasMap b; _rectPacker := _rectPacker b;
     _d2dBeganDrawing := _d2dBeganDrawing b;
     _fontChangedResetGlyphAtlas := _fontChangedResetGlyphAtlas b;
     _textShadingType := _textShadingType b;
     _skipForegroundBitmapUpload := v;
     _instances := _instances b;
     _instancesStateChanges := _instancesStateChanges b;
     _cursorRects := _cursorRects b; device := device b |}.

Definition set_instances (l : list QuadInstance) (b : BackendD3D) : BackendD3D :=
  {| _glyphAtlasMap := _glyphAtlasMap b; _rectPacker := _rectPacker b;
     _d2dBeganDrawing := _d2dBeganDrawing b;
     _fontChangedResetGlyphAtlas := _fontChangedResetGlyphAtlas b;
     _textShadingType := _textShadingType b;
     _skipForegroundBitmapUpload := _skipForegroundBitmapUpload b;
     _instances := l;
     _instancesStateChanges := _instancesStateChanges b;
     _cursorRects := _cursorRects b; device := device b |}.

Definition set_instancesStateChanges (l : list StateChange) (b : BackendD3D) : BackendD3D :=
  {| _glyphAtlasMap := _glyphAtlasMap b; _rectPacker := _rectPacker b;
     _d2dBeganDrawing := _d2dBeganDrawing b;
     _fontChangedResetGlyphAtlas := _fontChangedResetGlyphAtlas b;
     _textShadingType := _textShadingType b;
     _skipForegroundBitmapUpload := _skipForegroundBitmapUpload b;
     _instances := _instances b;
     _instancesStateChanges := l;
     _cursorRects := _cursorRects b; device := device b |}.

Definition set_cursorRects (l : list CursorRect) (b : BackendD3D) : BackendD3D :=
  {| _glyphAtlasMap := _glyphAtlasMap b; _rectPacker := _rectPacker b;
     _d2dBeganDrawing := _d2dBeganDrawing b;
     _fontChangedResetGlyphAtlas := _fontChangedResetGlyphAtlas b;
     _textShadingType := _textShadingType b;
     _skipForegroundBitmapUpload := _skipForegroundBitmapUpload b;
     _instances := _instances b;
     _instancesStateChanges := _instancesStateChanges b;
     _cursorRects := l; device := device b |}.

Definition set_device (l : list DeviceCall) (b : BackendD3D) : BackendD3D :=
  {| _glyphAtlasMap := _glyphAtlasMap b; _rectPacker := _rectPacker b;
     _d2dBeganDrawing := _d2dBeganDrawing b;
     _fontChangedResetGlyphAtlas := _fontChangedResetGlyphAtlas b;
     _textShadingType := _textShadingType b;
     _skipForegroundBitmapUpload := _skipForegroundBitmapUpload b;
     _instances := _instances b;
     _instancesStateChanges := _instancesStateChanges b;
     _cursorRects := _cursorRects b; device := l |}.

Definition call (c : DeviceCall) (b : BackendD3D) : BackendD3D :=
  set_device (device b ++ [c]) b.

(** A renderer right after construction. *)
Definition newBackend : BackendD3D :=
  {| _glyphAtlasMap := ∅; _rectPacker := stbrp_init_target 0 0;
     _d2dBeganDrawing := false; _fontChangedResetGlyphAtlas := false;
     _textShadingType := plain Default;
     _skipForegroundBitmapUpload := false;
     _instances := []; _instancesStateChanges := [];
     _cursorRects := []; device := [] |}.

(** [_updateFontDependents], as far as the text pass reads it. *)
Definition _updateFontDependents (s : Settings) (b : BackendD3D) : BackendD3D :=
  set_textShadingType
    (match antialiasingMode (font s) with
     | ClearType => plain TextClearType
     | _ => plain TextGrayscale
     end)
    (set_fontChangedResetGlyphAtlas true b).

Definition _markStateChange (bs : option BlendState) (b : BackendD3D) : BackendD3D :=
  set_instancesStateChanges
    (_instancesStateChanges b ++ [{| blendState := bs; offset := _instancesCount b |}]) b.

(** [_appendQuad() = q]. *)
Definition _appendQuad (q : QuadInstance) (b : BackendD3D) : BackendD3D :=
  set_instances (_instances b ++ [q]) b.

Fixpoint modify_last {A : Type} (f : A -> A) (l : list A) : list A :=
  match l with
  | [] => []
  | [a] => [f a]
  | a :: l' => a :: modify_last f l'
  end.

(** [_getLastQuad() = f(_getLastQuad())]. *)
Definition _modifyLastQuad (f : QuadInstance -> QuadInstance) (b : BackendD3D) : BackendD3D :=
  set_instances (modify_last f (_instances b)) b.

(** One iteration of the loop over [_instancesStateChanges] in
    [_flushQuads]; the accumulator is the device log and
    [previousOffset]. *)
Definition flushStep (acc : list DeviceCall * Z) (state : StateChange) : list DeviceCall * Z :=
  let '(calls, previousOffset) := acc in
  let count := to_size_t (offset state - previousOffset) in
  let calls :=
    if count =? 0 then calls
    else calls ++ [DrawIndexedInstanced 6 (to_u32 count) 0 0 (to_u32 previousOffset)] in
  let calls :=
    match blendState state with
    | Some bs => calls ++ [OMSetBlendState bs]
    | None => calls
    end in
  (calls, offset state).

Definition _flushQuads (b : BackendD3D) : BackendD3D :=
  if _instancesCount b =? 0 then b
  else
    let b := _markStateChange None b in
    let calls := fst (fold_left flushStep (_instancesStateChanges b) (device b, 0)) in
    set_instances [] (set_instancesStateChanges [] (set_device calls b)).

Definition _d2dBeginDrawing (b : BackendD3D) : BackendD3D :=
  if _d2dBeganDrawing b then b else set_d2dBeganDrawing true (call BeginDraw b).

Definition _d2dEndDrawing (b : BackendD3D) : BackendD3D :=
  if _d2dBeganDrawing b then set_d2dBeganDrawing false (call EndDraw b) else b.

(** ** Failure and non-termination

    [THROW_HR_IF_MSG(E_UNEXPECTED, ...)] leaves the frame with
    [Fail E_UNEXPECTED]; reading the undefined index of [_BitScanReverse]
    is [Fail UndefinedIndex].  The [goto drawGlyphRetry] loop has no bound
    in the source: it is unrolled under a fuel counter and [OutOfFuel]
    says that the counter was used up.  The calls to the device are
    taken to succeed: the [THROW_IF_FAILED] and [gsl::narrow] around them
    have no outcome here, so nothing below speaks about a frame in which
    the device reports a failure. *)
Inductive Error := E_UNEXPECTED | UndefinedIndex.

Inductive outcome (A : Type) :=
  | Done (a : A)
  | Fail (e : Error)
  | OutOfFuel.

Arguments Done {A} a.
Arguments Fail {A} e.
Arguments OutOfFuel {A}.

Definition bind {A B : Type} (m : outcome A) (k : A -> outcome B) : outcome B :=
  match m with
  | Done a => k a
  | Fail e => Fail e
  | OutOfFuel => OutOfFuel
  end.

Notation "'let*' x := m 'in' k" := (bind m (fun x => k))
  (at level 10, x pattern, m at level 100, k at level 200).

(** ** Collaborators *)

(** Single precision floats and the operations the text pass uses. *)
Class Float32 := {
  f32 : Type;
  f32_of_int : Z -> f32;
  f32_add : f32 -> f32 -> f32;
  f32_sub : f32 -> f32 -> f32;
  f32_ge : f32 -> f32 -> bool;
  lrintf : f32 -> Z
}.

(** [D2D1_RECT_F]. *)
Record D2D1_RECT_F `{Float32} := {
  box_left : f32;
  box_top : f32;
  box_right : f32;
  box_bottom : f32
}.

(** stb_rect_pack, Direct2D and DirectWrite.
    - [stbrp_pack_rects c w h]: where a [w] by [h] rectangle is placed in
      context [c], or [None] when it does not fit;
    - [GetGlyphRunWorldBounds face glyph rendition]: the black box of the
      glyph at baseline origin (0,0) under the transform of the rendition;
    - [isColorGlyph face glyph]: the result of [DrawGlyphRun]. *)
Class Collaborators `{Float32} := {
  stbrp_pack_rects : stbrp_context -> Z -> Z -> option (Z * Z);
  GetGlyphRunWorldBounds : Z -> Z -> LineRendition -> D2D1_RECT_F;
  isColorGlyph : Z -> Z -> bool
}.

Section Renderer.
Context `{FP : Float32} `{EXT : !Collaborators}.

(** ** The rendering payload *)

Record FontMapping := {
  m_fontFace : Z;
  glyphsFrom : Z;                     (* u32 *)
  glyphsTo : Z                        (* u32 *)
}.

Record DWRITE_GLYPH_OFFSET := {
  advanceOffset : f32;
  ascenderOffset : f32
}.

Record ShapedRow := {
  mappings : list FontMapping;
  glyphIndices : list Z;              (* u16 *)
  glyphAdvances : list f32;
  glyphOffsets : list DWRITE_GLYPH_OFFSET;
  colors : list Z;                    (* u32 *)
  row_lineRendition : LineRendition;
  selectionFrom : Z;                  (* u16 *)
  selectionTo : Z;                    (* u16 *)
  dirtyTop : Z;
  dirtyBottom : Z
}.

Record RenderingPayload := {
  s : Settings;
  rows : list ShapedRow;
  colorBitmap : list Z;               (* u32 *)
  colorBitmapRowStride : Z;
  cursorRect : rect.t;
  invalidatedRows : range;
  dirtyRectInPx : rect.t
}.

Definition set_dirty (t b : Z) (r : ShapedRow) : ShapedRow :=
  {| mappings := mappings r; glyphIndices := glyphIndices r;
     glyphAdvances := glyphAdvances r; glyphOffsets := glyphOffsets r;
     colors := colors r; row_lineRendition := row_lineRendition r;
     selectionFrom := selectionFrom r; selectionTo := selectionTo r;
     dirtyTop := t; dirtyBottom := b |}.

Definition set_rows_dirtyRect (rs : list ShapedRow) (d : rect.t) (p : RenderingPayload) : RenderingPayload :=
  {| s := s p; rows := rs; colorBitmap := colorBitmap p;
     colorBitmapRowStride := colorBitmapRowStride p;
     cursorRect := cursorRect p; invalidatedRows := invalidatedRows p;
     dirtyRectInPx := d |}.

(** [v[i]] for a vector [v]. *)
Definition at_ {A : Type} (l : list A) (i : Z) (d : A) : A := nth (Z.to_nat i) l d.

(** ** Atlas reset *)

(** [_resetGlyphAtlas].  When the size changes the texture, its view and
    the Direct2D render target are created anew, logged as the one call
    [CreateTexture2D].  [slot.inner.reset()] for every slot of the glyph
    map empties every inner glyph map; the outer entries stay. *)
Definition _resetGlyphAtlas (p : RenderingPayload) (b : BackendD3D) : outcome BackendD3D :=
  match atlasSize (s p) (width (_rectPacker b)) (height (_rectPacker b)) with
  | None => Fail UndefinedIndex
  | Some (u, v) =>
      let b :=
        if negb (u =? width (_rectPacker b)) || negb (v =? height (_rectPacker b))
        then call (CreateTexture2D u v) b
        else b in
      let b := set_rectPacker (stbrp_init_target u v) b in
      let b := set_glyphAtlasMap ((fun _ : GlyphMap => (∅ : GlyphMap)) <$> _glyphAtlasMap b) b in
      let b := _d2dBeginDrawing b in
      let b := call Clear b in
      Done (set_fontChangedResetGlyphAtlas false b)
  end.

(** [_drawGlyphPrepareRetry], with its deadlock guard. *)
Definition _drawGlyphPrepareRetry (p : RenderingPayload) (b : BackendD3D) : outcome BackendD3D :=
  if decide (_glyphAtlasMap b = ∅) then Fail E_UNEXPECTED
  else
    let b := _d2dEndDrawing b in
    let b := _flushQuads b in
    _resetGlyphAtlas p b.

(** ** Glyph cache access *)

(** [_glyphAtlasMap.insert(key)]: the inner map of [key], created empty
    when the key is new. *)
Definition insertFontFace (key : AtlasFontFaceKey) (m : AtlasMap) : AtlasMap :=
  match m !! key with
  | Some _ => m
  | None => <[key := ∅]> m
  end.

Definition glyphsOf (key : AtlasFontFaceKey) (m : AtlasMap) : GlyphMap :=
  default ∅ (m !! key).

(** The entry of [glyphIndex] under [key]. *)
Definition glyphEntryOf (key : AtlasFontFaceKey) (glyphIndex : Z) (m : AtlasMap) : AtlasGlyphEntryData :=
  default emptyGlyphEntry (glyphsOf key m !! glyphIndex).

(** [fontFaceEntry.glyphs.insert(glyphIndex)] followed by an assignment to
    the entry, through the reference [fontFaceEntry] to the inner map of
    [key]: the outer map gets no new key this way. *)
Definition setGlyphEntry (key : AtlasFontFaceKey) (glyphIndex : Z) (d : AtlasGlyphEntryData)
    (m : AtlasMap) : AtlasMap :=
  alter (fun glyphs : GlyphMap => <[glyphIndex := d]> glyphs) key m.

(** ** Splitting a double height glyph *)

Definition set_g_offset_y (v : Z) (d : AtlasGlyphEntryData) : AtlasGlyphEntryData :=
  {| g_shadingType := g_shadingType d; g_offset := v2.mk (v2.x (g_offset d)) v;
     g_size := g_size d; g_texcoord := g_texcoord d |}.

Definition set_g_size_y (v : Z) (d : AtlasGlyphEntryData) : AtlasGlyphEntryData :=
  {| g_shadingType := g_shadingType d; g_offset := g_offset d;
     g_size := v2.mk (v2.x (g_size d)) v; g_texcoord := g_texcoord d |}.

Definition set_g_texcoord_y (v : Z) (d : AtlasGlyphEntryData) : AtlasGlyphEntryData :=
  {| g_shadingType := g_shadingType d; g_offset := g_offset d;
     g_size := g_size d; g_texcoord := v2.mk (v2.x (g_texcoord d)) v |}.

Definition set_g_shadingType (v : ShadingType) (d : AtlasGlyphEntryData) : AtlasGlyphEntryData :=
  {| g_shadingType := v; g_offset := g_offset d;
     g_size := g_size d; g_texcoord := g_texcoord d |}.

(** [topSize] of [_splitDoubleHeightGlyph]; [d] is the entry after the
    descender was subtracted from its [offset.y]. *)
Definition topSize (f : FontSettings) (d : AtlasGlyphEntryData) : Z :=
  clamp (- v2.y (g_offset d) - baseline f) 0 (v2.y (g_size d)).

(** The two halves, top first.  Both start as copies of the entry after
    the descender adjustment ([entry2.data = glyphEntry.data]). *)
Definition splitHalves (f : FontSettings) (d0 : AtlasGlyphEntryData)
    : AtlasGlyphEntryData * AtlasGlyphEntryData :=
  let d := set_g_offset_y (to_i16 (v2.y (g_offset d0) - descender f)) d0 in
  let topSize := topSize f d in
  let top := set_g_offset_y (to_i16 (v2.y (g_offset d) + v2.y (cellSize f))) d in
  let top := set_g_size_y (to_u16 topSize) top in
  let bottom := set_g_offset_y (to_i16 (v2.y (g_offset d) + topSize)) d in
  let bottom := set_g_size_y (to_u16 (Z.max 0 (v2.y (g_size bottom) - topSize))) bottom in
  let bottom := set_g_texcoord_y (to_u16 (v2.y (g_texcoord bottom) + topSize)) bottom in
  let top := if v2.y (g_size top) =? 0 then set_g_shadingType (plain Default) top else top in
  let bottom := if v2.y (g_size bottom) =? 0 then set_g_shadingType (plain Default) bottom else bottom in
  (top, bottom).

Definition topKey (face : Z) : AtlasFontFaceKey :=
  {| fontFace := face; lineRendition := DoubleHeightTop |}.

Definition bottomKey (face : Z) : AtlasFontFaceKey :=
  {| fontFace := face; lineRendition := DoubleHeightBottom |}.

(** [_splitDoubleHeightGlyph(p, fontFaceEntry, glyphEntry)], where
    [glyphEntry] is the entry of [glyphIndex] under [key]. *)
Definition _splitDoubleHeightGlyph (p : RenderingPayload) (key : AtlasFontFaceKey) (glyphIndex : Z)
    (b : BackendD3D) : BackendD3D :=
  let isTop := bool_decide (lineRendition key = DoubleHeightTop) in
  let key2 := if isTop then bottomKey (fontFace key) else topKey (fontFace key) in
  let '(top, bottom) := splitHalves (font (s p)) (glyphEntryOf key glyphIndex (_glyphAtlasMap b)) in
  let m := insertFontFace key2 (_glyphAtlasMap b) in
  let m := setGlyphEntry key2 glyphIndex (if isTop then bottom else top) m in
  let m := setGlyphEntry key glyphIndex (if isTop then top else bottom) m in
  set_glyphAtlasMap m b.

(** ** Rasterizing one glyph *)

(** The [restoreTransform] scope exit of [_drawGlyph]. *)
Definition restoreTransform (transform : bool) (b : BackendD3D) : BackendD3D :=
  if transform then call (SetTransform 1 1 0 0) b else b.

(** The ligature test of [_drawGlyph]; [w] is [rect.w]. *)
Definition isLigature (f : FontSettings) (w bl br : Z) : bool :=
  (v2.x (cellSize f) <=? w) &&
  ((bl <=? ligatureOverhangTriggerLeft f) || (ligatureOverhangTriggerRight f <=? br)).

(** The shading type [_drawGlyph] stores for an outline glyph. *)
Definition glyphShadingType (f : FontSettings) (textShadingType : ShadingType)
    (colorGlyph : bool) (w bl br : Z) : ShadingType :=
  let shadingType := if colorGlyph then plain Passthrough else textShadingType in
  if isLigature f w bl br then or_LigatureMarker shadingType else shadingType.

Definition _drawSoftFontGlyph (p : RenderingPayload) (key : AtlasFontFaceKey) (glyphIndex : Z)
    (b : BackendD3D) : outcome (bool * BackendD3D) :=
  let f := font (s p) in
  let w := v2.x (cellSize f) in
  let h := v2.y (cellSize f) in
  let w := if bool_decide (lineRendition key = SingleWidth) then w else Z.shiftl w 1 in
  let h := if bool_decide (lineRendition key = SingleWidth) then h
           else Z.shiftl h (if isDoubleHeight (lineRendition key) then 1 else 0) in
  match stbrp_pack_rects (_rectPacker b) w h with
  | None =>
      let* b := _drawGlyphPrepareRetry p b in
      Done (false, b)
  | Some (x, y) =>
      let b := set_rectPacker
                 {| width := width (_rectPacker b); height := height (_rectPacker b);
                    packed := packed (_rectPacker b) ++ [{| r_x := x; r_y := y; r_w := w; r_h := h |}] |} b in
      let b := _d2dBeginDrawing b in
      let b := call (DrawBitmap glyphIndex x y w h) b in
      let d := {| g_shadingType := plain TextGrayscale;
                  g_offset := v2.mk 0 (to_i16 (- baseline f));
                  g_size := v2.mk (to_u16 w) (to_u16 h);
                  g_texcoord := v2.mk (to_u16 x) (to_u16 y) |} in
      if isDoubleHeight (lineRendition key) then
        let d := set_g_offset_y (to_i16 (v2.y (g_offset d) - v2.y (cellSize f))) d in
        let b := set_glyphAtlasMap (setGlyphEntry key glyphIndex d (_glyphAtlasMap b)) b in
        Done (true, _splitDoubleHeightGlyph p key glyphIndex b)
      else
        Done (true, set_glyphAtlasMap (setGlyphEntry key glyphIndex d (_glyphAtlasMap b)) b)
  end.

(** [_drawGlyph(p, glyphAdvance, fontFaceEntry, glyphEntry)]: [key] names
    [fontFaceEntry] and [glyphIndex] names [glyphEntry] in it; the live
    code only writes [glyphAdvance].  The result is the return value and
    the renderer afterwards. *)
Definition _drawGlyph (p : RenderingPayload) (key : AtlasFontFaceKey) (glyphIndex : Z)
    (b : BackendD3D) : outcome (bool * BackendD3D) :=
  if fontFace key =? 0 then _drawSoftFontGlyph p key glyphIndex b
  else
    let f := font (s p) in
    let transform := negb (bool_decide (lineRendition key = SingleWidth)) in
    let m11 := 2 in
    let m22 := if isDoubleHeight (lineRendition key) then 2 else 1 in
    let b := if transform then call (SetTransform m11 m22 0 0) b else b in
    let box := GetGlyphRunWorldBounds (fontFace key) glyphIndex (lineRendition key) in
    if f32_ge (box_left box) (box_right box) || f32_ge (box_top box) (box_bottom box)
    then Done (true, restoreTransform transform b)
    else
      let bl := lrintf (box_left box) in
      let bt := lrintf (box_top box) in
      let br := lrintf (box_right box) in
      let bb := lrintf (box_bottom box) in
      let w := br - bl in
      let h := bb - bt in
      match stbrp_pack_rects (_rectPacker b) w h with
      | None =>
          let* b := _drawGlyphPrepareRetry p b in
          Done (false, restoreTransform transform b)
      | Some (x, y) =>
          let b := set_rectPacker
                     {| width := width (_rectPacker b); height := height (_rectPacker b);
                        packed := packed (_rectPacker b) ++ [{| r_x := x; r_y := y; r_w := w; r_h := h |}] |} b in
          let baselineOriginX := x - bl in
          let baselineOriginY := y - bt in
          let b := if transform
                   then call (SetTransform m11 m22 ((1 - m11) * baselineOriginX)
                                                   ((1 - m22) * baselineOriginY)) b
                   else b in
          let b := _d2dBeginDrawing b in
          let b := call (DrawGlyphRun (fontFace key) glyphIndex baselineOriginX baselineOriginY) b in
          let colorGlyph := isColorGlyph (fontFace key) glyphIndex in
          let d := {| g_shadingType := glyphShadingType f (_textShadingType b) colorGlyph w bl br;
                      g_offset := v2.mk (to_i16 bl) (to_i16 bt);
                      g_size := v2.mk (to_u16 w) (to_u16 h);
                      g_texcoord := v2.mk (to_u16 x) (to_u16 y) |} in
          let b := set_glyphAtlasMap (setGlyphEntry key glyphIndex d (_glyphAtlasMap b)) b in
          let b := if isDoubleHeight (lineRendition key)
                   then _splitDoubleHeightGlyph p key glyphIndex b
                   else b in
          Done (true, restoreTransform transform b)
      end.

(** ** The text pass *)

Definition CoordTypeMax : Z := 2 ^ 31 - 1.
Definition CoordTypeMin : Z := - 2 ^ 31.

(** The variables of [_drawText] that live across [drawGlyphRetry]: the
    glyph index [x], [baselineX], the dirty span of the current row,
    whether [shadingTypeAccumulator] has the [LigatureMarker] bit, and the
    renderer. *)
Record TextState := {
  x : Z;                              (* u32 *)
  baselineX : f32;
  row_dirtyTop : Z;
  row_dirtyBottom : Z;
  accumulatorLigature : bool;
  backend : BackendD3D
}.

(** How the [while (x < m.glyphsTo)] loop is left: at its end, or through
    [goto drawGlyphRetry]. *)
Inductive LoopExit :=
  | Finished (t : TextState)
  | Retry (t : TextState).

(** The body of the loop after a successful [insert] / [_drawGlyph]: emit
    the quad of the entry and advance. *)
Definition emitGlyph (p : RenderingPayload) (row : ShapedRow) (baselineY : Z)
    (key : AtlasFontFaceKey) (t : TextState) : TextState :=
  let glyphEntry := glyphEntryOf key (at_ (glyphIndices row) (x t) 0) (_glyphAtlasMap (backend t)) in
  let lineRenditionScale := if bool_decide (row_lineRendition row = SingleWidth) then 0 else 1 in
  let zero := {| advanceOffset := f32_of_int 0; ascenderOffset := f32_of_int 0 |} in
  let t' :=
    if isDefault (g_shadingType glyphEntry) then t
    else
      let l := to_i32 (lrintf (f32_add (baselineX t) (advanceOffset (at_ (glyphOffsets row) (x t) zero)))) in
      let tp := to_i32 (lrintf (f32_sub (f32_of_int baselineY) (ascenderOffset (at_ (glyphOffsets row) (x t) zero)))) in
      let l := to_i32 (Z.shiftl l lineRenditionScale) in
      let l := to_i32 (l + v2.x (g_offset glyphEntry)) in
      let tp := to_i32 (tp + v2.y (g_offset glyphEntry)) in
      {| x := x t; baselineX := baselineX t;
         row_dirtyTop := Z.min (row_dirtyTop t) tp;
         row_dirtyBottom := Z.max (row_dirtyBottom t) (to_i32 (tp + v2.y (g_size glyphEntry)));
         accumulatorLigature := accumulatorLigature t || LigatureMarker (g_shadingType glyphEntry);
         backend :=
           _appendQuad {| shadingType := g_shadingType glyphEntry;
                          position := v2.mk (to_i16 l) (to_i16 tp);
                          size := g_size glyphEntry;
                          texcoord := g_texcoord glyphEntry;
                          color := at_ (colors row) (x t) 0 |} (backend t) |} in
  {| x := to_u32 (x t' + 1);
     baselineX := f32_add (baselineX t') (at_ (glyphAdvances row) (x t') (f32_of_int 0));
     row_dirtyTop := row_dirtyTop t'; row_dirtyBottom := row_dirtyBottom t';
     accumulatorLigature := accumulatorLigature t'; backend := backend t' |}.

Definition with_backend (b : BackendD3D) (t : TextState) : TextState :=
  {| x := x t; baselineX := baselineX t; row_dirtyTop := row_dirtyTop t;
     row_dirtyBottom := row_dirtyBottom t;
     accumulatorLigature := accumulatorLigature t; backend := b |}.

(** [while (x < m.glyphsTo) { ... }]; [n] bounds the iterations and is
    [m.glyphsTo - x] at the call. *)
Fixpoint glyphLoop (n : nat) (p : RenderingPayload) (row : ShapedRow) (baselineY : Z)
    (key : AtlasFontFaceKey) (t : TextState) : outcome LoopExit :=
  match n with
  | O => Done (Finished t)
  | S n' =>
      let glyphIndex := at_ (glyphIndices row) (x t) 0 in
      let m := _glyphAtlasMap (backend t) in
      match glyphsOf key m !! glyphIndex with
      | Some _ => glyphLoop n' p row baselineY key (emitGlyph p row baselineY key t)
      | None =>
          let b := set_glyphAtlasMap (setGlyphEntry key glyphIndex emptyGlyphEntry m) (backend t) in
          let* r := _drawGlyph p key glyphIndex b in
          if fst r
          then glyphLoop n' p row baselineY key (emitGlyph p row baselineY key (with_backend (snd r) t))
          else Done (Retry (with_backend (snd r) t))
      end
  end.

(** The code between [drawGlyphRetry:] and the end of the mapping;
    [fuel] bounds the number of passes through the label. *)
Fixpoint drawRun (fuel : nat) (p : RenderingPayload) (row : ShapedRow) (baselineY : Z)
    (m : FontMapping) (t : TextState) : outcome TextState :=
  match fuel with
  | O => OutOfFuel
  | S fuel' =>
      let key := {| fontFace := m_fontFace m; lineRendition := row_lineRendition row |} in
      let t := with_backend
                 (set_glyphAtlasMap (insertFontFace key (_glyphAtlasMap (backend t))) (backend t)) t in
      let* e := glyphLoop (Z.to_nat (glyphsTo m - x t)) p row baselineY key t in
      match e with
      | Finished t => Done t
      | Retry t => drawRun fuel' p row baselineY m t
      end
  end.

(** [for (const auto& m : row->mappings)]. *)
Fixpoint drawMappings (fuel : nat) (p : RenderingPayload) (row : ShapedRow) (baselineY : Z)
    (ms : list FontMapping) (t : TextState) : outcome TextState :=
  match ms with
  | [] => Done t
  | m :: ms' =>
      let t := {| x := glyphsFrom m; baselineX := baselineX t;
                  row_dirtyTop := row_dirtyTop t; row_dirtyBottom := row_dirtyBottom t;
                  accumulatorLigature := accumulatorLigature t; backend := backend t |} in
      let* t := drawRun fuel p row baselineY m t in
      drawMappings fuel p row baselineY ms' t
  end.

(** The variables of [_drawText] that live across rows. *)
Record FrameState := {
  y : Z;                              (* u16 *)
  dirtyTop_ : Z;
  dirtyBottom_ : Z;
  accumulator : bool;
  done_rows : list ShapedRow;         (* rows already drawn, updated *)
  renderer : BackendD3D
}.

(** [for (const auto row : p.rows)]. *)
Fixpoint drawRows (fuel : nat) (p : RenderingPayload) (rs : list ShapedRow)
    (fr : FrameState) : outcome FrameState :=
  match rs with
  | [] => Done fr
  | row :: rs' =>
      let baselineY := to_i32 (y fr * v2.y (cellSize (font (s p))) + baseline (font (s p))) in
      let t := {| x := 0; baselineX := f32_of_int 0;
                  row_dirtyTop := dirtyTop row; row_dirtyBottom := dirtyBottom row;
                  accumulatorLigature := accumulator fr; backend := renderer fr |} in
      let* t := drawMappings fuel p row baselineY (mappings row) t in
      let inv := range_contains (invalidatedRows p) (y fr) in
      drawRows fuel p rs'
        {| y := to_u16 (y fr + 1);
           dirtyTop_ := if inv then Z.min (dirtyTop_ fr) (row_dirtyTop t) else dirtyTop_ fr;
           dirtyBottom_ := if inv then Z.max (dirtyBottom_ fr) (row_dirtyBottom t) else dirtyBottom_ fr;
           accumulator := accumulatorLigature t;
           done_rows := done_rows fr ++ [set_dirty (row_dirtyTop t) (row_dirtyBottom t) row];
           renderer := backend t |}
  end.

Definition _drawText (fuel : nat) (p : RenderingPayload) (b : BackendD3D)
    : outcome (RenderingPayload * BackendD3D) :=
  let* b := if _fontChangedResetGlyphAtlas b then _resetGlyphAtlas p b else Done b in
  let b := set_skipForegroundBitmapUpload false b in
  let* fr := drawRows fuel p (rows p)
               {| y := 0; dirtyTop_ := CoordTypeMax; dirtyBottom_ := CoordTypeMin;
                  accumulator := false; done_rows := []; renderer := b |} in
  let d := dirtyRectInPx p in
  let d := if dirtyTop_ fr <? dirtyBottom_ fr
           then rect.mk (rect.left d) (Z.min (rect.top d) (dirtyTop_ fr))
                        (rect.right d) (Z.max (rect.bottom d) (dirtyBottom_ fr))
           else d in
  let b := _d2dEndDrawing (renderer fr) in
  Done (set_rows_dirtyRect (done_rows fr) d p,
        set_skipForegroundBitmapUpload (negb (accumulator fr)) b).

(** ** The cursor passes *)

Definition quadOfCursorRect (c : CursorRect) : QuadInstance :=
  {| shadingType := plain SolidFill; position := cr_position c;
     size := cr_size c; texcoord := v2_zero; color := cr_color c |}.

Definition set_cr_color (v : Z) (c : CursorRect) : CursorRect :=
  {| cr_position := cr_position c; cr_size := cr_size c; cr_color := v |}.

(** [p.colorBitmap[offset + x1] | 0xff000000]. *)
Definition opaqueBackground (p : RenderingPayload) (offset x1 : Z) : Z :=
  Z.lor (at_ (colorBitmap p) (offset + x1) 0) 0xff000000.

(** The inner [for] of [_drawCursorPart1]: the end of the run of cells
    that share the background [bg]. *)
Fixpoint scanRun (fuel : nat) (p : RenderingPayload) (offset bg x1 : Z) : Z :=
  match fuel with
  | O => x1
  | S fuel' =>
      if (x1 <? rect.right (cursorRect p)) && (opaqueBackground p offset x1 =? bg)
      then scanRun fuel' p offset bg (x1 + 1)
      else x1
  end.

(** The rectangles [_drawCursorPart1] appends for the run [x0, x1) of
    background [bg], in the order of their [emplace_back]. *)
Definition cursorShape (p : RenderingPayload) (x0 x1 bg : Z) : list CursorRect :=
  let f := font (s p) in
  let position := v2.mk (to_i16 (v2.x (cellSize f) * x0))
                        (to_i16 (v2.y (cellSize f) * rect.top (cursorRect p))) in
  let size := v2.mk (to_u16 (v2.x (cellSize f) * (x1 - x0))) (v2.y (cellSize f)) in
  let color := if cursorColor (cursor (s p)) =? 0xffffffff
               then Z.lxor bg 0x3f3f3f else cursorColor (cursor (s p)) in
  let c0 := {| cr_position := position; cr_size := size; cr_color := color |} in
  let thin := thinLineWidth f in
  match cursorType (cursor (s p)) with
  | Legacy =>
      let height := (v2.y size * heightPercentage (cursor (s p)) + 50) / 100 in
      [{| cr_position := v2.mk (v2.x position) (to_i16 (v2.y position + (v2.y size - height)));
          cr_size := v2.mk (v2.x size) (to_u16 height); cr_color := color |}]
  | VerticalBar =>
      [{| cr_position := position; cr_size := v2.mk thin (v2.y size); cr_color := color |}]
  | Underscore =>
      [{| cr_position := v2.mk (v2.x position) (to_i16 (v2.y position + underlinePos f));
          cr_size := v2.mk (v2.x size) (underlineWidth f); cr_color := color |}]
  | EmptyBox =>
      let side := fun px : Z =>
        {| cr_position := v2.mk px (to_i16 (v2.y position + thin));
           cr_size := v2.mk thin (to_u16 (v2.y size - 2 * thin)); cr_color := color |} in
      [{| cr_position := position; cr_size := v2.mk (v2.x size) thin; cr_color := color |};
       {| cr_position := v2.mk (v2.x position) (to_i16 (v2.y position + (v2.y size - thin)));
          cr_size := v2.mk (v2.x size) thin; cr_color := color |}]
      ++ (if x0 =? rect.left (cursorRect p) then [side (v2.x position)] else [])
      ++ (if x1 =? rect.right (cursorRect p)
          then [side (to_i16 (v2.x position + (v2.x size - thin)))] else [])
  | FullBox => [c0]
  | DoubleUnderscore =>
      [{| cr_position := v2.mk (v2.x position) (to_i16 (v2.y position + v2.x (doubleUnderlinePos f)));
          cr_size := v2.mk (v2.x size) thin; cr_color := color |};
       {| cr_position := v2.mk (v2.x position) (to_i16 (v2.y position + v2.y (doubleUnderlinePos f)));
          cr_size := v2.mk (v2.x size) thin; cr_color := color |}]
  | CursorTypeOther => [c0]
  end.

(** The outer [for] of [_drawCursorPart1].  Every iteration moves [x1]
    forward, so [cursorRect.right - cursorRect.left] iterations are enough. *)
Fixpoint cursorLoop (fuel : nat) (p : RenderingPayload) (offset x1 : Z)
    (acc : list CursorRect) : list CursorRect :=
  match fuel with
  | O => acc
  | S fuel' =>
      if x1 <? rect.right (cursorRect p) then
        let x0 := x1 in
        let bg := opaqueBackground p offset x1 in
        let x1 := scanRun (Z.to_nat (rect.right (cursorRect p) - x1)) p offset bg x1 in
        cursorLoop fuel' p offset (x1 + 1) (acc ++ cursorShape p x0 x1 bg)
      else acc
  end.

Definition appendCursorQuads (cs : list CursorRect) (b : BackendD3D) : BackendD3D :=
  fold_left (fun b c => _appendQuad (quadOfCursorRect c) b) cs b.

Definition _drawCursorPart1 (p : RenderingPayload) (b : BackendD3D) : BackendD3D :=
  let b := set_cursorRects [] b in
  if rect.empty (cursorRect p) then b
  else
    let offset := rect.top (cursorRect p) * colorBitmapRowStride p in
    let cs := cursorLoop (Z.to_nat (rect.right (cursorRect p) - rect.left (cursorRect p)))
                p offset (rect.left (cursorRect p)) [] in
    if cursorColor (cursor (s p)) =? 0xffffffff
    then set_cursorRects (map (set_cr_color 0xffffffff) cs) (appendCursorQuads cs b)
    else set_cursorRects cs b.

Definition _drawCursorPart2 (p : RenderingPayload) (b : BackendD3D) : BackendD3D :=
  match _cursorRects b with
  | [] => b
  | _ =>
      let color := cursorColor (cursor (s p)) in
      let b := if color =? 0xffffffff then _markStateChange (Some _blendStateInvert) b else b in
      let b := appendCursorQuads (_cursorRects b) b in
      if color =? 0xffffffff then _markStateChange (Some _blendState) b else b
  end.

(** ** The selection pass *)

(** The local variables of [_drawSelection] and the renderer. *)
Record SelectionState := {
  sel_y : Z;                          (* u16 *)
  lastFrom : Z;                       (* u16 *)
  lastTo : Z;                         (* u16 *)
  sel_backend : BackendD3D
}.

Definition growQuad (h : Z) (q : QuadInstance) : QuadInstance :=
  {| shadingType := shadingType q; position := position q;
     size := v2.mk (v2.x (size q)) (to_u16 (v2.y (size q) + h));
     texcoord := texcoord q; color := color q |}.

Definition selectionQuad (p : RenderingPayload) (row : ShapedRow) (y : Z) : QuadInstance :=
  let f := font (s p) in
  {| shadingType := plain SolidFill;
     position := v2.mk (to_i16 (v2.x (cellSize f) * selectionFrom row))
                       (to_i16 (v2.y (cellSize f) * y));
     size := v2.mk (to_u16 (v2.x (cellSize f) * (selectionTo row - selectionFrom row)))
                   (v2.y (cellSize f));
     texcoord := v2_zero;
     color := selectionColor (misc (s p)) |}.

(** The body of [for (const auto& row : p.rows)] in [_drawSelection]. *)
Definition selectionRow (p : RenderingPayload) (st : SelectionState) (row : ShapedRow)
    : SelectionState :=
  let st' :=
    if selectionFrom row <? selectionTo row then
      if (selectionFrom row =? lastFrom st) && (selectionTo row =? lastTo st)
      then {| sel_y := sel_y st; lastFrom := lastFrom st; lastTo := lastTo st;
              sel_backend := _modifyLastQuad (growQuad (v2.y (cellSize (font (s p)))))
                               (sel_backend st) |}
      else {| sel_y := sel_y st; lastFrom := selectionFrom row; lastTo := selectionTo row;
              sel_backend := _appendQuad (selectionQuad p row (sel_y st)) (sel_backend st) |}
    else st in
  {| sel_y := to_u16 (sel_y st' + 1); lastFrom := lastFrom st'; lastTo := lastTo st';
     sel_backend := sel_backend st' |}.

Definition selectionLoop (p : RenderingPayload) (rs : list ShapedRow) (st : SelectionState)
    : SelectionState :=
  fold_left (selectionRow p) rs st.

Definition _drawSelection (p : RenderingPayload) (b : BackendD3D) : BackendD3D :=
  sel_backend (selectionLoop p (rows p)
                 {| sel_y := 0; lastFrom := 0; lastTo := 0; sel_backend := b |}).

End Renderer.

(* ===================================================================== *)
(** * Part I, continued: buffers, gridlines and the frame                 *)
(* ===================================================================== *)

(** ** The CPU-side instance buffer

    [_instances] is a [Buffer<QuadInstance, 32>] of which the first
    [_instancesCount] slots are in use; [_appendQuad] doubles it when it is
    full.  The passes above work on the list of the quads in use; here the
    allocation itself is modelled: one entry per slot, [None] for a slot
    nothing was stored in yet. *)
Module Instances.

Record t := mk { slots : list (option QuadInstance); count : Z }.

(** [_instances.size()]. *)
Definition size (i : t) : Z := Z.of_nat (length (slots i)).

(** [_bumpInstancesSize]: the new allocation holds the old slots in front;
    [None] when [Expects(newSize > _instances.size())] fails. *)
Definition _bumpInstancesSize (i : t) : option t :=
  let newSize := Z.max 256 (to_size_t (size i * 2)) in
  if size i <? newSize
  then Some (mk (slots i ++ replicate (Z.to_nat (newSize - size i)) None) (count i))
  else None.

(** [_appendQuad() = q]: [_instances[_instancesCount++] = q], after the
    buffer was bumped when [_instancesCount >= _instances.size()].  A
    store behind the last slot has no defined behavior: [None]. *)
Definition _appendQuad (q : QuadInstance) (i : t) : option t :=
  match (if size i <=? count i then _bumpInstancesSize i else Some i) with
  | None => None
  | Some i =>
      if (0 <=? count i) && (count i <? size i)
      then Some (mk (<[Z.to_nat (count i) := Some q]> (slots i)) (to_size_t (count i + 1)))
      else None
  end.

(** The slots in use. *)
Definition quads (i : t) : list (option QuadInstance) :=
  take (Z.to_nat (count i)) (slots i).

End Instances.

(** ** The instance buffer of the device *)

Record InstanceBuffer := {
  ByteWidth : Z;                      (* UINT, of the D3D11_BUFFER_DESC *)
  _instanceBufferCapacity : Z         (* size_t *)
}.

Section InstanceUpload.

(** [sizeof(QuadInstance)]; the struct is declared in BackendD3D.h. *)
Variable sizeofQuadInstance : Z.

(** [_recreateInstanceBuffers]: the size of the new buffer, a multiple of
    64 kB, and the capacity it gives; [None] when [gsl::narrow<UINT>]
    throws. *)
Definition _recreateInstanceBuffers (st : Settings) (instancesCount : Z) : option InstanceBuffer :=
  let minCapacity := to_size_t (to_size_t (v2.x (cellCount st)) * v2.y (cellCount st)) in
  let newCapacity := Z.max instancesCount minCapacity in
  let newSize := to_size_t (newCapacity * sizeofQuadInstance) in
  let newSize := Z.land (to_size_t (newSize + 0xffff)) (to_size_t (Z.lnot 0xffff)) in
  let newCapacity := newSize / sizeofQuadInstance in
  if newSize <? 2 ^ 32
  then Some {| ByteWidth := newSize; _instanceBufferCapacity := newCapacity |}
  else None.

(** The upload of the quads in [_flushQuads]: the buffer is recreated when
    [_instancesCount > _instanceBufferCapacity]; the result is the buffer
    that is mapped and the number of bytes [memcpy] writes to it. *)
Definition uploadInstances (st : Settings) (instancesCount : Z) (g : InstanceBuffer)
    : option (InstanceBuffer * Z) :=
  match (if _instanceBufferCapacity g <? instancesCount
         then _recreateInstanceBuffers st instancesCount else Some g) with
  | None => None
  | Some g => Some (g, to_size_t (instancesCount * sizeofQuadInstance))
  end.

End InstanceUpload.

(** ** The upload of the color bitmap

    [_uploadColorBitmap] copies the bitmap row by row into the mapped
    texture.  [src], [srcEnd] and [dst] are byte offsets, from the start of
    [p.colorBitmap] and from [mapped.pData]. *)
Record memcpy := { cp_dst : Z; cp_src : Z; cp_n : Z }.

(** [while (src < srcEnd) { memcpy(dst, src, srcStride); src += srcStride;
    dst += mapped.RowPitch; }]; the loop has no bound of its own when
    [srcStride] is 0. *)
Fixpoint copyRows (fuel : nat) (srcEnd srcStride RowPitch : Z) (src dst : Z) (acc : list memcpy)
    : option (list memcpy) :=
  if src <? srcEnd then
    match fuel with
    | O => None
    | S fuel' =>
        copyRows fuel' srcEnd srcStride RowPitch (src + srcStride) (dst + RowPitch)
          (acc ++ [{| cp_dst := dst; cp_src := src; cp_n := srcStride |}])
    end
  else Some acc.

(** ** Buffers of the console host ([src/host/misc.cpp]) *)

(** [DoBuffersOverlap]; the buffers are given by the address of their
    first byte and their size in bytes. *)
Definition DoBuffersOverlap (pBufferA cbBufferA pBufferB cbBufferB : Z) : bool :=
  let pBufferAEnd := pBufferA + cbBufferA in
  let pBufferBEnd := pBufferB + cbBufferB in
  ((pBufferA <=? pBufferB) && (pBufferB <=? pBufferAEnd)) ||
  ((pBufferB <=? pBufferA) && (pBufferA <=? pBufferBEnd)).

(** ** Gridlines *)

(** Modelled from the spec: the [GridLines] enumeration and
    [GridLineRange] are declared in headers that are not among the
    sources.  The spec (section 4.6) gives the line kinds; [_drawGridlineRow]
    reads [lines.test(kind)], [color], [from] and [to] of a range. *)
Module GridLines.
Inductive t :=
  | Left
  | Top
  | Right
  | Bottom
  | Underline
  | HyperlinkUnderline
  | DoubleUnderline
  | Strikethrough.
End GridLines.

Record GridLineRange := {
  gl_lines : GridLines.t -> bool;     (* lines.test(kind) *)
  gl_color : Z;                       (* u32 *)
  gl_from : Z;                        (* u16 *)
  gl_to : Z                           (* u16 *)
}.

(** What the gridline pass reads and the other passes do not: two fields of
    the font settings and [row->gridLineRanges] of every row of [p.rows],
    in the order of the rows. *)
Record GridlinePayload := {
  strikethroughPos : Z;               (* u16 *)
  strikethroughWidth : Z;             (* u16 *)
  gridLineRanges : list (list GridLineRange)
}.

Section Frame.
Context `{FP : Float32} `{EXT : !Collaborators}.

(** The lambda [appendHorizontalLine(u16 offsetY, u16 height)] of
    [_drawGridlineRow]. *)
Definition appendHorizontalLine (p : RenderingPayload) (r : GridLineRange) (y offsetY height : Z)
    (b : BackendD3D) : BackendD3D :=
  let f := font (s p) in
  let top := to_i16 (v2.y (cellSize f) * y) in
  let left := to_i16 (gl_from r * v2.x (cellSize f)) in
  let width := to_u16 ((gl_to r - gl_from r) * v2.x (cellSize f)) in
  _appendQuad {| shadingType := plain SolidFill;
                 position := v2.mk left (to_i16 (top + to_u16 offsetY));
                 size := v2.mk width (to_u16 height);
                 texcoord := v2_zero;
                 color := gl_color r |} b.

(** The lambda [appendVerticalLine(int col)]. *)
Definition appendVerticalLine (p : RenderingPayload) (r : GridLineRange) (y col : Z)
    (b : BackendD3D) : BackendD3D :=
  let f := font (s p) in
  let top := to_i16 (v2.y (cellSize f) * y) in
  _appendQuad {| shadingType := plain SolidFill;
                 position := v2.mk (to_i16 (col * v2.x (cellSize f))) top;
                 size := v2.mk (thinLineWidth f) (v2.y (cellSize f));
                 texcoord := v2_zero;
                 color := gl_color r |} b.

(** [for (auto i = r.from; i < r.to; ++i) appendVerticalLine(i);] with the
    16 bit counter [i]; [r.to - r.from] iterations are enough. *)
Fixpoint leftLines (fuel : nat) (p : RenderingPayload) (r : GridLineRange) (y i : Z)
    (b : BackendD3D) : BackendD3D :=
  match fuel with
  | O => b
  | S fuel' =>
      if i <? gl_to r
      then leftLines fuel' p r y (to_u16 (i + 1)) (appendVerticalLine p r y i b)
      else b
  end.

(** [for (auto i = r.to; i > r.from; --i) appendVerticalLine(i);]. *)
Fixpoint rightLines (fuel : nat) (p : RenderingPayload) (r : GridLineRange) (y i : Z)
    (b : BackendD3D) : BackendD3D :=
  match fuel with
  | O => b
  | S fuel' =>
      if gl_from r <? i
      then rightLines fuel' p r y (to_u16 (i - 1)) (appendVerticalLine p r y i b)
      else b
  end.

(** The body of [for (const auto& r : row->gridLineRanges)]. *)
Definition gridlineRange (p : RenderingPayload) (g : GridlinePayload) (y : Z)
    (b : BackendD3D) (r : GridLineRange) : BackendD3D :=
  let f := font (s p) in
  let columns := Z.to_nat (gl_to r - gl_from r) in
  let b := if gl_lines r GridLines.Left then leftLines columns p r y (gl_from r) b else b in
  let b := if gl_lines r GridLines.Top
           then appendHorizontalLine p r y 0 (thinLineWidth f) b else b in
  let b := if gl_lines r GridLines.Right then rightLines columns p r y (gl_to r) b else b in
  let b := if gl_lines r GridLines.Bottom
           then appendHorizontalLine p r y (v2.y (cellSize f) - thinLineWidth f) (thinLineWidth f) b
           else b in
  let b := if gl_lines r GridLines.Underline
           then appendHorizontalLine p r y (underlinePos f) (underlineWidth f) b else b in
  let b := if gl_lines r GridLines.HyperlinkUnderline
           then appendHorizontalLine p r y (underlinePos f) (underlineWidth f) b else b in
  let b := if gl_lines r GridLines.DoubleUnderline
           then appendHorizontalLine p r y (v2.y (doubleUnderlinePos f)) (thinLineWidth f)
                  (appendHorizontalLine p r y (v2.x (doubleUnderlinePos f)) (thinLineWidth f) b)
           else b in
  if gl_lines r GridLines.Strikethrough
  then appendHorizontalLine p r y (strikethroughPos g) (strikethroughWidth g) b
  else b.

Definition _drawGridlineRow (p : RenderingPayload) (g : GridlinePayload)
    (ranges : list GridLineRange) (y : Z) (b : BackendD3D) : BackendD3D :=
  fold_left (gridlineRange p g y) ranges b.

(** [for (const auto row : p.rows)] of [_drawGridlines], with the 16 bit
    counter [y]. *)
Fixpoint gridlineRows (p : RenderingPayload) (g : GridlinePayload)
    (rs : list (list GridLineRange)) (y : Z) (b : BackendD3D) : BackendD3D :=
  match rs with
  | [] => b
  | ranges :: rs' =>
      let b := match ranges with
               | [] => b
               | _ => _drawGridlineRow p g ranges y b
               end in
      gridlineRows p g rs' (to_u16 (y + 1)) b
  end.

Definition _drawGridlines (p : RenderingPayload) (g : GridlinePayload) (b : BackendD3D)
    : BackendD3D :=
  gridlineRows p g (gridLineRanges g) 0 b.

(** The copy of [_uploadColorBitmap], which is made unless the generations
    of the bitmaps say that the texture is up to date: [srcStride] is
    [p.colorBitmapRowStride * sizeof(u32)] and the bitmap ends
    [4 * p.colorBitmap.size()] bytes after its start. *)
Definition _uploadColorBitmap (fuel : nat) (p : RenderingPayload) (RowPitch : Z)
    : option (list memcpy) :=
  copyRows fuel (4 * Z.of_nat (length (colorBitmap p)))
    (to_size_t (colorBitmapRowStride p * 4)) RowPitch 0 0 [].

(** ** The frame *)

Definition _drawBackground (p : RenderingPayload) (b : BackendD3D) : BackendD3D :=
  _appendQuad {| shadingType := plain Background; position := v2_zero;
                 size := targetSize (s p); texcoord := v2_zero; color := 0 |} b.

(** The passes of [Render], from [_drawBackground] to [_flushQuads].  The
    settings update before them, the binding of the render target, the
    custom shader and [Present] act on device state that is not part of
    [BackendD3D] here. *)
Definition Render (fuel : nat) (p : RenderingPayload) (g : GridlinePayload) (b : BackendD3D)
    : outcome (RenderingPayload * BackendD3D) :=
  let b := _drawBackground p b in
  let b := _drawCursorPart1 p b in
  let* r := _drawText fuel p b in
  let b := _drawGridlines (fst r) g (snd r) in
  let b := _drawCursorPart2 (fst r) b in
  let b := _drawSelection (fst r) b in
  Done (fst r, _flushQuads b).

End Frame.

(* ===================================================================== *)
(** * Part II: notions the properties are stated with                     *)
(* ===================================================================== *)

(** ** The atlas size and the quad stream *)

(** The atlas size as the spec words it, in exact arithmetic: powers of
    two [u >= v], [u <= 2 v], an area of at least
    min(maxDeviceArea, min(1.25 viewportArea, scratch)) with
    scratch = max(128 * 128, 95 cellArea, 2 currentAtlasArea), and "in
    particular" an area of at least max(scratch, 1.25 viewportArea).
    Areas are compared after multiplying by 4. *)
Definition atlasSize_as_worded (st : Settings) (w h : Z) : Prop :=
  exists u v a b,
    atlasSize st w h = Some (u, v) /\ u = 2 ^ a /\ v = 2 ^ b /\ 0 <= a /\ 0 <= b /\
    v <= u <= 2 * v /\
    let viewportArea := v2.x (targetSize st) * v2.y (targetSize st) in
    let scratch :=
      Z.max (128 * 128)
        (Z.max (95 * (v2.x (cellSize (font st)) * v2.y (cellSize (font st)))) (2 * (w * h))) in
    Z.min (4 * maxArea) (Z.min (5 * viewportArea) (4 * scratch)) <= 4 * (u * v) /\
    Z.max (4 * scratch) (5 * viewportArea) <= 4 * (u * v).

(** The spans of the quad stream as the spec words them: consecutive
    pairs (previous offset, state change), the first previous offset
    being [0]. *)
Fixpoint spans (previousOffset : Z) (l : list StateChange) : list (Z * StateChange) :=
  match l with
  | [] => []
  | c :: l' => (previousOffset, c) :: spans (offset c) l'
  end.

(** What one span contributes: one draw call when it is not empty, then
    the switch to the blend state of its marker. *)
Definition spanCalls (sp : Z * StateChange) : list DeviceCall :=
  (if offset (snd sp) =? fst sp then []
   else [DrawIndexedInstanced 6 (offset (snd sp) - fst sp) 0 0 (fst sp)])
  ++ match blendState (snd sp) with
     | Some bs => [OMSetBlendState bs]
     | None => []
     end.

Fixpoint offsetsAscend (previousOffset count : Z) (l : list StateChange) : Prop :=
  match l with
  | [] => True
  | c :: l' => previousOffset <= offset c <= count /\ offsetsAscend (offset c) count l'
  end.

(** The invariant of the quad stream between the passes of a frame: the
    markers were recorded at ascending instance counts, and there is no
    marker without a quad. *)
Definition streamOk (b : BackendD3D) : Prop :=
  _instancesCount b < 2 ^ 32 /\
  offsetsAscend 0 (_instancesCount b) (_instancesStateChanges b) /\
  (_instancesCount b = 0 -> _instancesStateChanges b = []).

(** ** The text pass *)

Section Notions.
Context `{FP : Float32} `{EXT : !Collaborators}.

(** The number of atlas resets a device log records: [Clear] is called by
    [_resetGlyphAtlas] and nowhere else. *)
Fixpoint resets (l : list DeviceCall) : nat :=
  match l with
  | [] => 0
  | Clear :: l' => S (resets l')
  | _ :: l' => resets l'
  end.

(** The renderer right after an atlas reset: a packer that holds nothing,
    of a size [_resetGlyphAtlas] computes, and no glyph in any inner map. *)
Definition freshAtlas (p : RenderingPayload) (b : BackendD3D) : Prop :=
  (exists w h u v,
     atlasSize (s p) w h = Some (u, v) /\ _rectPacker b = stbrp_init_target u v) /\
  (forall k g, _glyphAtlasMap b !! k = Some g -> g = ∅).

(** The rectangle [_drawGlyph] requests from the packer for a glyph;
    [None] for an outline glyph without black box. *)
Definition requestedRect (p : RenderingPayload) (key : AtlasFontFaceKey) (glyphIndex : Z)
    : option (Z * Z) :=
  if fontFace key =? 0 then
    let w := v2.x (cellSize (font (s p))) in
    let h := v2.y (cellSize (font (s p))) in
    Some (if bool_decide (lineRendition key = SingleWidth) then w else Z.shiftl w 1,
          if bool_decide (lineRendition key = SingleWidth) then h
          else Z.shiftl h (if isDoubleHeight (lineRendition key) then 1 else 0))
  else
    let box := GetGlyphRunWorldBounds (fontFace key) glyphIndex (lineRendition key) in
    if f32_ge (box_left box) (box_right box) || f32_ge (box_top box) (box_bottom box)
    then None
    else Some (lrintf (box_right box) - lrintf (box_left box),
               lrintf (box_bottom box) - lrintf (box_top box)).


(** The retry as the spec words it: "restart the entire run from
    [m.glyphsFrom]".  It differs from [drawRun] in the index the next pass
    starts from. *)
Fixpoint drawRun_restarting (fuel : nat) (p : RenderingPayload) (row : ShapedRow) (baselineY : Z)
    (m : FontMapping) (t : TextState) : outcome TextState :=
  match fuel with
  | O => OutOfFuel
  | S fuel' =>
      let key := {| fontFace := m_fontFace m; lineRendition := row_lineRendition row |} in
      let t := with_backend
                 (set_glyphAtlasMap (insertFontFace key (_glyphAtlasMap (backend t))) (backend t)) t in
      let* e := glyphLoop (Z.to_nat (glyphsTo m - x t)) p row baselineY key t in
      match e with
      | Finished t => Done t
      | Retry t =>
          drawRun_restarting fuel' p row baselineY m
            {| x := glyphsFrom m; baselineX := baselineX t;
               row_dirtyTop := row_dirtyTop t; row_dirtyBottom := row_dirtyBottom t;
               accumulatorLigature := accumulatorLigature t; backend := backend t |}
      end
  end.


(** The retry as the spec words it, as a statement about the code: a run
    gives what the restarting run gives. *)
Definition restart_as_worded (fuel : nat) (p : RenderingPayload) (row : ShapedRow)
    (baselineY : Z) (m : FontMapping) (t : TextState) : Prop :=
  drawRun fuel p row baselineY m t = drawRun_restarting fuel p row baselineY m t.

(** What the result of rasterizing a glyph can be: success without an
    atlas reset, or [false] after exactly one reset that leaves a fresh
    atlas and an empty quad stream, or the undefined index. *)
Definition glyphOutcome (p : RenderingPayload) (key : AtlasFontFaceKey) (b : BackendD3D)
    (r : outcome (bool * BackendD3D)) : Prop :=
  match r with
  | Done (true, b') =>
      (forall k, is_Some (_glyphAtlasMap b !! k) -> is_Some (_glyphAtlasMap b' !! k)) /\
      resets (device b') = resets (device b)
  | Done (false, b') =>
      freshAtlas p b' /\
      (forall k, is_Some (_glyphAtlasMap b !! k) -> is_Some (_glyphAtlasMap b' !! k)) /\
      resets (device b') = S (resets (device b)) /\
      _instances b' = []
  | Fail e =>
      e = UndefinedIndex /\
      atlasSize (s p) (width (_rectPacker b)) (height (_rectPacker b)) = None
  | OutOfFuel => False
  end.

(** How the glyph loop started in [t] with [n] glyphs to go can end: at
    the end of the run without a reset, or through the retry exit at the
    glyph that failed, after exactly one reset. *)
Definition loopOutcome (p : RenderingPayload) (key : AtlasFontFaceKey) (t : TextState) (n : nat)
    (r : outcome LoopExit) : Prop :=
  match r with
  | Done (Finished t') =>
      is_Some (_glyphAtlasMap (backend t') !! key) /\
      resets (device (backend t')) = resets (device (backend t)) /\
      (0 <= x t -> x t + Z.of_nat n < 2 ^ 32 -> x t' = x t + Z.of_nat n)
  | Done (Retry t') =>
      freshAtlas p (backend t') /\
      is_Some (_glyphAtlasMap (backend t') !! key) /\
      resets (device (backend t')) = S (resets (device (backend t))) /\
      _instances (backend t') = [] /\
      (0 <= x t -> x t + Z.of_nat n < 2 ^ 32 -> x t <= x t' < x t + Z.of_nat n)
  | Fail e => e = UndefinedIndex /\ exists w h, atlasSize (s p) w h = None
  | OutOfFuel => False
  end.

(** The cache key of a run, and the state at [drawGlyphRetry:] after the
    font face entry of the run was inserted. *)
Definition runKey (row : ShapedRow) (m : FontMapping) : AtlasFontFaceKey :=
  {| fontFace := m_fontFace m; lineRendition := row_lineRendition row |}.

Definition atRetryLabel (row : ShapedRow) (m : FontMapping) (t : TextState) : TextState :=
  with_backend
    (set_glyphAtlasMap (insertFontFace (runKey row m) (_glyphAtlasMap (backend t))) (backend t)) t.

End Notions.

Section SpecifiedSelection.
Context `{FP : Float32}.

(** The selection quads as the spec words them: one quad for every maximal
    block of consecutive rows that share one non-empty selection; a row
    without a selection ends the block. *)
Fixpoint coalescedSelection (p : RenderingPayload) (y : Z) (previous : option (Z * Z))
    (rs : list ShapedRow) (acc : list QuadInstance) : list QuadInstance :=
  match rs with
  | [] => acc
  | row :: rs' =>
      if selectionFrom row <? selectionTo row then
        if bool_decide (previous = Some (selectionFrom row, selectionTo row))
        then coalescedSelection p (y + 1) previous rs'
               (modify_last (growQuad (v2.y (cellSize (font (s p))))) acc)
        else coalescedSelection p (y + 1) (Some (selectionFrom row, selectionTo row)) rs'
               (acc ++ [selectionQuad p row y])
      else coalescedSelection p (y + 1) None rs' acc
  end.

End SpecifiedSelection.

(** ** Device logs *)

(** The instance a device log has drawn up to, when its draw calls draw
    consecutive ranges of instances that are not empty, the first of them
    starting at [next]; [None] when a draw call leaves a gap, draws an
    instance again or draws nothing. *)
Fixpoint drawnUpTo (next : Z) (l : list DeviceCall) : option Z :=
  match l with
  | [] => Some next
  | DrawIndexedInstanced _ InstanceCount _ _ StartInstanceLocation :: l' =>
      if (StartInstanceLocation =? next) && (0 <? InstanceCount)
      then drawnUpTo (next + InstanceCount) l'
      else None
  | _ :: l' => drawnUpTo next l'
  end.

(** Direct2D drawing across a device log.  The state is whether a
    [BeginDraw] is open; a call is out of place, and the state [None], when
    [BeginDraw] is nested, [EndDraw] has no [BeginDraw], Direct2D draws
    outside of the pair, or Direct3D draws, switches the blend state or
    creates the atlas texture inside of it. *)
Definition d2dStep (st : option bool) (c : DeviceCall) : option bool :=
  match st with
  | None => None
  | Some open =>
      match c with
      | BeginDraw => if open then None else Some true
      | EndDraw => if open then Some false else None
      | Clear | DrawGlyphRun _ _ _ _ | DrawBitmap _ _ _ _ _ =>
          if open then Some true else None
      | DrawIndexedInstanced _ _ _ _ _ | OMSetBlendState _ | CreateTexture2D _ _ =>
          if open then None else Some false
      | SetTransform _ _ _ _ => Some open
      end
  end.

Definition d2dState (l : list DeviceCall) : option bool :=
  fold_left d2dStep l (Some false).

(** The renderer agrees with its device log about Direct2D drawing. *)
Definition d2dOk (b : BackendD3D) : Prop :=
  d2dState (device b) = Some (_d2dBeganDrawing b).

(** ** The quad stream between the passes *)

(** [streamOk] without its bound on the number of quads. *)
Definition markersOk (b : BackendD3D) : Prop :=
  offsetsAscend 0 (_instancesCount b) (_instancesStateChanges b) /\
  (_instances b = [] -> _instancesStateChanges b = []).

(** The renderer between two frames: no quad, no marker, Direct2D drawing
    closed. *)
Definition betweenFrames (b : BackendD3D) : Prop :=
  _instances b = [] /\ _instancesStateChanges b = [] /\
  d2dOk b /\ _d2dBeganDrawing b = false.

(** The number of bytes the quads of a flush and the cells of the viewport
    ask of the instance buffer of the device. *)
Definition neededBytes (sizeofQuadInstance : Z) (st : Settings) (instancesCount : Z) : Z :=
  Z.max instancesCount (v2.x (cellCount st) * v2.y (cellCount st)) * sizeofQuadInstance.

(** The sizes [_bumpInstancesSize] gives the instance buffer. *)
Definition isCapacity (c : Z) : Prop :=
  c = 0 \/ exists k, 0 <= k /\ c = 256 * 2 ^ k.

(** [b'] has the quads and the markers of [b]. *)
Definition streamKept (b b' : BackendD3D) : Prop :=
  _instances b' = _instances b /\ _instancesStateChanges b' = _instancesStateChanges b.

(** [b'] comes from [b] by appending quads or changing quads in place:
    the markers, the device log and the state of Direct2D drawing are
    those of [b], and no quad went away. *)
Definition quadsOnly (b b' : BackendD3D) : Prop :=
  device b' = device b /\
  _d2dBeganDrawing b' = _d2dBeganDrawing b /\
  _instancesStateChanges b' = _instancesStateChanges b /\
  (length (_instances b) <= length (_instances b'))%nat.

(** ** Selection and gridlines *)

Section DecorationNotions.
Context `{FP : Float32}.

(** The rows of [rs] that have a selection. *)
Definition selectedRows (rs : list ShapedRow) : list ShapedRow :=
  List.filter (fun r => selectionFrom r <? selectionTo r) rs.

(** A quad with another height. *)
Definition withHeight (h : Z) (q : QuadInstance) : QuadInstance :=
  {| shadingType := shadingType q; position := position q;
     size := v2.mk (v2.x (size q)) h; texcoord := texcoord q; color := color q |}.

(** The quad [appendVerticalLine(col)] appends. *)
Definition verticalLineQuad (p : RenderingPayload) (r : GridLineRange) (y col : Z) : QuadInstance :=
  {| shadingType := plain SolidFill;
     position := v2.mk (to_i16 (col * v2.x (cellSize (font (s p)))))
                       (to_i16 (v2.y (cellSize (font (s p))) * y));
     size := v2.mk (thinLineWidth (font (s p))) (v2.y (cellSize (font (s p))));
     texcoord := v2_zero;
     color := gl_color r |}.

End DecorationNotions.

(** The number of quads of a gridline range: one per cell for the left and
    for the right lines, two for the double underline, one for every other
    kind. *)
Definition gridlineQuadCount (r : GridLineRange) : Z :=
  let cells := Z.max 0 (gl_to r - gl_from r) in
  (if gl_lines r GridLines.Left then cells else 0) +
  (if gl_lines r GridLines.Top then 1 else 0) +
  (if gl_lines r GridLines.Right then cells else 0) +
  (if gl_lines r GridLines.Bottom then 1 else 0) +
  (if gl_lines r GridLines.Underline then 1 else 0) +
  (if gl_lines r GridLines.HyperlinkUnderline then 1 else 0) +
  (if gl_lines r GridLines.DoubleUnderline then 2 else 0) +
  (if gl_lines r GridLines.Strikethrough then 1 else 0).

(** The number of quads of the gridlines of a frame. *)
Definition gridlineQuadTotal (rs : list (list GridLineRange)) : Z :=
  fold_right (fun ranges total =>
                fold_right (fun r total => gridlineQuadCount r + total) 0 ranges + total) 0 rs.

(** [b'] has the quads of [b] and, behind them, [n] quads that satisfy
    [P]. *)
Definition addsQuads (P : QuadInstance -> Prop) (n : Z) (b b' : BackendD3D) : Prop :=
  exists qs, _instances b' = _instances b ++ qs /\ Z.of_nat (length qs) = n /\ Forall P qs.

(** A gridline quad: a solid fill without texture. *)
Definition isGridlineQuad (q : QuadInstance) : Prop :=
  shadingType q = plain SolidFill /\ texcoord q = v2_zero.

(* ===================================================================== *)
(** * Part III: concrete collaborators and payloads                       *)
(* ===================================================================== *)

(** Floats that hold small integers; every operation of [Float32] is exact
    on them. *)
Definition integerFloats : Float32 :=
  {| f32 := Z; f32_of_int := fun z => z; f32_add := Z.add; f32_sub := Z.sub;
     f32_ge := Z.geb; lrintf := fun z => z |}.

Definition stackedHeight (c : stbrp_context) : Z :=
  fold_right (fun r acc => r_h r + acc) 0 (packed c).

(** A packer that stacks the rectangles below each other, from the top of
    the texture. *)
Definition stackPacker (c : stbrp_context) (w h : Z) : option (Z * Z) :=
  if (w <=? width c) && (stackedHeight c + h <=? height c)
  then Some (0, stackedHeight c)
  else None.

(** Every glyph has the black box [0, gw] x [-gh, 0] and no color. *)
Definition uniformGlyphs (gw gh : Z) : @Collaborators integerFloats :=
  {| stbrp_pack_rects := stackPacker;
     GetGlyphRunWorldBounds := fun _ _ _ =>
       @Build_D2D1_RECT_F integerFloats 0 (- gh) gw 0;
     isColorGlyph := fun _ _ => false |}.

Definition font50x100 : FontSettings :=
  {| cellSize := v2.mk 50 100; baseline := 80; descender := 20;
     underlinePos := 85; underlineWidth := 2;
     doubleUnderlinePos := v2.mk 83 88; thinLineWidth := 2;
     antialiasingMode := Grayscale;
     ligatureOverhangTriggerLeft := -8;
     ligatureOverhangTriggerRight := 58 |}.

(** A 100 by 100 pixel viewport of 2 by 1 cells: the atlas is 128 by 128. *)
Definition settings100 : Settings :=
  {| font := font50x100;
     cursor := {| cursorColor := 0xffffffff; cursorType := FullBox; heightPercentage := 20 |};
     misc := {| backgroundColor := 0xff000000; selectionColor := 0xff808080 |};
     targetSize := v2.mk 100 100;
     cellCount := v2.mk 2 1 |}.

(** A 1000 by 1000 pixel viewport with 10 by 20 pixel cells. *)
Definition settings1000 : Settings :=
  {| font :=
       {| cellSize := v2.mk 10 20; baseline := 15; descender := 5;
          underlinePos := 17; underlineWidth := 1;
          doubleUnderlinePos := v2.mk 16 18; thinLineWidth := 1;
          antialiasingMode := ClearType;
          ligatureOverhangTriggerLeft := -2;
          ligatureOverhangTriggerRight := 12 |};
     cursor := {| cursorColor := 0xffffffff; cursorType := EmptyBox; heightPercentage := 20 |};
     misc := {| backgroundColor := 0xff000000; selectionColor := 0xff808080 |};
     targetSize := v2.mk 1000 1000;
     cellCount := v2.mk 100 50 |}.

Definition textRow (ms : list FontMapping) (glyphs : list Z) : @ShapedRow integerFloats :=
  @Build_ShapedRow integerFloats ms glyphs
    (map (fun _ => 50) glyphs)
    (map (fun _ => @Build_DWRITE_GLYPH_OFFSET integerFloats 0 0) glyphs)
    (map (fun _ => 0xffffffff) glyphs)
    SingleWidth 0 0 0 100.

Definition payloadOf (st : Settings) (rs : list (@ShapedRow integerFloats))
    : @RenderingPayload integerFloats :=
  @Build_RenderingPayload integerFloats st rs
    [0xff102030; 0xff102030; 0xff000000; 0xff000000] 2
    (rect.mk 0 0 2 1)
    {| range_start := 0; range_end := 1 |}
    (rect.mk 0 0 100 100).

(** One row, one run of three glyphs of one font face. *)
Definition threeGlyphs : @RenderingPayload integerFloats :=
  payloadOf settings100
    [textRow [{| m_fontFace := 1; glyphsFrom := 0; glyphsTo := 3 |}] [65; 66; 67]].

(** One row with two runs: glyph 65 of face 1, then glyphs 66 and 67 of
    face 2. *)
Definition twoRuns : @RenderingPayload integerFloats :=
  payloadOf settings100
    [textRow [{| m_fontFace := 1; glyphsFrom := 0; glyphsTo := 1 |};
              {| m_fontFace := 2; glyphsFrom := 1; glyphsTo := 3 |}] [65; 66; 67]].

Definition solidQuad (x y w h : Z) : QuadInstance :=
  {| shadingType := plain SolidFill; position := v2.mk x y; size := v2.mk w h;
     texcoord := v2_zero; color := 0xffffffff |}.

(** Three quads, the second drawn with the invert blend state. *)
Definition threeQuadStream : BackendD3D :=
  set_instancesStateChanges
    [{| blendState := Some _blendStateInvert; offset := 1 |};
     {| blendState := Some _blendState; offset := 2 |}]
    (set_instances [solidQuad 0 0 10 20; solidQuad 0 0 10 20; solidQuad 10 0 10 20] newBackend).

(** A row without text whose cells [from, to) are selected. *)
Definition selectionRowOf (from to : Z) : @ShapedRow integerFloats :=
  @Build_ShapedRow integerFloats [] [] [] [] [] SingleWidth from to 0 0.

(** Three rows: cells 1 and 2 selected in the first and in the third row,
    nothing selected in the second. *)
Definition selectionGapped : @RenderingPayload integerFloats :=
  payloadOf settings1000 [selectionRowOf 1 3; selectionRowOf 0 0; selectionRowOf 1 3].

(** A cursor over two cells of one background color. *)
Definition cursorPayload (color : Z) : @RenderingPayload integerFloats :=
  payloadOf
    {| font := font50x100;
       cursor := {| cursorColor := color; cursorType := EmptyBox; heightPercentage := 20 |};
       misc := {| backgroundColor := 0xff000000; selectionColor := 0xff808080 |};
       targetSize := v2.mk 100 100;
       cellCount := v2.mk 2 1 |}
    [].

(** The result of a computation that is known to end. *)
Definition resultOf {A : Type} (d : A) (r : outcome A) : A :=
  match r with
  | Done a => a
  | _ => d
  end.

Definition retryStateOf (d : @TextState integerFloats) (r : outcome (@LoopExit integerFloats))
    : @TextState integerFloats :=
  match r with
  | Done (Retry t) => t
  | _ => d
  end.

(** The renderer at the start of the first frame after a font change: the
    text pass begins with an atlas reset. *)
Definition firstFrame : BackendD3D := _updateFontDependents settings100 newBackend.

Definition glyphRow : @ShapedRow integerFloats :=
  textRow [{| m_fontFace := 1; glyphsFrom := 0; glyphsTo := 3 |}] [65; 66; 67].

Definition run0to3 : FontMapping := {| m_fontFace := 1; glyphsFrom := 0; glyphsTo := 3 |}.
Definition run1to3 : FontMapping := {| m_fontFace := 2; glyphsFrom := 1; glyphsTo := 3 |}.

(** The state of the text pass of [threeGlyphs] when its only run starts,
    after the atlas reset that opens the pass; every glyph is 100 by 100
    pixels, so that the 128 by 128 atlas holds one glyph at a time. *)
Definition threeGlyphsStart : @TextState integerFloats :=
  @Build_TextState integerFloats 0 0 0 100 false
    (resultOf newBackend
       (@_resetGlyphAtlas integerFloats threeGlyphs firstFrame)).

Definition twoRunsRow : @ShapedRow integerFloats :=
  textRow [{| m_fontFace := 1; glyphsFrom := 0; glyphsTo := 1 |}; run1to3] [65; 66; 67].

(** The state of the text pass of [twoRuns] when its second run starts;
    every glyph is 100 by 60 pixels, so that the atlas holds two glyphs,
    and glyph 65 of the first run is in it. *)
Definition twoRunsSecondStart : @TextState integerFloats :=
  let start := @Build_TextState integerFloats 0 0 0 100 false
                 (resultOf newBackend (@_resetGlyphAtlas integerFloats twoRuns firstFrame)) in
  let t := resultOf start
             (@drawRun integerFloats (uniformGlyphs 100 60) 1 twoRuns twoRunsRow 80
                {| m_fontFace := 1; glyphsFrom := 0; glyphsTo := 1 |} start) in
  @Build_TextState integerFloats 1 (@baselineX integerFloats t)
    (@row_dirtyTop integerFloats t) (@row_dirtyBottom integerFloats t)
    (@accumulatorLigature integerFloats t) (@backend integerFloats t).

(** A double height glyph of face 1 in the top rendition: 100 by 200
    pixels, 170 pixels above the baseline origin once the descender is
    taken off. *)
Definition tallKey : AtlasFontFaceKey := topKey 1.

Definition tallGlyph : AtlasGlyphEntryData :=
  {| g_shadingType := plain TextGrayscale; g_offset := v2.mk 0 (-150);
     g_size := v2.mk 100 200; g_texcoord := v2.mk 0 0 |}.

Definition tallBackend : BackendD3D :=
  set_glyphAtlasMap (<[tallKey := <[65 := tallGlyph]> ∅]> ∅) newBackend.

(** Rows 0, 3 and 4 select the cells 2, 3 and 4; rows 1 and 2 select
    nothing. *)
Definition selectionTwoBlocks : @RenderingPayload integerFloats :=
  payloadOf settings1000
    [selectionRowOf 2 5; selectionRowOf 0 0; selectionRowOf 0 0;
     selectionRowOf 2 5; selectionRowOf 2 5].

(** ** Frames, buffers and decorations to try the properties on *)

(** A frame without gridlines. *)
Definition noGridlines : GridlinePayload :=
  {| strikethroughPos := 50; strikethroughWidth := 2; gridLineRanges := [[]] |}.

(** The cells 1, 2 and 3 of a row with every kind of line. *)
Definition allLines : GridLineRange :=
  {| gl_lines := fun _ => true; gl_color := 0xff00ff00; gl_from := 1; gl_to := 4 |}.

(** Two rows, the first with that range, the second without gridlines. *)
Definition someGridlines : GridlinePayload :=
  {| strikethroughPos := 50; strikethroughWidth := 2; gridLineRanges := [[allLines]; []] |}.

(** The frame of [threeGlyphs] after a font change, with glyphs of 100 by
    100 pixels, and what [Render] makes of it. *)
Definition threeGlyphsFrame
    : outcome (@RenderingPayload integerFloats * BackendD3D) :=
  @Render integerFloats (uniformGlyphs 100 100) 4 threeGlyphs noGridlines firstFrame.

Definition threeGlyphsText
    : outcome (@RenderingPayload integerFloats * BackendD3D) :=
  @_drawText integerFloats (uniformGlyphs 100 100) 4 threeGlyphs firstFrame.

(** The text pass of [threeGlyphs] as [Render] runs it, behind the
    background and the first cursor pass. *)
Definition threeGlyphsTextInFrame
    : outcome (@RenderingPayload integerFloats * BackendD3D) :=
  @_drawText integerFloats (uniformGlyphs 100 100) 4 threeGlyphs
    (@_drawCursorPart1 integerFloats threeGlyphs (@_drawBackground integerFloats threeGlyphs firstFrame)).

(** The renderer at the retry label of the only run of [threeGlyphs], the
    atlas empty. *)
Definition atLabelStart : @TextState integerFloats :=
  @atRetryLabel integerFloats glyphRow run0to3 threeGlyphsStart.

Definition face1 : AtlasFontFaceKey := {| fontFace := 1; lineRendition := SingleWidth |}.

(** The first run of [twoRuns] once more, on the renderer that has drawn
    it: glyph 65 of face 1 is in the cache. *)
Definition run0to1 : FontMapping := {| m_fontFace := 1; glyphsFrom := 0; glyphsTo := 1 |}.

Definition firstRunAgain : @TextState integerFloats :=
  @Build_TextState integerFloats 0 0 0 100 false (@backend integerFloats twoRunsSecondStart).

(** A cursor of two cells over two background colors. *)
Definition cursorTwoBackgrounds : @RenderingPayload integerFloats :=
  @Build_RenderingPayload integerFloats settings100 []
    [0xff102030; 0xff405060; 0xff000000; 0xff000000] 2
    (rect.mk 0 0 2 1)
    {| range_start := 0; range_end := 1 |}
    (rect.mk 0 0 100 100).

(** An instance buffer that was never allocated. *)
Definition noInstances : Instances.t := Instances.mk [] 0.

(** The instance buffer of the device before the first flush. *)
Definition noInstanceBuffer : InstanceBuffer :=
  {| ByteWidth := 0; _instanceBufferCapacity := 0 |}.

(** [_drawGlyph] of glyph 65 of face 1 at the retry label, with glyphs of
    100 by 100 pixels. *)
Definition firstGlyphDrawn : BackendD3D :=
  snd (resultOf (false, @backend integerFloats atLabelStart)
         (@_drawGlyph integerFloats (uniformGlyphs 100 100) threeGlyphs face1 65
            (@backend integerFloats atLabelStart))).

(** The rows of [selectionTwoBlocks] behind the first one. *)
Definition selectionTwoBlocksRest : list (@ShapedRow integerFloats) :=
  [selectionRowOf 0 0; selectionRowOf 0 0; selectionRowOf 2 5; selectionRowOf 2 5].

(* ===================================================================== *)
(** * Part IV: properties                                                 *)
(* ===================================================================== *)

(** ** The size of the atlas texture *)

Lemma atlasArea_le_maxArea st w h : atlasArea st w h <= 2 ^ 26.
Proof. unfold atlasArea. change (2 ^ 26) with maxArea. lia. Qed.

Lemma halves_sum i : 0 <= i -> (i + 2) / 2 + (i + 1) / 2 = i + 1.
Proof.
  intros Hi.
  pose proof (Z.div_mod i 2 ltac:(lia)) as Hd.
  pose proof (Z.mod_pos_bound i 2 ltac:(lia)) as Hm.
  assert (E2 : (i + 2) / 2 = i / 2 + 1).
  { replace (i + 2) with (i + 1 * 2) by lia. rewrite Z.div_add by lia. reflexivity. }
  assert (i mod 2 = 0 \/ i mod 2 = 1) as [E|E] by lia.
  - assert ((i + 1) / 2 = i / 2).
    { replace (i + 1) with (1 + i / 2 * 2) by lia. rewrite Z.div_add by lia. reflexivity. }
    lia.
  - assert ((i + 1) / 2 = i / 2 + 1).
    { replace (i + 1) with (0 + (i / 2 + 1) * 2) by lia. rewrite Z.div_add by lia. reflexivity. }
    lia.
Qed.

Lemma halves_order i :
  0 <= i -> 0 <= (i + 1) / 2 <= (i + 2) / 2 /\ (i + 2) / 2 <= (i + 1) / 2 + 1.
Proof.
  intros Hi. pose proof (halves_sum i Hi).
  assert ((i + 1) / 2 <= (i + 2) / 2) by (apply Z.div_le_mono; lia).
  assert (0 <= (i + 1) / 2) by (apply Z.div_pos; lia).
  assert ((i + 2) / 2 = i / 2 + 1).
  { replace (i + 2) with (i + 1 * 2) by lia. rewrite Z.div_add by lia. reflexivity. }
  assert (i / 2 <= (i + 1) / 2) by (apply Z.div_le_mono; lia).
  lia.
Qed.

Lemma shiftl_1_u16 k : 0 <= k <= 13 -> to_u16 (to_u32 (Z.shiftl 1 k)) = 2 ^ k.
Proof.
  intros Hk. rewrite Z.shiftl_1_l.
  assert (2 ^ k <= 2 ^ 13) by (apply Z.pow_le_mono_r; lia).
  assert (0 < 2 ^ k) by (apply Z.pow_pos_nonneg; lia).
  change (2 ^ 13) with 8192 in *.
  unfold to_u16, to_u32. change (2 ^ 16) with 65536. change (2 ^ 32) with 4294967296.
  rewrite (Z.mod_small (2 ^ k) 4294967296) by lia.
  apply Z.mod_small; lia.
Qed.

(** C3, as amended.  Whenever the area computed by [_resetGlyphAtlas] is
    at least 2, the texture dimensions [u] and [v] are powers of two with
    [v <= u <= 2 v] and [u * v] is the smallest power of two that is not
    below that area, the area being
    min(maxArea, min(targetArea + targetArea / 4,
                     max(128 * 128, 95 cellArea, 2 width height)))
    in 32 bit unsigned arithmetic.  The 1.25-fold viewport area is an upper
    cap of the area, not a lower bound of it. *)
Theorem atlasSize_power_of_two (st : Settings) (w h : Z) :
  2 <= atlasArea st w h ->
  exists u v a b,
    atlasSize st w h = Some (u, v) /\ u = 2 ^ a /\ v = 2 ^ b /\ 0 <= b /\ 0 <= a /\
    v <= u <= 2 * v /\
    atlasArea st w h <= u * v < 2 * atlasArea st w h.
Proof.
  intros Harea.
  pose proof (atlasArea_le_maxArea st w h) as Hmax.
  unfold atlasSize.
  set (area := atlasArea st w h) in *.
  assert (Hm : to_u32 (area - 1) = area - 1).
  { unfold to_u32. apply Z.mod_small. lia. }
  rewrite Hm. unfold _BitScanReverse.
  destruct (Z.eqb_spec (area - 1) 0) as [E|_]; [lia|].
  set (index := Z.log2 (area - 1)).
  assert (Hlog : 2 ^ index <= area - 1 < 2 ^ (index + 1)).
  { pose proof (Z.log2_spec (area - 1) ltac:(lia)) as Hs.
    unfold index.
    replace (Z.log2 (area - 1) + 1) with (Z.succ (Z.log2 (area - 1))) by lia.
    exact Hs. }
  assert (Hi0 : 0 <= index) by apply Z.log2_nonneg.
  assert (Hi : index < 26) by (apply Z.log2_lt_pow2; lia).
  destruct (halves_order index Hi0) as [[Hb0 Hba] Hab].
  pose proof (halves_sum index Hi0) as Hsum.
  set (a := (index + 2) / 2) in *. set (b := (index + 1) / 2) in *.
  exists (2 ^ a), (2 ^ b), a, b.
  rewrite !shiftl_1_u16 by lia.
  assert (Hprod : 2 ^ a * 2 ^ b = 2 ^ (index + 1)).
  { rewrite <- Z.pow_add_r by lia. f_equal. lia. }
  assert (0 < 2 ^ b) by (apply Z.pow_pos_nonneg; lia).
  assert (2 ^ b <= 2 ^ a) by (apply Z.pow_le_mono_r; lia).
  assert (2 ^ a <= 2 ^ (b + 1)) by (apply Z.pow_le_mono_r; lia).
  assert (2 ^ (b + 1) = 2 * 2 ^ b) by (rewrite Z.pow_add_r by lia; lia).
  assert (2 ^ (index + 1) = 2 * 2 ^ index) by (rewrite Z.pow_add_r by lia; lia).
  repeat split; try lia.
Qed.

(** The amended C3 at a 1000 by 1000 viewport with 10 by 20 cells and no
    atlas yet: a 256 by 128 texture. *)
Lemma atlasSize_power_of_two_witness :
  2 <= atlasArea settings1000 0 0 /\
  exists u v a b,
    atlasSize settings1000 0 0 = Some (u, v) /\ u = 2 ^ a /\ v = 2 ^ b /\ 0 <= b /\ 0 <= a /\
    v <= u <= 2 * v /\
    atlasArea settings1000 0 0 <= u * v < 2 * atlasArea settings1000 0 0.
Proof.
  split; [vm_compute; discriminate | apply (atlasSize_power_of_two settings1000 0 0)].
  vm_compute; discriminate.
Defined.

(** C3 as worded fails: for a 1000 by 1000 viewport with 10 by 20 cells
    the first atlas is 256 by 128, far below 1.25 times the viewport. *)
Lemma atlasSize_as_worded_fails : ~ atlasSize_as_worded settings1000 0 0.
Proof.
  intros (u & v & a & b & Hsz & _ & _ & _ & _ & _ & _ & Hbig).
  assert (E : atlasSize settings1000 0 0 = Some (256, 128)) by (vm_compute; reflexivity).
  rewrite E in Hsz. injection Hsz as <- <-.
  vm_compute in Hbig. apply Hbig. reflexivity.
Qed.

(** ** Draw-call compaction *)

Lemma offsetsAscend_app prev count l1 l2 :
  offsetsAscend prev count (l1 ++ l2) <->
  offsetsAscend prev count l1 /\ offsetsAscend (List.last (prev :: map offset l1) 0) count l2.
Proof.
  revert prev. induction l1 as [|c l1 IH]; intros prev; simpl.
  - tauto.
  - rewrite IH. destruct l1; simpl; tauto.
Qed.

Lemma spans_length prev l : length (spans prev l) = length l.
Proof. revert prev. induction l as [|c l IH]; intros prev; simpl; [|rewrite IH]; reflexivity. Qed.

Lemma flushStep_spanCalls calls prev c count :
  0 <= prev -> prev <= offset c <= count -> count < 2 ^ 32 ->
  flushStep (calls, prev) c = (calls ++ spanCalls (prev, c), offset c).
Proof.
  intros Hp Hc Hcount. unfold flushStep, spanCalls. simpl.
  assert (E : to_size_t (offset c - prev) = offset c - prev).
  { unfold to_size_t. apply Z.mod_small. split; [lia|].
    assert (2 ^ 32 < 2 ^ 64) by (vm_compute; reflexivity). lia. }
  rewrite E.
  assert (E1 : to_u32 (offset c - prev) = offset c - prev)
    by (unfold to_u32; apply Z.mod_small; lia).
  assert (E2 : to_u32 prev = prev) by (unfold to_u32; apply Z.mod_small; lia).
  rewrite E1, E2.
  destruct (Z.eqb_spec (offset c - prev) 0) as [E0|E0];
    destruct (Z.eqb_spec (offset c) prev) as [E3|E3]; try lia;
    destruct (blendState c); simpl; rewrite <- ?app_assoc; simpl; rewrite ?app_nil_r; reflexivity.
Qed.

Lemma flushLoop_spans l : forall calls prev count,
  0 <= prev -> offsetsAscend prev count l -> count < 2 ^ 32 ->
  fst (fold_left flushStep l (calls, prev)) = calls ++ concat (map spanCalls (spans prev l)).
Proof.
  induction l as [|c l IH]; intros calls prev count Hp Hasc Hcount.
  - simpl. rewrite app_nil_r. reflexivity.
  - destruct Hasc as [Hc Hasc]. cbn [fold_left spans map concat].
    rewrite (flushStep_spanCalls calls prev c count) by assumption.
    rewrite (IH _ _ count) by (assumption || lia).
    rewrite <- app_assoc. reflexivity.
Qed.

Lemma offsetsAscend_last count l : forall prev,
  0 <= prev <= count -> offsetsAscend prev count l ->
  0 <= List.last (prev :: map offset l) 0 <= count.
Proof.
  induction l as [|c l IH]; intros prev Hp Hl.
  - simpl. lia.
  - destruct Hl as [Hc Hl]. specialize (IH (offset c) ltac:(lia) Hl).
    simpl in IH. simpl. exact IH.
Qed.

(** C6.  On a quad stream that satisfies its invariant, [_flushQuads]
    behaves as if the sentinel marker (instance count, null blend state)
    were appended to the [N] recorded markers and the resulting [N + 1]
    spans were visited in order: a span that is not empty issues one
    [DrawIndexedInstanced(6, next.offset - prev.offset, 0, 0, prev.offset)],
    an empty span issues none, and after each span the blend state of its
    marker is set unless it is null.  The stream is empty afterwards. *)
Theorem flushQuads_spans (b : BackendD3D) :
  streamOk b ->
  let sentinel := {| blendState := None; offset := _instancesCount b |} in
  let considered := spans 0 (_instancesStateChanges b ++ [sentinel]) in
  length considered = S (length (_instancesStateChanges b)) /\
  device (_flushQuads b) = device b ++ concat (map spanCalls considered) /\
  _instancesStateChanges (_flushQuads b) = [] /\
  _instances (_flushQuads b) = [].
Proof.
  intros (Hcount & Hasc & Hnone) sentinel considered.
  split.
  { unfold considered. rewrite spans_length, length_app. simpl. lia. }
  unfold _flushQuads.
  destruct (Z.eqb_spec (_instancesCount b) 0) as [E|E].
  - specialize (Hnone E). unfold considered, sentinel. rewrite Hnone, E. simpl.
    rewrite app_nil_r. repeat split; try assumption.
    unfold _instancesCount in E. destruct (_instances b); [reflexivity|discriminate].
  - repeat split. simpl.
    apply (flushLoop_spans _ _ _ (_instancesCount b)); try lia.
    apply offsetsAscend_app. split; [assumption|].
    simpl. split; [|exact I].
    assert (0 <= _instancesCount b) by (unfold _instancesCount; lia).
    pose proof (offsetsAscend_last (_instancesCount b) (_instancesStateChanges b) 0
                  ltac:(lia) Hasc) as Hlast.
    simpl in Hlast. lia.
Qed.

(** C6 on a stream of three quads with two markers: three spans, three
    draw calls, two blend state switches. *)
Lemma flushQuads_spans_witness :
  streamOk threeQuadStream /\
  device (_flushQuads threeQuadStream) =
    [DrawIndexedInstanced 6 1 0 0 0; OMSetBlendState _blendStateInvert;
     DrawIndexedInstanced 6 1 0 0 1; OMSetBlendState _blendState;
     DrawIndexedInstanced 6 1 0 0 2].
Proof.
  assert (H : streamOk threeQuadStream).
  { unfold streamOk. vm_compute. repeat split; discriminate. }
  split; [exact H|].
  destruct (flushQuads_spans threeQuadStream H) as (_ & Hdev & _).
  rewrite Hdev. vm_compute. reflexivity.
Defined.

Lemma streamOk_newBackend : streamOk newBackend.
Proof. unfold streamOk. simpl. repeat split; try (vm_compute; reflexivity). Qed.

Lemma offsetsAscend_mono prev count count' l :
  count <= count' -> offsetsAscend prev count l -> offsetsAscend prev count' l.
Proof.
  intros Hle. revert prev. induction l as [|c l IH]; intros prev; simpl; [tauto|].
  intros [Hc Hl]. split; [lia|]. apply IH. exact Hl.
Qed.

Lemma streamOk_appendQuad q b :
  _instancesCount b + 1 < 2 ^ 32 -> streamOk b -> streamOk (_appendQuad q b).
Proof.
  intros Hroom (Hcount & Hasc & Hnone).
  assert (E : _instancesCount (_appendQuad q b) = _instancesCount b + 1).
  { unfold _instancesCount, _appendQuad. simpl. rewrite length_app. simpl. lia. }
  unfold streamOk. rewrite E. simpl. repeat split.
  - exact Hroom.
  - apply (offsetsAscend_mono _ (_instancesCount b)); [lia|exact Hasc].
  - unfold _instancesCount. lia.
Qed.

Lemma streamOk_modifyLastQuad f b : streamOk b -> streamOk (_modifyLastQuad f b).
Proof.
  assert (E : forall l : list QuadInstance, length (modify_last f l) = length l).
  { induction l as [|a l IH]; [reflexivity|].
    cbn [modify_last]. destruct l; [reflexivity|]. cbn [length] in *. rewrite IH. reflexivity. }
  unfold streamOk, _instancesCount, _modifyLastQuad.
  cbn [set_instances _instances _instancesStateChanges]. rewrite E. tauto.
Qed.

Lemma streamOk_flushQuads b : streamOk b -> streamOk (_flushQuads b).
Proof.
  intros (Hcount & Hasc & Hnone). unfold _flushQuads.
  destruct (Z.eqb_spec (_instancesCount b) 0) as [E|E]; [repeat split; assumption|].
  unfold streamOk, _instancesCount.
  cbn [set_instances set_instancesStateChanges _instances _instancesStateChanges length].
  repeat split; try (vm_compute; reflexivity).
Qed.

Section RendererProperties.
Context `{FP : Float32} `{EXT : !Collaborators}.

(** ** The selection pass *)

Lemma modify_last_snoc {A : Type} (f : A -> A) (l : list A) (a : A) :
  modify_last f (l ++ [a]) = l ++ [f a].
Proof.
  induction l as [|b l IH]; [reflexivity|].
  cbn [app modify_last]. rewrite IH.
  destruct (l ++ [a]) eqn:E; [destruct l; discriminate|reflexivity].
Qed.

Lemma selectionRow_unselected (p : RenderingPayload) (st : SelectionState) (row : ShapedRow) :
  selectionTo row <= selectionFrom row ->
  lastFrom (selectionRow p st row) = lastFrom st /\
  lastTo (selectionRow p st row) = lastTo st /\
  sel_backend (selectionRow p st row) = sel_backend st.
Proof.
  intros H. unfold selectionRow.
  destruct (Z.ltb_spec (selectionFrom row) (selectionTo row)); [lia|].
  simpl. auto.
Qed.

Lemma selectionLoop_unselected (p : RenderingPayload) (gap : list ShapedRow) :
  forall st,
  Forall (fun r => selectionTo r <= selectionFrom r) gap ->
  lastFrom (selectionLoop p gap st) = lastFrom st /\
  lastTo (selectionLoop p gap st) = lastTo st /\
  sel_backend (selectionLoop p gap st) = sel_backend st.
Proof.
  induction gap as [|r gap IH]; intros st Hgap; [simpl; auto|].
  inversion Hgap as [|? ? Hr Hrest]; subst.
  unfold selectionLoop in *. cbn [fold_left].
  destruct (IH (selectionRow p st r) Hrest) as (E1 & E2 & E3).
  destruct (selectionRow_unselected p st r Hr) as (F1 & F2 & F3).
  rewrite E1, E2, E3, F1, F2, F3. auto.
Qed.

(** C10.  A row without a selection leaves [lastFrom], [lastTo] and the
    quad stream as they are; so when the rows of a frame are a selected
    row, then rows without a selection, then a row with the same
    (selectionFrom, selectionTo), the selection pass emits one quad only:
    the quad of the first row, one cell higher, which covers the first of
    the rows that have no selection and not the last row. *)
Theorem drawSelection_bridges_gap (p : RenderingPayload) (b : BackendD3D)
    (r0 r2 : ShapedRow) (gap : list ShapedRow) :
  selectionFrom r0 < selectionTo r0 ->
  Forall (fun r => selectionTo r <= selectionFrom r) gap ->
  selectionFrom r2 = selectionFrom r0 ->
  selectionTo r2 = selectionTo r0 ->
  rows p = r0 :: gap ++ [r2] ->
  (forall st r, In r gap ->
     lastFrom (selectionRow p st r) = lastFrom st /\
     lastTo (selectionRow p st r) = lastTo st /\
     sel_backend (selectionRow p st r) = sel_backend st) /\
  _instances (_drawSelection p b) =
    _instances b ++ [growQuad (v2.y (cellSize (font (s p)))) (selectionQuad p r0 0)].
Proof.
  intros Hsel Hgap Hfrom Hto Hrows. split.
  { intros st r Hin. apply selectionRow_unselected.
    rewrite List.Forall_forall in Hgap. apply Hgap. exact Hin. }
  unfold _drawSelection, selectionLoop. rewrite Hrows.
  cbn [fold_left]. rewrite fold_left_app. cbn [fold_left].
  set (st1 := selectionRow p _ r0).
  assert (H1 : lastFrom st1 = selectionFrom r0 /\ lastTo st1 = selectionTo r0 /\
               sel_backend st1 = _appendQuad (selectionQuad p r0 0) b).
  { unfold st1, selectionRow. cbn [sel_y lastFrom lastTo sel_backend].
    destruct (Z.ltb_spec (selectionFrom r0) (selectionTo r0)); [|lia].
    destruct (Z.eqb_spec (selectionFrom r0) 0); destruct (Z.eqb_spec (selectionTo r0) 0);
      cbn [andb sel_y lastFrom lastTo sel_backend]; try lia; auto. }
  destruct H1 as (L1 & L2 & L3).
  destruct (selectionLoop_unselected p gap st1 Hgap) as (G1 & G2 & G3).
  unfold selectionLoop in G1, G2, G3.
  set (st2 := fold_left (selectionRow p) gap st1) in *.
  unfold selectionRow. rewrite Hfrom, Hto, G1, G2, G3, L1, L2, L3.
  destruct (Z.ltb_spec (selectionFrom r0) (selectionTo r0)); [|lia].
  rewrite !Z.eqb_refl. cbn [andb sel_backend].
  unfold _modifyLastQuad, _appendQuad. cbn [_instances set_instances].
  apply modify_last_snoc.
Qed.

(** ** The cursor passes *)

Lemma appendCursorQuads_spec (cs : list CursorRect) : forall b,
  _instances (appendCursorQuads cs b) = _instances b ++ map quadOfCursorRect cs /\
  _instancesStateChanges (appendCursorQuads cs b) = _instancesStateChanges b /\
  _cursorRects (appendCursorQuads cs b) = _cursorRects b.
Proof.
  unfold appendCursorQuads.
  induction cs as [|c cs IH]; intros b; cbn [fold_left map].
  - rewrite app_nil_r. auto.
  - destruct (IH (_appendQuad (quadOfCursorRect c) b)) as (E1 & E2 & E3).
    rewrite E1, E2, E3. cbn [_appendQuad set_instances _instances _instancesStateChanges _cursorRects].
    rewrite <- app_assoc. auto.
Qed.

Lemma cursorShape_nonempty (p : RenderingPayload) (x0 x1 bg : Z) : cursorShape p x0 x1 bg <> [].
Proof. unfold cursorShape. destruct (cursorType (cursor (s p))); discriminate. Qed.

Lemma cursorLoop_keeps (fuel : nat) (p : RenderingPayload) (offset : Z) :
  forall x1 acc, acc <> [] -> cursorLoop fuel p offset x1 acc <> [].
Proof.
  induction fuel as [|fuel IH]; intros x1 acc Hacc; cbn [cursorLoop]; [exact Hacc|].
  destruct (x1 <? rect.right (cursorRect p)); [|exact Hacc].
  apply IH. destruct acc; [congruence|discriminate].
Qed.

Lemma cursorLoop_nonempty (p : RenderingPayload) (offset : Z) :
  rect.empty (cursorRect p) = false ->
  cursorLoop (Z.to_nat (rect.right (cursorRect p) - rect.left (cursorRect p)))
    p offset (rect.left (cursorRect p)) [] <> [].
Proof.
  unfold rect.empty. intros H.
  apply negb_false_iff in H. rewrite !andb_true_iff in H. destruct H as [[[_ _] Hlr] _].
  apply Z.ltb_lt in Hlr.
  destruct (Z.to_nat (rect.right (cursorRect p) - rect.left (cursorRect p))) as [|fuel] eqn:E; [lia|].
  cbn [cursorLoop].
  destruct (Z.ltb_spec (rect.left (cursorRect p)) (rect.right (cursorRect p))); [|lia].
  apply cursorLoop_keeps. cbn [app]. apply cursorShape_nonempty.
Qed.

(** C8.  For a cursor rectangle that is not empty: when the cursor color
    is 0xffffffff, part 1 records no state change and part 2 records
    exactly two, the invert blend state at the instance count before its
    rectangles and the standard blend state at the instance count after
    them, with the (one or more) cursor rectangles of part 1 as the only
    quads in between; with any other cursor color neither part records a
    state change.  [mid] is the renderer when part 2 starts: the passes
    between the two parts leave [_cursorRects] alone. *)
Theorem cursor_state_changes (p : RenderingPayload) (b mid : BackendD3D) :
  rect.empty (cursorRect p) = false ->
  _cursorRects mid = _cursorRects (_drawCursorPart1 p b) ->
  _instancesStateChanges (_drawCursorPart1 p b) = _instancesStateChanges b /\
  (cursorColor (cursor (s p)) = 0xffffffff ->
   exists cs, cs <> [] /\ _cursorRects mid = cs /\
     _instances (_drawCursorPart2 p mid) = _instances mid ++ map quadOfCursorRect cs /\
     _instancesStateChanges (_drawCursorPart2 p mid) =
       _instancesStateChanges mid ++
       [{| blendState := Some _blendStateInvert; offset := _instancesCount mid |};
        {| blendState := Some _blendState;
           offset := _instancesCount mid + Z.of_nat (length cs) |}]) /\
  (cursorColor (cursor (s p)) <> 0xffffffff ->
   _instancesStateChanges (_drawCursorPart2 p mid) = _instancesStateChanges mid).
Proof.
  intros Hne Hmid.
  pose proof (cursorLoop_nonempty p (rect.top (cursorRect p) * colorBitmapRowStride p) Hne) as Hcs.
  unfold _drawCursorPart1 in *. rewrite Hne in *.
  set (cs := cursorLoop _ p _ _ []) in *.
  split; [|split].
  - destruct (cursorColor (cursor (s p)) =? 0xffffffff).
    + cbn [set_cursorRects _instancesStateChanges].
      destruct (appendCursorQuads_spec cs (set_cursorRects [] b)) as (_ & E & _).
      rewrite E. reflexivity.
    + reflexivity.
  - intros Hcolor. rewrite Hcolor in *. cbn [Z.eqb Pos.eqb] in Hmid.
    change (4294967295 =? 4294967295) with true in Hmid.
    cbn [set_cursorRects _cursorRects] in Hmid.
    exists (map (set_cr_color 0xffffffff) cs).
    split; [destruct cs; [congruence|discriminate]|].
    split; [exact Hmid|].
    unfold _drawCursorPart2. rewrite Hmid, Hcolor.
    destruct (map (set_cr_color 4294967295) cs) as [|c cs'] eqn:Ecs;
      [destruct cs; [congruence|discriminate]|].
    change (4294967295 =? 4294967295) with true. cbn iota.
    set (m1 := _markStateChange (Some _blendStateInvert) mid).
    assert (Hr : _cursorRects m1 = c :: cs') by (unfold m1; cbn; rewrite Hmid; reflexivity).
    rewrite Hr.
    destruct (appendCursorQuads_spec (c :: cs') m1) as (E1 & E2 & _).
    split.
    + cbn [_markStateChange set_instancesStateChanges _instances]. rewrite E1. reflexivity.
    + unfold _markStateChange at 1. cbn [set_instancesStateChanges _instancesStateChanges].
      rewrite E2. unfold _instancesCount. rewrite E1.
      unfold m1. cbn [_markStateChange set_instancesStateChanges _instancesStateChanges _instances].
      rewrite <- app_assoc. cbn [app]. rewrite length_app, length_map.
      do 4 f_equal. lia.
  - intros Hcolor. unfold _drawCursorPart2.
    destruct (Z.eqb_spec (cursorColor (cursor (s p))) 0xffffffff) as [E|_]; [contradiction|].
    destruct (_cursorRects mid); [reflexivity|].
    destruct (appendCursorQuads_spec (c :: l) mid) as (_ & E2 & _).
    exact E2.
Qed.

(** The two markers of cursor part 2 keep the invariant of the stream. *)
Lemma streamOk_drawCursorPart2 (p : RenderingPayload) (mid : BackendD3D) :
  streamOk mid ->
  _instancesCount mid + Z.of_nat (length (_cursorRects mid)) < 2 ^ 32 ->
  streamOk (_drawCursorPart2 p mid).
Proof.
  intros (Hcount & Hasc & Hnone) Hroom. unfold _drawCursorPart2.
  destruct (_cursorRects mid) as [|c cs] eqn:Ecs; [repeat split; assumption|].
  assert (H0 : 0 <= _instancesCount mid) by (unfold _instancesCount; lia).
  destruct (cursorColor (cursor (s p)) =? 0xffffffff).
  - set (m1 := _markStateChange (Some _blendStateInvert) mid).
    assert (Hr : _cursorRects m1 = c :: cs) by (unfold m1; cbn; exact Ecs).
    rewrite Hr.
    destruct (appendCursorQuads_spec (c :: cs) m1) as (E1 & E2 & _).
    unfold streamOk, _markStateChange.
    cbn [set_instancesStateChanges _instancesStateChanges _instances].
    unfold _instancesCount.
    cbn [set_instancesStateChanges _instancesStateChanges _instances].
    rewrite E1, E2. unfold m1.
    cbn [_markStateChange set_instancesStateChanges _instancesStateChanges _instances].
    rewrite length_app, length_map. unfold _instancesCount in *.
    cbn [length] in *.
    split; [lia|]. split; [|intros; lia].
    rewrite <- app_assoc. apply offsetsAscend_app. split.
    + apply (offsetsAscend_mono _ (Z.of_nat (length (_instances mid)))); [lia|exact Hasc].
    + pose proof (offsetsAscend_last (Z.of_nat (length (_instances mid)))
                    (_instancesStateChanges mid) 0 ltac:(lia) Hasc) as Hl.
      set (lastOffset := List.last (0 :: map offset (_instancesStateChanges mid)) 0) in *.
      cbn [app offsetsAscend offset]. repeat split; lia.
  - destruct (appendCursorQuads_spec (c :: cs) mid) as (E1 & E2 & _).
    rewrite Ecs. unfold streamOk, _instancesCount. rewrite E1, E2, length_app, length_map.
    unfold _instancesCount in *. cbn [length] in *.
    split; [lia|]. split; [|intros; lia].
    apply (offsetsAscend_mono _ (Z.of_nat (length (_instances mid)))); [lia|exact Hasc].
Qed.
(** ** Machine integers and the glyph cache: auxiliary facts *)

Lemma to_u16_small z : is_u16 z -> to_u16 z = z.
Proof. unfold is_u16, to_u16. intros H. apply Z.mod_small. exact H. Qed.

Lemma to_i16_small z : is_i16 z -> to_i16 z = z.
Proof.
  unfold is_i16, to_i16. change (2 ^ 15) with 32768. change (2 ^ 16) with 65536.
  intros H. rewrite Z.mod_small by lia. lia.
Qed.

Lemma to_i16_range z : is_i16 (to_i16 z).
Proof.
  unfold is_i16, to_i16. change (2 ^ 15) with 32768. change (2 ^ 16) with 65536.
  pose proof (Z.mod_pos_bound (z + 32768) 65536 ltac:(lia)). lia.
Qed.

Lemma clamp_bounds v lo hi : lo <= hi -> lo <= clamp v lo hi <= hi.
Proof.
  intros H. unfold clamp.
  destruct (Z.ltb_spec v lo); [lia|]. destruct (Z.ltb_spec hi v); lia.
Qed.

Lemma clamp_le v lo hi : lo <= hi -> lo < clamp v lo hi -> clamp v lo hi <= v.
Proof.
  intros H. unfold clamp.
  destruct (Z.ltb_spec v lo); [lia|]. destruct (Z.ltb_spec hi v); lia.
Qed.

Lemma lookup_insertFontFace_is_Some (key : AtlasFontFaceKey) (m : AtlasMap) :
  is_Some (insertFontFace key m !! key).
Proof.
  unfold insertFontFace. destruct (m !! key) eqn:E.
  - rewrite E. eauto.
  - rewrite lookup_insert_eq. eauto.
Qed.

Lemma insertFontFace_keeps (key k : AtlasFontFaceKey) (m : AtlasMap) :
  is_Some (m !! k) -> is_Some (insertFontFace key m !! k).
Proof.
  unfold insertFontFace. intros H. destruct (m !! key) eqn:E; [exact H|].
  destruct (decide (key = k)) as [->|Hne].
  - rewrite lookup_insert_eq. eauto.
  - rewrite lookup_insert_ne by exact Hne. exact H.
Qed.

Lemma glyphsOf_insertFontFace (key k : AtlasFontFaceKey) (m : AtlasMap) :
  glyphsOf k (insertFontFace key m) = glyphsOf k m.
Proof.
  unfold insertFontFace, glyphsOf. destruct (m !! key) eqn:E; [reflexivity|].
  destruct (decide (key = k)) as [->|Hne].
  - rewrite lookup_insert_eq, E. reflexivity.
  - rewrite lookup_insert_ne by exact Hne. reflexivity.
Qed.

Lemma setGlyphEntry_keeps (key k : AtlasFontFaceKey) (i : Z) (d : AtlasGlyphEntryData) (m : AtlasMap) :
  is_Some (m !! k) -> is_Some (setGlyphEntry key i d m !! k).
Proof.
  unfold setGlyphEntry. intros [g Hg]. rewrite lookup_alter. case_decide.
  - subst. rewrite Hg. simpl. eauto.
  - rewrite Hg. eauto.
Qed.

Lemma glyphsOf_setGlyphEntry_eq (key : AtlasFontFaceKey) (i : Z) (d : AtlasGlyphEntryData) (m : AtlasMap) :
  is_Some (m !! key) ->
  glyphsOf key (setGlyphEntry key i d m) = <[i := d]> (glyphsOf key m).
Proof.
  unfold setGlyphEntry, glyphsOf. intros [g Hg].
  rewrite lookup_alter. case_decide; [|congruence]. rewrite Hg. reflexivity.
Qed.

Lemma glyphsOf_setGlyphEntry_ne (key k : AtlasFontFaceKey) (i : Z) (d : AtlasGlyphEntryData) (m : AtlasMap) :
  key <> k -> glyphsOf k (setGlyphEntry key i d m) = glyphsOf k m.
Proof.
  unfold setGlyphEntry, glyphsOf. intros Hne.
  rewrite lookup_alter. case_decide; [congruence|reflexivity].
Qed.

Lemma glyphEntryOf_setGlyphEntry_eq (key : AtlasFontFaceKey) (i : Z) (d : AtlasGlyphEntryData) (m : AtlasMap) :
  is_Some (m !! key) -> glyphEntryOf key i (setGlyphEntry key i d m) = d.
Proof.
  intros H. unfold glyphEntryOf. rewrite glyphsOf_setGlyphEntry_eq by exact H.
  rewrite lookup_insert_eq. reflexivity.
Qed.

(** ** Splitting a double height glyph *)

(** What [splitHalves] computes, for an entry whose fields have the range
    of their types and whose texture rectangle ends below row 65536. *)
Lemma splitHalves_spec (f : FontSettings) (d : AtlasGlyphEntryData) :
  let H := v2.y (g_size d) in
  let off := to_i16 (v2.y (g_offset d) - descender f) in
  let T := clamp (- off - baseline f) 0 H in
  let top := fst (splitHalves f d) in
  let bottom := snd (splitHalves f d) in
  is_u16 H -> is_u16 (baseline f) ->
  0 <= v2.y (g_texcoord d) -> v2.y (g_texcoord d) + H < 2 ^ 16 ->
  v2.y (g_size top) = T /\
  v2.y (g_size bottom) = Z.max 0 (H - T) /\
  v2.y (g_size top) + v2.y (g_size bottom) = H /\
  v2.y (g_offset bottom) = off + T /\
  v2.y (g_texcoord bottom) = v2.y (g_texcoord d) + T /\
  (v2.y (g_size top) = 0 -> g_shadingType top = plain Default) /\
  (v2.y (g_size bottom) = 0 -> g_shadingType bottom = plain Default) /\
  (v2.y (g_size top) <> 0 -> g_shadingType top = g_shadingType d) /\
  (v2.y (g_size bottom) <> 0 -> g_shadingType bottom = g_shadingType d).
Proof.
  intros H off T top bottom HH Hbase Htex0 Htex.
  assert (HT : 0 <= T <= H) by (apply clamp_bounds; unfold is_u16 in HH; lia).
  pose proof (to_i16_range (v2.y (g_offset d) - descender f)) as Hoff. fold off in Hoff.
  assert (HTle : 0 < T -> T <= - off - baseline f)
    by (apply clamp_le; unfold is_u16 in HH; lia).
  assert (E1 : to_u16 T = T) by (apply to_u16_small; unfold is_u16 in *; lia).
  assert (E2 : to_u16 (Z.max 0 (H - T)) = Z.max 0 (H - T))
    by (apply to_u16_small; unfold is_u16 in *; lia).
  assert (E3 : to_i16 (off + T) = off + T).
  { apply to_i16_small. unfold is_i16, is_u16 in *. lia. }
  assert (E4 : to_u16 (v2.y (g_texcoord d) + T) = v2.y (g_texcoord d) + T)
    by (apply to_u16_small; unfold is_u16 in *; lia).
  unfold top, bottom, splitHalves.
  cbn [g_size g_offset g_texcoord set_g_offset_y set_g_size_y set_g_texcoord_y v2.y v2.x].
  unfold topSize.
  cbn [g_size g_offset g_texcoord set_g_offset_y set_g_size_y set_g_texcoord_y v2.y v2.x].
  fold H. fold off. fold T. rewrite E1, E2, E3, E4.
  destruct (Z.eqb_spec T 0) as [ET|ET]; destruct (Z.eqb_spec (Z.max 0 (H - T)) 0) as [EB|EB];
    cbn [fst snd g_size g_offset g_texcoord g_shadingType set_g_shadingType
         set_g_offset_y set_g_size_y set_g_texcoord_y v2.y v2.x];
    repeat split; intros; try reflexivity; try lia.
Qed.

(** C4.  [_splitDoubleHeightGlyph] leaves two cache entries for the glyph,
    one under the top and one under the bottom rendition of its font face.
    With [H] the rasterized height and [T] the clamp of
    [-offset.y - baseline] to [0, H], taken after the descender was
    subtracted from [offset.y]: the top entry is [T] high, the bottom entry
    [max(0, H - T)], together [H]; the bottom entry's [offset.y] and
    [texcoord.y] are advanced by [T]; a half of height zero has the shading
    type [Default]. *)
Theorem splitDoubleHeightGlyph_halves (p : RenderingPayload) (key : AtlasFontFaceKey)
    (glyphIndex : Z) (b : BackendD3D) :
  let f := font (s p) in
  let d := glyphEntryOf key glyphIndex (_glyphAtlasMap b) in
  let H := v2.y (g_size d) in
  let off := to_i16 (v2.y (g_offset d) - descender f) in
  let T := clamp (- off - baseline f) 0 H in
  let m' := _glyphAtlasMap (_splitDoubleHeightGlyph p key glyphIndex b) in
  isDoubleHeight (lineRendition key) = true ->
  is_Some (_glyphAtlasMap b !! key) ->
  is_u16 H -> is_u16 (baseline f) ->
  0 <= v2.y (g_texcoord d) -> v2.y (g_texcoord d) + H < 2 ^ 16 ->
  exists top bottom,
    glyphsOf (topKey (fontFace key)) m' !! glyphIndex = Some top /\
    glyphsOf (bottomKey (fontFace key)) m' !! glyphIndex = Some bottom /\
    v2.y (g_size top) = T /\
    v2.y (g_size bottom) = Z.max 0 (H - T) /\
    v2.y (g_size top) + v2.y (g_size bottom) = H /\
    v2.y (g_offset bottom) = off + T /\
    v2.y (g_texcoord bottom) = v2.y (g_texcoord d) + T /\
    (v2.y (g_size top) = 0 -> g_shadingType top = plain Default) /\
    (v2.y (g_size bottom) = 0 -> g_shadingType bottom = plain Default).
Proof.
  intros f d H off T m' Hdh Hkey HH Hbase Htex0 Htex.
  destruct (splitHalves_spec f d HH Hbase Htex0 Htex)
    as (S1 & S2 & S3 & S4 & S5 & S6 & S7 & _ & _).
  exists (fst (splitHalves f d)), (snd (splitHalves f d)).
  split; [|split; [|repeat split; assumption]].
  - unfold m', _splitDoubleHeightGlyph. fold f. fold d.
    destruct (splitHalves f d) as [top bottom]. cbn [fst snd set_glyphAtlasMap _glyphAtlasMap].
    destruct key as [face lr]. destruct lr; try discriminate Hdh; cbn [fontFace lineRendition] in *.
    + rewrite bool_decide_eq_true_2 by reflexivity.
      change {| fontFace := face; lineRendition := DoubleHeightTop |} with (topKey face).
      rewrite glyphsOf_setGlyphEntry_eq, lookup_insert_eq; [reflexivity|].
      apply setGlyphEntry_keeps, insertFontFace_keeps. exact Hkey.
    + rewrite bool_decide_eq_false_2 by discriminate.
      rewrite glyphsOf_setGlyphEntry_ne by discriminate.
      rewrite glyphsOf_setGlyphEntry_eq, lookup_insert_eq; [reflexivity|].
      apply lookup_insertFontFace_is_Some.
  - unfold m', _splitDoubleHeightGlyph. fold f. fold d.
    destruct (splitHalves f d) as [top bottom]. cbn [fst snd set_glyphAtlasMap _glyphAtlasMap].
    destruct key as [face lr]. destruct lr; try discriminate Hdh; cbn [fontFace lineRendition] in *.
    + rewrite bool_decide_eq_true_2 by reflexivity.
      rewrite glyphsOf_setGlyphEntry_ne by discriminate.
      rewrite glyphsOf_setGlyphEntry_eq, lookup_insert_eq; [reflexivity|].
      apply lookup_insertFontFace_is_Some.
    + rewrite bool_decide_eq_false_2 by discriminate.
      change {| fontFace := face; lineRendition := DoubleHeightBottom |} with (bottomKey face).
      rewrite glyphsOf_setGlyphEntry_eq, lookup_insert_eq; [reflexivity|].
      apply setGlyphEntry_keeps, insertFontFace_keeps. exact Hkey.
Qed.

(** ** Frame facts: what each step leaves alone *)

Lemma resets_app (l1 l2 : list DeviceCall) : resets (l1 ++ l2) = (resets l1 + resets l2)%nat.
Proof.
  induction l1 as [|c l1 IH]; [reflexivity|].
  destruct c; cbn [app resets]; rewrite IH; reflexivity.
Qed.

Lemma flushLoop_resets (l : list StateChange) : forall calls prev,
  resets (fst (fold_left flushStep l (calls, prev))) = resets calls.
Proof.
  induction l as [|c l IH]; intros calls prev; [reflexivity|].
  cbn [fold_left]. unfold flushStep at 2.
  destruct (to_size_t (offset c - prev) =? 0); destruct (blendState c);
    rewrite IH, ?resets_app; cbn [resets]; lia.
Qed.

Lemma flushQuads_frame (b : BackendD3D) :
  _glyphAtlasMap (_flushQuads b) = _glyphAtlasMap b /\
  _rectPacker (_flushQuads b) = _rectPacker b /\
  _d2dBeganDrawing (_flushQuads b) = _d2dBeganDrawing b /\
  resets (device (_flushQuads b)) = resets (device b) /\
  _instances (_flushQuads b) = [].
Proof.
  unfold _flushQuads. destruct (Z.eqb_spec (_instancesCount b) 0) as [E|E].
  - repeat split. unfold _instancesCount in E. destruct (_instances b); [reflexivity|discriminate].
  - cbn [set_instances set_instancesStateChanges set_device _glyphAtlasMap _rectPacker
         _d2dBeganDrawing device _instances].
    repeat split. apply flushLoop_resets.
Qed.

Lemma d2dEndDrawing_frame (b : BackendD3D) :
  _glyphAtlasMap (_d2dEndDrawing b) = _glyphAtlasMap b /\
  _rectPacker (_d2dEndDrawing b) = _rectPacker b /\
  resets (device (_d2dEndDrawing b)) = resets (device b) /\
  _instances (_d2dEndDrawing b) = _instances b.
Proof.
  unfold _d2dEndDrawing. destruct (_d2dBeganDrawing b); repeat split.
  cbn [set_d2dBeganDrawing call set_device device]. rewrite resets_app. cbn [resets]. lia.
Qed.

Lemma d2dBeginDrawing_frame (b : BackendD3D) :
  _glyphAtlasMap (_d2dBeginDrawing b) = _glyphAtlasMap b /\
  _rectPacker (_d2dBeginDrawing b) = _rectPacker b /\
  resets (device (_d2dBeginDrawing b)) = resets (device b) /\
  _instances (_d2dBeginDrawing b) = _instances b /\
  _textShadingType (_d2dBeginDrawing b) = _textShadingType b.
Proof.
  unfold _d2dBeginDrawing. destruct (_d2dBeganDrawing b); repeat split.
  cbn [set_d2dBeganDrawing call set_device device]. rewrite resets_app. cbn [resets]. lia.
Qed.

Lemma restoreTransform_frame (tr : bool) (b : BackendD3D) :
  _glyphAtlasMap (restoreTransform tr b) = _glyphAtlasMap b /\
  _rectPacker (restoreTransform tr b) = _rectPacker b /\
  resets (device (restoreTransform tr b)) = resets (device b) /\
  _instances (restoreTransform tr b) = _instances b.
Proof.
  unfold restoreTransform. destruct tr; repeat split.
  cbn [call set_device device]. rewrite resets_app. cbn [resets]. lia.
Qed.

(** ** Atlas reset and retry preparation *)

Lemma resetGlyphAtlas_spec (p : RenderingPayload) (b : BackendD3D) :
  match _resetGlyphAtlas p b with
  | Done b' =>
      freshAtlas p b' /\
      (forall k, is_Some (_glyphAtlasMap b !! k) -> is_Some (_glyphAtlasMap b' !! k)) /\
      resets (device b') = S (resets (device b)) /\
      _instances b' = _instances b
  | Fail e =>
      e = UndefinedIndex /\
      atlasSize (s p) (width (_rectPacker b)) (height (_rectPacker b)) = None
  | OutOfFuel => False
  end.
Proof.
  unfold _resetGlyphAtlas.
  destruct (atlasSize (s p) (width (_rectPacker b)) (height (_rectPacker b))) as [[u v]|] eqn:E;
    [|split; reflexivity].
  set (b1 := if negb (u =? width (_rectPacker b)) || negb (v =? height (_rectPacker b))
             then call (CreateTexture2D u v) b else b).
  assert (H1 : _glyphAtlasMap b1 = _glyphAtlasMap b /\ resets (device b1) = resets (device b) /\
               _instances b1 = _instances b).
  { unfold b1. destruct (negb _ || negb _); repeat split.
    cbn [call set_device device]. rewrite resets_app. cbn [resets]. lia. }
  destruct H1 as (M1 & R1 & I1).
  set (b2 := set_glyphAtlasMap _ (set_rectPacker (stbrp_init_target u v) b1)).
  destruct (d2dBeginDrawing_frame b2) as (M3 & P3 & R3 & I3 & _).
  unfold freshAtlas.
  cbn [set_fontChangedResetGlyphAtlas call set_device _glyphAtlasMap _rectPacker device _instances].
  rewrite M3, P3, I3, resets_app, R3. unfold b2.
  cbn [set_glyphAtlasMap set_rectPacker _glyphAtlasMap _rectPacker device _instances resets].
  rewrite M1, R1, I1.
  split; [split|split; [|split]].
  - exists (width (_rectPacker b)), (height (_rectPacker b)), u, v. split; [exact E|reflexivity].
  - intros k g Hk. rewrite lookup_fmap in Hk.
    destruct (_glyphAtlasMap b !! k); simpl in Hk; congruence.
  - intros k [g Hk]. rewrite lookup_fmap, Hk. simpl. eauto.
  - lia.
  - reflexivity.
Qed.

Lemma prepareRetry_spec (p : RenderingPayload) (key : AtlasFontFaceKey) (b : BackendD3D) :
  is_Some (_glyphAtlasMap b !! key) ->
  match _drawGlyphPrepareRetry p b with
  | Done b' =>
      freshAtlas p b' /\
      (forall k, is_Some (_glyphAtlasMap b !! k) -> is_Some (_glyphAtlasMap b' !! k)) /\
      resets (device b') = S (resets (device b)) /\
      _instances b' = []
  | Fail e =>
      e = UndefinedIndex /\
      atlasSize (s p) (width (_rectPacker b)) (height (_rectPacker b)) = None
  | OutOfFuel => False
  end.
Proof.
  intros [g Hg]. unfold _drawGlyphPrepareRetry.
  destruct (decide (_glyphAtlasMap b = ∅)) as [E|_].
  { rewrite E, lookup_empty in Hg. discriminate. }
  destruct (d2dEndDrawing_frame b) as (M1 & P1 & R1 & _).
  destruct (flushQuads_frame (_d2dEndDrawing b)) as (M2 & P2 & _ & R2 & I2).
  pose proof (resetGlyphAtlas_spec p (_flushQuads (_d2dEndDrawing b))) as H.
  destruct (_resetGlyphAtlas p (_flushQuads (_d2dEndDrawing b))) as [b'| e |]; [| |exact H].
  - destruct H as (F & K & R & I). rewrite M2, M1 in K. rewrite R2, R1 in R. rewrite I2 in I.
    auto.
  - rewrite P2, P1 in H. exact H.
Qed.

(** ** Rasterizing one glyph *)

Lemma splitDoubleHeightGlyph_frame (p : RenderingPayload) (key : AtlasFontFaceKey)
    (glyphIndex : Z) (b : BackendD3D) :
  (forall k, is_Some (_glyphAtlasMap b !! k) ->
             is_Some (_glyphAtlasMap (_splitDoubleHeightGlyph p key glyphIndex b) !! k)) /\
  _rectPacker (_splitDoubleHeightGlyph p key glyphIndex b) = _rectPacker b /\
  device (_splitDoubleHeightGlyph p key glyphIndex b) = device b /\
  _instances (_splitDoubleHeightGlyph p key glyphIndex b) = _instances b.
Proof.
  unfold _splitDoubleHeightGlyph.
  destruct (splitHalves _ _) as [top bottom].
  cbn [set_glyphAtlasMap _glyphAtlasMap _rectPacker device _instances].
  repeat split.
  intros k Hk. apply setGlyphEntry_keeps, setGlyphEntry_keeps, insertFontFace_keeps. exact Hk.
Qed.

Lemma drawSoftFontGlyph_cases (p : RenderingPayload) (key : AtlasFontFaceKey) (glyphIndex : Z)
    (b : BackendD3D) :
  is_Some (_glyphAtlasMap b !! key) ->
  glyphOutcome p key b (_drawSoftFontGlyph p key glyphIndex b).
Proof.
  intros Hkey. unfold _drawSoftFontGlyph.
  destruct (stbrp_pack_rects (_rectPacker b) _ _) as [[x y]|].
  - set (b1 := set_rectPacker _ b).
    destruct (d2dBeginDrawing_frame b1) as (M & P & R & I & _).
    destruct (isDoubleHeight (lineRendition key)).
    + match goal with |- glyphOutcome _ _ _ (Done (true, _splitDoubleHeightGlyph _ _ _ ?b2)) =>
        destruct (splitDoubleHeightGlyph_frame p key glyphIndex b2) as (K & _ & D & _)
      end.
      cbn [glyphOutcome]. rewrite D. split.
      * intros k Hk. apply K. cbn [set_glyphAtlasMap _glyphAtlasMap call set_device].
        apply setGlyphEntry_keeps. rewrite M. exact Hk.
      * cbn [set_glyphAtlasMap device call set_device]. rewrite resets_app, R. cbn. lia.
    + cbn [glyphOutcome set_glyphAtlasMap _glyphAtlasMap device call set_device]. split.
      * intros k Hk. apply setGlyphEntry_keeps. rewrite M. exact Hk.
      * rewrite resets_app, R. cbn. lia.
  - pose proof (prepareRetry_spec p key b Hkey) as H.
    destruct (_drawGlyphPrepareRetry p b) as [b'|e|]; cbn [bind glyphOutcome]; exact H.
Qed.

Lemma drawGlyph_cases (p : RenderingPayload) (key : AtlasFontFaceKey) (glyphIndex : Z)
    (b : BackendD3D) :
  is_Some (_glyphAtlasMap b !! key) ->
  glyphOutcome p key b (_drawGlyph p key glyphIndex b).
Proof.
  intros Hkey. unfold _drawGlyph.
  destruct (fontFace key =? 0); [apply drawSoftFontGlyph_cases; exact Hkey|].
  set (tr := negb (bool_decide (lineRendition key = SingleWidth))).
  set (b0 := if tr then call _ b else b).
  assert (H0 : _glyphAtlasMap b0 = _glyphAtlasMap b /\ _rectPacker b0 = _rectPacker b /\
               resets (device b0) = resets (device b)).
  { unfold b0. destruct tr; repeat split.
    cbn [call set_device device]. rewrite resets_app. cbn. lia. }
  destruct H0 as (M0 & P0 & R0).
  destruct (f32_ge _ _ || f32_ge _ _).
  { destruct (restoreTransform_frame tr b0) as (M & _ & R & _).
    cbn [glyphOutcome]. rewrite M, R, M0, R0. auto. }
  destruct (stbrp_pack_rects (_rectPacker b0) _ _) as [[x y]|].
  - match goal with |- glyphOutcome _ _ _ (Done (true, restoreTransform tr ?bb)) =>
      destruct (restoreTransform_frame tr bb) as (M & _ & R & _); set (b3 := bb) in *
    end.
    cbn [glyphOutcome]. rewrite M, R.
    assert (H3 : forall b2,
              (forall k, is_Some (_glyphAtlasMap b !! k) -> is_Some (_glyphAtlasMap b2 !! k)) ->
              resets (device b2) = resets (device b) ->
              (forall k, is_Some (_glyphAtlasMap b !! k) ->
                 is_Some (_glyphAtlasMap (if isDoubleHeight (lineRendition key)
                                          then _splitDoubleHeightGlyph p key glyphIndex b2 else b2) !! k)) /\
              resets (device (if isDoubleHeight (lineRendition key)
                              then _splitDoubleHeightGlyph p key glyphIndex b2 else b2)) =
                resets (device b)).
    { intros b2 K2 R2. destruct (isDoubleHeight (lineRendition key)); [|auto].
      destruct (splitDoubleHeightGlyph_frame p key glyphIndex b2) as (K & _ & D & _).
      rewrite D. auto. }
    apply H3.
    + intros k Hk. cbn [set_glyphAtlasMap _glyphAtlasMap call set_device].
      apply setGlyphEntry_keeps.
      match goal with |- is_Some (_glyphAtlasMap (_d2dBeginDrawing ?bb) !! k) =>
        destruct (d2dBeginDrawing_frame bb) as (Mb & _)
      end.
      rewrite Mb. destruct tr; cbn [call set_device set_rectPacker _glyphAtlasMap];
        rewrite M0; exact Hk.
    + cbn [set_glyphAtlasMap device call set_device]. rewrite resets_app.
      match goal with |- (resets (device (_d2dBeginDrawing ?bb)) + _)%nat = _ =>
        destruct (d2dBeginDrawing_frame bb) as (_ & _ & Rb & _)
      end.
      rewrite Rb. destruct tr; cbn [call set_device set_rectPacker device resets];
        rewrite ?resets_app; cbn [resets]; lia.
  - assert (Hkey0 : is_Some (_glyphAtlasMap b0 !! key)) by (rewrite M0; exact Hkey).
    pose proof (prepareRetry_spec p key b0 Hkey0) as H.
    destruct (_drawGlyphPrepareRetry p b0) as [b'|e|]; cbn [bind glyphOutcome].
    + destruct H as (F & K & R & I).
      destruct (restoreTransform_frame tr b') as (M & P & R' & I').
      rewrite M, R', I'. split; [|split; [|split]].
      * destruct F as [Fp Fm]. split; [rewrite P; exact Fp|rewrite M; exact Fm].
      * intros k Hk. apply K. rewrite M0. exact Hk.
      * lia.
      * exact I.
    + rewrite P0 in H. exact H.
    + exact H.
Qed.

Lemma glyphShadingType_marker (f : FontSettings) (ts : ShadingType) (colorGlyph : bool)
    (w bl br : Z) :
  LigatureMarker ts = false ->
  LigatureMarker (glyphShadingType f ts colorGlyph w bl br) = true <->
  v2.x (cellSize f) <= w /\
  (bl <= ligatureOverhangTriggerLeft f \/ ligatureOverhangTriggerRight f <= br).
Proof.
  intros Hts. unfold glyphShadingType, isLigature.
  destruct (Z.leb_spec (v2.x (cellSize f)) w);
    destruct (Z.leb_spec bl (ligatureOverhangTriggerLeft f));
    destruct (Z.leb_spec (ligatureOverhangTriggerRight f) br);
    destruct colorGlyph; cbn [andb orb or_LigatureMarker plain LigatureMarker];
    rewrite ?Hts; split; intros; try discriminate; try reflexivity; lia.
Qed.

(** C5.  When [_drawGlyph] rasterizes an outline glyph (a font face, a
    black box that is not empty, a successful pack), the shading type it
    stores in the cache entry has the [LigatureMarker] flag if and only if
    [rect.w >= cellSize.x] and ([bl <= ligatureOverhangTriggerLeft] or
    [br >= ligatureOverhangTriggerRight]), where [rect.w = br - bl] and
    [bl], [br] are the rounded left and right edges of the black box.
    [b1] is the renderer after that store; a double height glyph is split
    afterwards, every other glyph keeps the entry as stored. *)
Theorem drawGlyph_ligature_marker (p : RenderingPayload) (key : AtlasFontFaceKey)
    (glyphIndex : Z) (b b' : BackendD3D) :
  let f := font (s p) in
  let box := GetGlyphRunWorldBounds (fontFace key) glyphIndex (lineRendition key) in
  let bl := lrintf (box_left box) in
  let br := lrintf (box_right box) in
  let trigger :=
    v2.x (cellSize f) <= br - bl /\
    (bl <= ligatureOverhangTriggerLeft f \/ ligatureOverhangTriggerRight f <= br) in
  fontFace key <> 0 ->
  is_Some (_glyphAtlasMap b !! key) ->
  LigatureMarker (_textShadingType b) = false ->
  f32_ge (box_left box) (box_right box) || f32_ge (box_top box) (box_bottom box) = false ->
  _drawGlyph p key glyphIndex b = Done (true, b') ->
  exists b1,
    (LigatureMarker (g_shadingType (glyphEntryOf key glyphIndex (_glyphAtlasMap b1))) = true
     <-> trigger) /\
    b' = restoreTransform (negb (bool_decide (lineRendition key = SingleWidth)))
           (if isDoubleHeight (lineRendition key)
            then _splitDoubleHeightGlyph p key glyphIndex b1 else b1) /\
    (isDoubleHeight (lineRendition key) = false ->
     (LigatureMarker (g_shadingType (glyphEntryOf key glyphIndex (_glyphAtlasMap b'))) = true
      <-> trigger)).
Proof.
  intros f box bl br trigger Hface Hkey Hts Hbox Hrun.
  unfold _drawGlyph in Hrun.
  destruct (Z.eqb_spec (fontFace key) 0) as [E|_]; [contradiction|].
  fold box in Hrun. rewrite Hbox in Hrun. fold bl br f in Hrun.
  set (tr := negb (bool_decide (lineRendition key = SingleWidth))) in *.
  set (b0 := if tr then call _ b else b) in *.
  assert (H0 : _glyphAtlasMap b0 = _glyphAtlasMap b /\ _textShadingType b0 = _textShadingType b)
    by (unfold b0; destruct tr; split; reflexivity).
  destruct H0 as (M0 & T0).
  destruct (stbrp_pack_rects (_rectPacker b0) _ _) as [[x y]|].
  2:{ destruct (_drawGlyphPrepareRetry p b0); cbn [bind] in Hrun; discriminate. }
  injection Hrun as Hb'.
  match type of Hb' with
  | restoreTransform tr (if _ then _splitDoubleHeightGlyph _ _ _ ?bb else _) = _ =>
      set (b1 := bb) in *
  end.
  assert (Hentry : LigatureMarker (g_shadingType (glyphEntryOf key glyphIndex (_glyphAtlasMap b1))) = true
                   <-> trigger).
  { unfold b1. cbn [set_glyphAtlasMap _glyphAtlasMap].
    rewrite glyphEntryOf_setGlyphEntry_eq.
    - cbn [g_shadingType call set_device _textShadingType].
      match goal with |- context [_textShadingType (_d2dBeginDrawing ?bb)] =>
        destruct (d2dBeginDrawing_frame bb) as (_ & _ & _ & _ & Tb)
      end.
      rewrite Tb. apply glyphShadingType_marker.
      destruct tr; cbn [call set_device set_rectPacker _textShadingType]; rewrite T0; exact Hts.
    - cbn [call set_device _glyphAtlasMap].
      match goal with |- is_Some (_glyphAtlasMap (_d2dBeginDrawing ?bb) !! key) =>
        destruct (d2dBeginDrawing_frame bb) as (Mb & _)
      end.
      rewrite Mb. destruct tr; cbn [call set_device set_rectPacker _glyphAtlasMap];
        rewrite M0; exact Hkey. }
  exists b1. split; [exact Hentry|]. split; [symmetry; exact Hb'|].
  intros Hdh. rewrite Hdh in Hb'. rewrite <- Hb'.
  destruct (restoreTransform_frame tr b1) as (M & _). rewrite M. exact Hentry.
Qed.


(** A glyph whose rectangle the packer refuses makes [_drawGlyph] prepare
    the retry and return [false]. *)
Lemma drawGlyph_unfit (p : RenderingPayload) (key : AtlasFontFaceKey) (glyphIndex : Z)
    (b : BackendD3D) (rw rh : Z) :
  is_Some (_glyphAtlasMap b !! key) ->
  (forall w h, atlasSize (s p) w h <> None) ->
  requestedRect p key glyphIndex = Some (rw, rh) ->
  stbrp_pack_rects (_rectPacker b) rw rh = None ->
  exists b', _drawGlyph p key glyphIndex b = Done (false, b').
Proof.
  intros Hkey Hsz Hreq Hpack. unfold requestedRect in Hreq. unfold _drawGlyph.
  destruct (fontFace key =? 0).
  - unfold _drawSoftFontGlyph. injection Hreq as <- <-. rewrite Hpack.
    pose proof (prepareRetry_spec p key b Hkey) as H.
    destruct (_drawGlyphPrepareRetry p b) as [b'|e|]; cbn [bind]; [eauto| |contradiction].
    destruct H as (_ & H). exfalso. exact (Hsz _ _ H).
  - destruct (f32_ge _ _ || f32_ge _ _); [discriminate|].
    injection Hreq as <- <-.
    set (b0 := if negb _ then call _ b else b).
    assert (H0 : _rectPacker b0 = _rectPacker b /\ _glyphAtlasMap b0 = _glyphAtlasMap b)
      by (unfold b0; destruct (negb _); split; reflexivity).
    destruct H0 as (P0 & M0). rewrite P0, Hpack.
    assert (Hkey0 : is_Some (_glyphAtlasMap b0 !! key)) by (rewrite M0; exact Hkey).
    pose proof (prepareRetry_spec p key b0 Hkey0) as H.
    destruct (_drawGlyphPrepareRetry p b0) as [b'|e|]; cbn [bind]; [eauto| |contradiction].
    destruct H as (_ & H). exfalso. exact (Hsz _ _ H).
Qed.


(** ** The glyph loop *)

Lemma emitGlyph_frame (p : RenderingPayload) (row : ShapedRow) (baselineY : Z)
    (key : AtlasFontFaceKey) (t : TextState) :
  x (emitGlyph p row baselineY key t) = to_u32 (x t + 1) /\
  _glyphAtlasMap (backend (emitGlyph p row baselineY key t)) = _glyphAtlasMap (backend t) /\
  _rectPacker (backend (emitGlyph p row baselineY key t)) = _rectPacker (backend t) /\
  device (backend (emitGlyph p row baselineY key t)) = device (backend t).
Proof.
  unfold emitGlyph.
  destruct (isDefault _); cbn [x backend _appendQuad set_instances _glyphAtlasMap _rectPacker device];
    repeat split.
Qed.

Lemma to_u32_succ x0 : 0 <= x0 -> x0 + 1 < 2 ^ 32 -> to_u32 (x0 + 1) = x0 + 1.
Proof. intros. unfold to_u32. apply Z.mod_small. lia. Qed.

Lemma glyphLoop_outcome (p : RenderingPayload) (row : ShapedRow) (baselineY : Z)
    (key : AtlasFontFaceKey) (n : nat) : forall t,
  is_Some (_glyphAtlasMap (backend t) !! key) ->
  loopOutcome p key t n (glyphLoop n p row baselineY key t).
Proof.
  induction n as [|n IH]; intros t Hkey.
  { cbn [glyphLoop loopOutcome]. split; [exact Hkey|]. split; [reflexivity|]. intros. simpl. lia. }
  assert (Hstep : forall t1,
            x t1 = to_u32 (x t + 1) ->
            is_Some (_glyphAtlasMap (backend t1) !! key) ->
            resets (device (backend t1)) = resets (device (backend t)) ->
            loopOutcome p key t (S n) (glyphLoop n p row baselineY key t1)).
  { intros t1 Hx Hk Hr. specialize (IH t1 Hk).
    destruct (glyphLoop n p row baselineY key t1) as [[t'|t']|e|]; cbn [loopOutcome] in *.
    - destruct IH as (K & R & X). split; [exact K|]. split; [lia|].
      intros H0 Hn. rewrite Hx, to_u32_succ in X by lia. rewrite X; lia.
    - destruct IH as (F & K & R & I & X).
      split; [exact F|]. split; [exact K|]. split; [lia|]. split; [exact I|].
      intros H0 Hn. rewrite Hx, to_u32_succ in X by lia. lia.
    - exact IH.
    - exact IH. }
  cbn [glyphLoop].
  destruct (glyphsOf key (_glyphAtlasMap (backend t)) !! at_ (glyphIndices row) (x t) 0) eqn:El.
  - destruct (emitGlyph_frame p row baselineY key t) as (X & M & _ & D).
    apply Hstep; [exact X|rewrite M; exact Hkey|rewrite D; reflexivity].
  - set (b := set_glyphAtlasMap _ (backend t)).
    assert (Hb : is_Some (_glyphAtlasMap b !! key))
      by (unfold b; cbn [set_glyphAtlasMap _glyphAtlasMap]; apply setGlyphEntry_keeps; exact Hkey).
    pose proof (drawGlyph_cases p key (at_ (glyphIndices row) (x t) 0) b Hb) as H.
    destruct (_drawGlyph p key (at_ (glyphIndices row) (x t) 0) b) as [[[|] b']|e|];
      cbn [bind fst snd glyphOutcome] in *.
    + destruct H as (K & R).
      destruct (emitGlyph_frame p row baselineY key (with_backend b' t)) as (X & M & _ & D).
      apply Hstep; [exact X|rewrite M; apply K; exact Hb|rewrite D; exact R].
    + destruct H as (F & K & R & I). cbn [loopOutcome with_backend backend x].
      split; [exact F|]. split; [apply K; exact Hb|]. split; [exact R|]. split; [exact I|].
      intros. lia.
    + destruct H as (He & Hs). split; [exact He|]. eauto.
    + exact H.
Qed.


(** The glyphs before the one that failed were drawn in the same pass. *)
Lemma glyphLoop_split (p : RenderingPayload) (row : ShapedRow) (baselineY : Z)
    (key : AtlasFontFaceKey) (n : nat) : forall t t',
  is_Some (_glyphAtlasMap (backend t) !! key) ->
  0 <= x t -> x t + Z.of_nat n < 2 ^ 32 ->
  glyphLoop n p row baselineY key t = Done (Retry t') ->
  exists pre,
    glyphLoop (Z.to_nat (x t' - x t)) p row baselineY key t = Done (Finished pre) /\
    x pre = x t' /\
    glyphLoop 1 p row baselineY key pre = Done (Retry t').
Proof.
  induction n as [|n IH]; intros t t' Hkey H0 Hn Hrun; [discriminate|].
  assert (Hstep : forall t1,
            x t1 = to_u32 (x t + 1) ->
            is_Some (_glyphAtlasMap (backend t1) !! key) ->
            glyphLoop (S (Z.to_nat (x t' - x t1))) p row baselineY key t =
              glyphLoop (Z.to_nat (x t' - x t1)) p row baselineY key t1 ->
            glyphLoop n p row baselineY key t1 = Done (Retry t') ->
            exists pre,
              glyphLoop (Z.to_nat (x t' - x t)) p row baselineY key t = Done (Finished pre) /\
              x pre = x t' /\
              glyphLoop 1 p row baselineY key pre = Done (Retry t')).
  { intros t1 Hx Hk Hfirst Hrest.
    rewrite to_u32_succ in Hx by lia.
    pose proof (glyphLoop_outcome p row baselineY key n t1 Hk) as Ho.
    rewrite Hrest in Ho. cbn [loopOutcome] in Ho.
    destruct Ho as (_ & _ & _ & _ & Hidx). specialize (Hidx ltac:(lia) ltac:(lia)).
    destruct (IH t1 t' Hk ltac:(lia) ltac:(lia) Hrest) as (pre & Hpre & Hxp & Hlast).
    exists pre. split; [|auto].
    replace (Z.to_nat (x t' - x t)) with (S (Z.to_nat (x t' - x t1))) by lia.
    rewrite Hfirst. exact Hpre. }
  cbn [glyphLoop] in Hrun.
  destruct (glyphsOf key (_glyphAtlasMap (backend t)) !! at_ (glyphIndices row) (x t) 0) eqn:El.
  - destruct (emitGlyph_frame p row baselineY key t) as (X & M & _ & _).
    apply (Hstep _ X); [rewrite M; exact Hkey| |exact Hrun].
    cbn [glyphLoop]. rewrite El. reflexivity.
  - set (b := set_glyphAtlasMap _ (backend t)) in *.
    assert (Hb : is_Some (_glyphAtlasMap b !! key))
      by (unfold b; cbn [set_glyphAtlasMap _glyphAtlasMap]; apply setGlyphEntry_keeps; exact Hkey).
    pose proof (drawGlyph_cases p key (at_ (glyphIndices row) (x t) 0) b Hb) as H.
    destruct (_drawGlyph p key (at_ (glyphIndices row) (x t) 0) b) as [[[|] b']|e|] eqn:Ed;
      cbn [bind fst snd glyphOutcome] in *; try discriminate.
    + destruct H as (K & _).
      destruct (emitGlyph_frame p row baselineY key (with_backend b' t)) as (X & M & _ & _).
      apply (Hstep _ X); [rewrite M; apply K; exact Hb| |exact Hrun].
      cbn [glyphLoop]. rewrite El. fold b. rewrite Ed. reflexivity.
    + injection Hrun as <-. cbn [with_backend x].
      replace (x t - x t) with 0 by lia. exists t.
      split; [reflexivity|]. split; [reflexivity|].
      cbn [glyphLoop]. rewrite El. fold b. rewrite Ed. reflexivity.
Qed.

(** ** One run of glyphs, with its retries *)

Lemma atlasSize_defined (st : Settings) (w h : Z) :
  maxAreaByFont st <> 1 -> atlasSize st w h <> None.
Proof.
  intros HM. unfold atlasSize, _BitScanReverse.
  assert (Hu : 0 <= maxAreaByFont st)
    by (unfold maxAreaByFont, to_u32; apply Z.mod_pos_bound; lia).
  assert (Ha : 0 <= atlasArea st w h <= 2 ^ 26 /\ atlasArea st w h <> 1).
  { unfold atlasArea, minArea. change maxArea with (2 ^ 26). lia. }
  destruct Ha as (Ha & Hne).
  destruct (Z.eqb_spec (to_u32 (atlasArea st w h - 1)) 0) as [E|_]; [|discriminate].
  exfalso. unfold to_u32 in E.
  destruct (Z.eq_dec (atlasArea st w h) 0) as [E0|E0].
  - rewrite E0 in E. vm_compute in E. discriminate.
  - rewrite Z.mod_small in E by lia. lia.
Qed.

Lemma freshAtlas_insertFontFace (p : RenderingPayload) (key : AtlasFontFaceKey) (b : BackendD3D) :
  freshAtlas p b ->
  freshAtlas p (set_glyphAtlasMap (insertFontFace key (_glyphAtlasMap b)) b).
Proof.
  intros [Hp Hm]. split; [exact Hp|].
  cbn [set_glyphAtlasMap _glyphAtlasMap]. intros k g. unfold insertFontFace.
  destruct (_glyphAtlasMap b !! key) eqn:E; [apply Hm|].
  destruct (decide (key = k)) as [->|Hne].
  - rewrite lookup_insert_eq. congruence.
  - rewrite lookup_insert_ne by exact Hne. apply Hm.
Qed.

Section Run.
Variables (p : RenderingPayload) (row : ShapedRow) (baselineY : Z) (m : FontMapping).

Local Abbreviation key := (runKey row m).
Local Abbreviation atLabel := (atRetryLabel row m).

Hypothesis sizeDefined : maxAreaByFont (s p) <> 1.
Hypothesis glyphsTo_u32 : glyphsTo m < 2 ^ 32.

Lemma atLabel_key (t : TextState) : is_Some (_glyphAtlasMap (backend (atLabel t)) !! key).
Proof. apply lookup_insertFontFace_is_Some. Qed.



(** The retry exit of a pass through the glyph loop: the glyph at the index
    [x t'] of the exit is the one whose rasterization failed, the glyphs
    from [x t] up to it were drawn in that pass, the stream is empty, the
    atlas was reset once, and the next pass starts at the label with that
    same index. *)
Lemma drawRun_retry_exit (t t' : TextState) (fuel : nat) :
  0 <= x t ->
  glyphLoop (Z.to_nat (glyphsTo m - x t)) p row baselineY key (atLabel t) = Done (Retry t') ->
  x t <= x t' < glyphsTo m /\
  (exists pre,
     glyphLoop (Z.to_nat (x t' - x t)) p row baselineY key (atLabel t) = Done (Finished pre) /\
     x pre = x t' /\
     glyphLoop 1 p row baselineY key pre = Done (Retry t')) /\
  freshAtlas p (backend t') /\
  _instances (backend t') = [] /\
  resets (device (backend t')) = S (resets (device (backend t))) /\
  drawRun (S fuel) p row baselineY m t = drawRun fuel p row baselineY m t'.
Proof.
  intros H0 Hrun.
  assert (Hsome : x t < glyphsTo m).
  { destruct (Z.le_gt_cases (glyphsTo m) (x t)) as [Hempty|Hsome]; [|lia].
    replace (Z.to_nat (glyphsTo m - x t)) with 0%nat in Hrun by lia. discriminate. }
  pose proof (glyphLoop_outcome p row baselineY key (Z.to_nat (glyphsTo m - x t))
                (atLabel t) (atLabel_key t)) as Ho.
  rewrite Hrun in Ho. cbn [loopOutcome] in Ho. destruct Ho as (F & _ & R & I & X).
  cbn [atRetryLabel with_backend backend set_glyphAtlasMap device x] in R, X.
  specialize (X ltac:(lia) ltac:(lia)).
  split; [lia|]. split.
  { apply (glyphLoop_split p row baselineY key (Z.to_nat (glyphsTo m - x t)) (atLabel t) t').
    - apply atLabel_key.
    - cbn [atRetryLabel with_backend x]. lia.
    - cbn [atRetryLabel with_backend x]. lia.
    - exact Hrun. }
  split; [exact F|]. split; [exact I|]. split; [exact R|].
  cbn [drawRun]. fold key. fold (atLabel t). cbn [atRetryLabel with_backend x]. fold (atLabel t).
  rewrite Hrun. reflexivity.
Qed.

(** A glyph that does not fit an atlas that holds nothing else keeps the
    run at [drawGlyphRetry]: every pass resets the atlas and fails at the
    same glyph again. *)
Lemma drawRun_never_ends (rw rh : Z) (fuel : nat) : forall t,
  freshAtlas p (backend t) ->
  x t < glyphsTo m ->
  requestedRect p key (at_ (glyphIndices row) (x t) 0) = Some (rw, rh) ->
  (forall w h u v, atlasSize (s p) w h = Some (u, v) ->
                   stbrp_pack_rects (stbrp_init_target u v) rw rh = None) ->
  drawRun fuel p row baselineY m t = OutOfFuel.
Proof.
  induction fuel as [|fuel IH]; intros t Hfresh Hx Hreq Hunfit; [reflexivity|].
  cbn [drawRun]. fold key. fold (atLabel t). cbn [atRetryLabel with_backend x]. fold (atLabel t).
  destruct (Z.to_nat (glyphsTo m - x t)) as [|n] eqn:En; [lia|].
  pose proof (freshAtlas_insertFontFace p key (backend t) Hfresh) as Hf.
  destruct Hf as [(w & h & u & v & Hsz & Hpk) Hmap].
  destruct (atLabel_key t) as [g Hg].
  assert (g = ∅) by (eapply Hmap; exact Hg). subst g.
  cbn [glyphLoop]. cbn [atRetryLabel with_backend x backend].
  assert (Eg : glyphsOf key (insertFontFace key (_glyphAtlasMap (backend t))) = ∅).
  { unfold glyphsOf. cbn [atRetryLabel with_backend backend set_glyphAtlasMap _glyphAtlasMap] in Hg.
    rewrite Hg. reflexivity. }
  cbn [set_glyphAtlasMap _glyphAtlasMap]. rewrite Eg, lookup_empty.
  match goal with |- context [_drawGlyph p key ?gi ?bb] => set (b := bb); set (i := gi) in * end.
  assert (Hb : is_Some (_glyphAtlasMap b !! key)).
  { unfold b. cbn [set_glyphAtlasMap _glyphAtlasMap]. apply setGlyphEntry_keeps.
    apply lookup_insertFontFace_is_Some. }
  destruct (drawGlyph_unfit p key i b rw rh Hb) as [b' Hb'].
  { intros w0 h0. apply atlasSize_defined. exact sizeDefined. }
  { exact Hreq. }
  { unfold b. cbn [set_glyphAtlasMap _rectPacker] in *. rewrite Hpk. eapply Hunfit. exact Hsz. }
  pose proof (drawGlyph_cases p key i b Hb) as H. rewrite Hb' in H. cbn [glyphOutcome] in H.
  destruct H as (F & _).
  rewrite Hb'. cbn [bind fst snd]. apply IH; cbn [with_backend x backend]; assumption.
Qed.

End Run.

(** ** The deadlock guard *)

Lemma drawRun_no_deadlock (p : RenderingPayload) (row : ShapedRow) (baselineY : Z)
    (m : FontMapping) (fuel : nat) : forall t,
  drawRun fuel p row baselineY m t <> Fail E_UNEXPECTED.
Proof.
  induction fuel as [|fuel IH]; intros t; [discriminate|].
  cbn [drawRun].
  set (key := {| fontFace := m_fontFace m; lineRendition := row_lineRendition row |}).
  set (t0 := with_backend _ t).
  assert (Hk : is_Some (_glyphAtlasMap (backend t0) !! key)) by apply lookup_insertFontFace_is_Some.
  pose proof (glyphLoop_outcome p row baselineY key (Z.to_nat (glyphsTo m - x t0)) t0 Hk) as Ho.
  destruct (glyphLoop _ p row baselineY key t0) as [[t'|t']|e|]; cbn [bind loopOutcome] in *.
  - discriminate.
  - apply IH.
  - destruct Ho as [-> _]. discriminate.
  - discriminate.
Qed.

Lemma drawMappings_no_deadlock (p : RenderingPayload) (row : ShapedRow) (baselineY : Z)
    (fuel : nat) (ms : list FontMapping) : forall t,
  drawMappings fuel p row baselineY ms t <> Fail E_UNEXPECTED.
Proof.
  induction ms as [|m ms IH]; intros t; cbn [drawMappings]; [discriminate|].
  match goal with |- bind ?r _ <> _ =>
    pose proof (drawRun_no_deadlock p row baselineY m fuel) as Hr; destruct r eqn:Er
  end; cbn [bind].
  - apply IH.
  - intros E. injection E as ->. eapply Hr. exact Er.
  - discriminate.
Qed.

Lemma drawRows_no_deadlock (p : RenderingPayload) (fuel : nat) (rs : list ShapedRow) :
  forall fr, drawRows fuel p rs fr <> Fail E_UNEXPECTED.
Proof.
  induction rs as [|row rs IH]; intros fr; cbn [drawRows]; [discriminate|].
  match goal with |- bind ?r _ <> _ => destruct r eqn:Er end; cbn [bind].
  - apply IH.
  - intros E. injection E as ->. eapply drawMappings_no_deadlock. exact Er.
  - discriminate.
Qed.

(** C9.  [_drawGlyphPrepareRetry] throws E_UNEXPECTED exactly when the
    outer glyph map is empty, and no run and no frame of the text pass ever
    ends with that error, whatever the payload, the renderer and the number
    of retries: the font face entry inserted at [drawGlyphRetry] is in the
    map whenever a glyph is rasterized. *)
Theorem drawText_never_deadlocks (fuel : nat) (p : RenderingPayload) (b : BackendD3D) :
  (forall b0, _drawGlyphPrepareRetry p b0 = Fail E_UNEXPECTED <-> _glyphAtlasMap b0 = ∅) /\
  (forall row baselineY m t, drawRun fuel p row baselineY m t <> Fail E_UNEXPECTED) /\
  _drawText fuel p b <> Fail E_UNEXPECTED.
Proof.
  split; [|split].
  - intros b0. unfold _drawGlyphPrepareRetry.
    destruct (decide (_glyphAtlasMap b0 = ∅)) as [E|E]; [tauto|].
    split; [|contradiction].
    pose proof (resetGlyphAtlas_spec p (_flushQuads (_d2dEndDrawing b0))) as H.
    destruct (_resetGlyphAtlas p (_flushQuads (_d2dEndDrawing b0))); try discriminate.
    destruct H as [-> _]. discriminate.
  - intros. apply drawRun_no_deadlock.
  - unfold _drawText.
    assert (H1 : forall r : outcome BackendD3D, r <> Fail E_UNEXPECTED ->
              bind r (fun b1 =>
                let b2 := set_skipForegroundBitmapUpload false b1 in
                let* fr := drawRows fuel p (rows p)
                             {| y := 0; dirtyTop_ := CoordTypeMax; dirtyBottom_ := CoordTypeMin;
                                accumulator := false; done_rows := []; renderer := b2 |} in
                let d := dirtyRectInPx p in
                let d := if dirtyTop_ fr <? dirtyBottom_ fr
                         then rect.mk (rect.left d) (Z.min (rect.top d) (dirtyTop_ fr))
                                (rect.right d) (Z.max (rect.bottom d) (dirtyBottom_ fr))
                         else d in
                Done (set_rows_dirtyRect (done_rows fr) d p,
                      set_skipForegroundBitmapUpload (negb (accumulator fr))
                        (_d2dEndDrawing (renderer fr)))) <> Fail E_UNEXPECTED).
    { intros r Hr. destruct r as [b1|e|]; cbn [bind];
        [|intros E; injection E as ->; apply Hr; reflexivity|discriminate].
      match goal with |- bind ?r _ <> _ => destruct r eqn:Er end; cbn [bind].
      - discriminate.
      - intros E. injection E as ->. eapply drawRows_no_deadlock. exact Er.
      - discriminate. }
    apply H1. destruct (_fontChangedResetGlyphAtlas b); [|discriminate].
    pose proof (resetGlyphAtlas_spec p b) as H.
    destruct (_resetGlyphAtlas p b); try discriminate.
    destruct H as [-> _]. discriminate.
Qed.

(** ** Invariants of the text pass *)

(** A property of the renderer that inserting a font face entry, emitting
    the quad of a glyph and rasterizing a glyph keep is kept by the loops
    of the text pass. *)
Section TextPassInvariant.
Variables (p : RenderingPayload) (Inv : BackendD3D -> Prop).

Hypothesis Inv_insert : forall key b,
  Inv b -> Inv (set_glyphAtlasMap (insertFontFace key (_glyphAtlasMap b)) b).
Hypothesis Inv_emit : forall row baselineY key t,
  Inv (backend t) -> Inv (backend (emitGlyph p row baselineY key t)).
Hypothesis Inv_glyph : forall key glyphIndex b r b',
  Inv b ->
  _drawGlyph p key glyphIndex
    (set_glyphAtlasMap (setGlyphEntry key glyphIndex emptyGlyphEntry (_glyphAtlasMap b)) b)
    = Done (r, b') ->
  Inv b'.

Lemma glyphLoop_invariant (row : ShapedRow) (baselineY : Z) (key : AtlasFontFaceKey) (n : nat) :
  forall t e,
  Inv (backend t) ->
  glyphLoop n p row baselineY key t = Done e ->
  Inv (backend (match e with Finished t' => t' | Retry t' => t' end)).
Proof.
  induction n as [|n IH]; intros t e Ht Hrun; cbn [glyphLoop] in Hrun.
  { injection Hrun as <-. exact Ht. }
  destruct (glyphsOf key (_glyphAtlasMap (backend t)) !! at_ (glyphIndices row) (x t) 0).
  - eapply IH; [|exact Hrun]. apply Inv_emit. exact Ht.
  - match type of Hrun with bind ?r _ = _ => destruct r as [[ok b']|e'|] eqn:Ed end;
      cbn [bind fst snd] in Hrun; try discriminate.
    pose proof (Inv_glyph _ _ _ _ _ Ht Ed) as Hb'.
    destruct ok.
    + eapply IH; [|exact Hrun]. apply Inv_emit. exact Hb'.
    + injection Hrun as <-. exact Hb'.
Qed.

Lemma drawRun_invariant (row : ShapedRow) (baselineY : Z) (m : FontMapping) (fuel : nat) :
  forall t t',
  Inv (backend t) -> drawRun fuel p row baselineY m t = Done t' -> Inv (backend t').
Proof.
  induction fuel as [|fuel IH]; intros t t' Ht Hrun; cbn [drawRun] in Hrun; [discriminate|].
  match type of Hrun with bind ?r _ = _ => destruct r as [e|e'|] eqn:El end;
    cbn [bind] in Hrun; try discriminate.
  apply glyphLoop_invariant in El; [|cbn [with_backend backend]; apply Inv_insert; exact Ht].
  destruct e as [t1|t1].
  - injection Hrun as <-. exact El.
  - eapply IH; [exact El|exact Hrun].
Qed.

Lemma drawMappings_invariant (row : ShapedRow) (baselineY : Z) (fuel : nat)
    (ms : list FontMapping) : forall t t',
  Inv (backend t) -> drawMappings fuel p row baselineY ms t = Done t' -> Inv (backend t').
Proof.
  induction ms as [|m ms IH]; intros t t' Ht Hrun; cbn [drawMappings] in Hrun.
  { injection Hrun as <-. exact Ht. }
  match type of Hrun with bind ?r _ = _ => destruct r as [t1|e'|] eqn:Er end;
    cbn [bind] in Hrun; try discriminate.
  apply drawRun_invariant in Er; [|exact Ht].
  eapply IH; [exact Er|exact Hrun].
Qed.

Lemma drawRows_invariant (fuel : nat) (rs : list ShapedRow) : forall fr fr',
  Inv (renderer fr) -> drawRows fuel p rs fr = Done fr' -> Inv (renderer fr').
Proof.
  induction rs as [|row rs IH]; intros fr fr' Hfr Hrun; cbn [drawRows] in Hrun.
  { injection Hrun as <-. exact Hfr. }
  match type of Hrun with bind ?r _ = _ => destruct r as [t1|e'|] eqn:Er end;
    cbn [bind] in Hrun; try discriminate.
  apply drawMappings_invariant in Er; [|exact Hfr].
  eapply IH; [|exact Hrun]. exact Er.
Qed.

End TextPassInvariant.

(** ** What the steps of a glyph do to the quad stream *)

Lemma streamKept_refl (b : BackendD3D) : streamKept b b.
Proof. split; reflexivity. Qed.

Lemma streamKept_trans (b1 b2 b3 : BackendD3D) :
  streamKept b1 b2 -> streamKept b2 b3 -> streamKept b1 b3.
Proof. intros [H1 H2] [H3 H4]. split; congruence. Qed.

Lemma streamKept_d2dBeginDrawing (b : BackendD3D) : streamKept b (_d2dBeginDrawing b).
Proof. unfold _d2dBeginDrawing. destruct (_d2dBeganDrawing b); split; reflexivity. Qed.

Lemma streamKept_d2dEndDrawing (b : BackendD3D) : streamKept b (_d2dEndDrawing b).
Proof. unfold _d2dEndDrawing. destruct (_d2dBeganDrawing b); split; reflexivity. Qed.

Lemma streamKept_restoreTransform (tr : bool) (b : BackendD3D) :
  streamKept b (restoreTransform tr b).
Proof. destruct tr; split; reflexivity. Qed.

Lemma streamKept_splitDoubleHeightGlyph (p : RenderingPayload) (key : AtlasFontFaceKey)
    (glyphIndex : Z) (b : BackendD3D) :
  streamKept b (_splitDoubleHeightGlyph p key glyphIndex b).
Proof. unfold _splitDoubleHeightGlyph. destruct (splitHalves _ _). split; reflexivity. Qed.

Lemma streamKept_resetGlyphAtlas (p : RenderingPayload) (b b' : BackendD3D) :
  _resetGlyphAtlas p b = Done b' -> streamKept b b'.
Proof.
  unfold _resetGlyphAtlas.
  destruct (atlasSize _ _ _) as [[u v]|]; [|discriminate].
  intros H. injection H as <-.
  match goal with |- context [_d2dBeginDrawing ?bb] =>
    destruct (streamKept_d2dBeginDrawing bb) as [E1 E2]
  end.
  split; cbn [set_fontChangedResetGlyphAtlas call set_device _instances _instancesStateChanges];
    [rewrite E1|rewrite E2]; destruct (negb _ || negb _); reflexivity.
Qed.

(** A flush leaves no quad behind and, unless there was no quad, no
    marker. *)
Lemma flushQuads_stream (b : BackendD3D) :
  _instances (_flushQuads b) = [] /\
  (_instancesStateChanges (_flushQuads b) = [] \/
   _instances b = [] /\ _instancesStateChanges (_flushQuads b) = _instancesStateChanges b).
Proof.
  unfold _flushQuads. destruct (Z.eqb_spec (_instancesCount b) 0) as [E|E].
  - assert (_instances b = [])
      by (unfold _instancesCount in E; destruct (_instances b); [reflexivity|discriminate]).
    auto.
  - split; [reflexivity|left; reflexivity].
Qed.

Lemma drawGlyphPrepareRetry_stream (p : RenderingPayload) (b b' : BackendD3D) :
  _drawGlyphPrepareRetry p b = Done b' ->
  streamKept b b' \/ (_instances b' = [] /\ _instancesStateChanges b' = []).
Proof.
  unfold _drawGlyphPrepareRetry. destruct (decide _); [discriminate|]. intros H.
  apply streamKept_resetGlyphAtlas in H. destruct H as [H1 H2].
  destruct (streamKept_d2dEndDrawing b) as [E1 E2].
  destruct (flushQuads_stream (_d2dEndDrawing b)) as [F1 [F2|[F2 F3]]].
  - right. split; congruence.
  - left. split; congruence.
Qed.

(** Rasterizing a glyph keeps the quad stream, or, when the atlas was
    full, flushes it. *)
Lemma drawSoftFontGlyph_stream (p : RenderingPayload) (key : AtlasFontFaceKey) (glyphIndex : Z)
    (b : BackendD3D) (r : bool) (b' : BackendD3D) :
  _drawSoftFontGlyph p key glyphIndex b = Done (r, b') ->
  streamKept b b' \/ (_instances b' = [] /\ _instancesStateChanges b' = []).
Proof.
  unfold _drawSoftFontGlyph.
  destruct (stbrp_pack_rects (_rectPacker b) _ _) as [[x0 y0]|].
  - match goal with |- context [_d2dBeginDrawing ?bb] =>
      pose proof (streamKept_d2dBeginDrawing bb) as Hb
    end.
    intros Hrun. left. destruct (isDoubleHeight (lineRendition key)); injection Hrun as _ <-.
    + eapply streamKept_trans; [|apply streamKept_splitDoubleHeightGlyph].
      destruct Hb as [E1 E2]. split; cbn; [rewrite E1|rewrite E2]; reflexivity.
    + destruct Hb as [E1 E2]. split; cbn; [rewrite E1|rewrite E2]; reflexivity.
  - destruct (_drawGlyphPrepareRetry p b) as [b1|e|] eqn:E; cbn [bind]; try discriminate.
    intros H. injection H as _ <-. apply (drawGlyphPrepareRetry_stream p b b1 E).
Qed.

Lemma drawGlyph_stream (p : RenderingPayload) (key : AtlasFontFaceKey) (glyphIndex : Z)
    (b : BackendD3D) (r : bool) (b' : BackendD3D) :
  _drawGlyph p key glyphIndex b = Done (r, b') ->
  streamKept b b' \/ (_instances b' = [] /\ _instancesStateChanges b' = []).
Proof.
  unfold _drawGlyph.
  destruct (fontFace key =? 0); [apply drawSoftFontGlyph_stream|].
  set (tr := negb (bool_decide (lineRendition key = SingleWidth))).
  set (b0 := if tr then call _ b else b).
  assert (H0 : streamKept b b0) by (unfold b0; destruct tr; split; reflexivity).
  destruct (f32_ge _ _ || f32_ge _ _).
  { intros H. injection H as _ <-. left.
    eapply streamKept_trans; [exact H0|apply streamKept_restoreTransform]. }
  destruct (stbrp_pack_rects (_rectPacker b0) _ _) as [[x0 y0]|].
  - intros H. injection H as _ <-. left.
    eapply streamKept_trans; [|apply streamKept_restoreTransform].
    match goal with |- context [_d2dBeginDrawing ?bb] =>
      pose proof (streamKept_d2dBeginDrawing bb) as Hb; set (b2 := bb) in *
    end.
    assert (H2 : streamKept b b2).
    { eapply streamKept_trans; [exact H0|]. unfold b2. destruct tr; split; reflexivity. }
    assert (H3 : streamKept b (_d2dBeginDrawing b2)) by (eapply streamKept_trans; eassumption).
    destruct (isDoubleHeight (lineRendition key)).
    + eapply streamKept_trans; [|apply streamKept_splitDoubleHeightGlyph].
      destruct H3 as [E1 E2]. split; cbn; [rewrite E1|rewrite E2]; reflexivity.
    + destruct H3 as [E1 E2]. split; cbn; [rewrite E1|rewrite E2]; reflexivity.
  - destruct (_drawGlyphPrepareRetry p b0) as [b1|e|] eqn:E; cbn [bind]; try discriminate.
    intros H. injection H as _ <-.
    destruct (streamKept_restoreTransform tr b1) as [R1 R2].
    destruct (drawGlyphPrepareRetry_stream p b0 b1 E) as [K|[F1 F2]].
    + left. eapply streamKept_trans; [exact H0|].
      eapply streamKept_trans; [exact K|]. split; assumption.
    + right. split; congruence.
Qed.

(** ** Markers and quads *)

Lemma instancesCount_nonneg (b : BackendD3D) : 0 <= _instancesCount b.
Proof. unfold _instancesCount. lia. Qed.

Lemma markersOk_streamKept (b b' : BackendD3D) : streamKept b b' -> markersOk b -> markersOk b'.
Proof.
  intros [E1 E2] [H1 H2]. unfold markersOk, _instancesCount in *. rewrite E1, E2. auto.
Qed.

Lemma markersOk_flushed (b : BackendD3D) :
  _instances b = [] -> _instancesStateChanges b = [] -> markersOk b.
Proof. intros E1 E2. unfold markersOk. rewrite E2. simpl. auto. Qed.

Lemma markersOk_quadsOnly (b b' : BackendD3D) : quadsOnly b b' -> markersOk b -> markersOk b'.
Proof.
  intros (_ & _ & E & Hlen) [H1 H2]. unfold markersOk, _instancesCount in *. rewrite E. split.
  - eapply offsetsAscend_mono; [|exact H1]. lia.
  - intros E'. apply H2. rewrite E' in Hlen. destruct (_instances b); [reflexivity|simpl in Hlen; lia].
Qed.

Lemma quadsOnly_refl (b : BackendD3D) : quadsOnly b b.
Proof. unfold quadsOnly. auto. Qed.

Lemma quadsOnly_trans (b1 b2 b3 : BackendD3D) :
  quadsOnly b1 b2 -> quadsOnly b2 b3 -> quadsOnly b1 b3.
Proof.
  intros (D1 & F1 & C1 & L1) (D2 & F2 & C2 & L2).
  split; [congruence|]. split; [congruence|]. split; [congruence|lia].
Qed.

Lemma quadsOnly_appendQuad (q : QuadInstance) (b : BackendD3D) : quadsOnly b (_appendQuad q b).
Proof.
  unfold quadsOnly, _appendQuad.
  cbn [set_instances device _d2dBeganDrawing _instancesStateChanges _instances].
  rewrite length_app. repeat split; lia.
Qed.

Lemma length_modify_last {A : Type} (f : A -> A) (l : list A) :
  length (modify_last f l) = length l.
Proof.
  induction l as [|a l IH]; [reflexivity|].
  cbn [modify_last]. destruct l; [reflexivity|]. cbn [length] in *. rewrite IH. reflexivity.
Qed.

Lemma quadsOnly_modifyLastQuad (f : QuadInstance -> QuadInstance) (b : BackendD3D) :
  quadsOnly b (_modifyLastQuad f b).
Proof.
  unfold quadsOnly, _modifyLastQuad.
  cbn [set_instances device _d2dBeganDrawing _instancesStateChanges _instances].
  rewrite length_modify_last. auto.
Qed.

Lemma quadsOnly_set_cursorRects (cs : list CursorRect) (b : BackendD3D) :
  quadsOnly b (set_cursorRects cs b).
Proof. unfold quadsOnly. cbn. auto. Qed.

Lemma quadsOnly_appendCursorQuads (cs : list CursorRect) : forall b,
  quadsOnly b (appendCursorQuads cs b).
Proof.
  unfold appendCursorQuads. induction cs as [|c cs IH]; intros b; cbn [fold_left].
  - apply quadsOnly_refl.
  - eapply quadsOnly_trans; [apply quadsOnly_appendQuad|apply IH].
Qed.

Lemma quadsOnly_drawBackground (p : RenderingPayload) (b : BackendD3D) :
  quadsOnly b (_drawBackground p b).
Proof. apply quadsOnly_appendQuad. Qed.

Lemma quadsOnly_drawCursorPart1 (p : RenderingPayload) (b : BackendD3D) :
  quadsOnly b (_drawCursorPart1 p b).
Proof.
  unfold _drawCursorPart1.
  destruct (rect.empty (cursorRect p)); [apply quadsOnly_set_cursorRects|].
  destruct (cursorColor (cursor (s p)) =? 0xffffffff).
  - eapply quadsOnly_trans; [|apply quadsOnly_set_cursorRects].
    eapply quadsOnly_trans; [|apply quadsOnly_appendCursorQuads].
    apply quadsOnly_set_cursorRects.
  - eapply quadsOnly_trans; [|apply quadsOnly_set_cursorRects].
    apply quadsOnly_set_cursorRects.
Qed.

Lemma quadsOnly_selectionLoop (p : RenderingPayload) (rs : list ShapedRow) : forall st,
  quadsOnly (sel_backend st) (sel_backend (selectionLoop p rs st)).
Proof.
  unfold selectionLoop. induction rs as [|row rs IH]; intros st; cbn [fold_left].
  - apply quadsOnly_refl.
  - eapply quadsOnly_trans; [|apply IH]. unfold selectionRow.
    destruct (selectionFrom row <? selectionTo row); cbn [sel_backend]; [|apply quadsOnly_refl].
    destruct ((selectionFrom row =? lastFrom st) && (selectionTo row =? lastTo st));
      cbn [sel_backend]; [apply quadsOnly_modifyLastQuad|apply quadsOnly_appendQuad].
Qed.

Lemma quadsOnly_drawSelection (p : RenderingPayload) (b : BackendD3D) :
  quadsOnly b (_drawSelection p b).
Proof.
  unfold _drawSelection.
  exact (quadsOnly_selectionLoop p (rows p)
           {| sel_y := 0; lastFrom := 0; lastTo := 0; sel_backend := b |}).
Qed.

Lemma quadsOnly_leftLines (p : RenderingPayload) (r : GridLineRange) (y : Z) (fuel : nat) :
  forall i b, quadsOnly b (leftLines fuel p r y i b).
Proof.
  induction fuel as [|fuel IH]; intros i b; cbn [leftLines]; [apply quadsOnly_refl|].
  destruct (i <? gl_to r); [|apply quadsOnly_refl].
  eapply quadsOnly_trans; [apply quadsOnly_appendQuad|apply IH].
Qed.

Lemma quadsOnly_rightLines (p : RenderingPayload) (r : GridLineRange) (y : Z) (fuel : nat) :
  forall i b, quadsOnly b (rightLines fuel p r y i b).
Proof.
  induction fuel as [|fuel IH]; intros i b; cbn [rightLines]; [apply quadsOnly_refl|].
  destruct (gl_from r <? i); [|apply quadsOnly_refl].
  eapply quadsOnly_trans; [apply quadsOnly_appendQuad|apply IH].
Qed.

Lemma quadsOnly_gridlineRange (p : RenderingPayload) (g : GridlinePayload) (y : Z)
    (b : BackendD3D) (r : GridLineRange) :
  quadsOnly b (gridlineRange p g y b r).
Proof.
  unfold gridlineRange.
  repeat match goal with
  | |- quadsOnly _ (if ?c then _ else _) => destruct c
  | |- quadsOnly ?b ?b => apply quadsOnly_refl
  | |- quadsOnly _ (appendHorizontalLine _ _ _ _ _ _) =>
      eapply quadsOnly_trans; [|apply quadsOnly_appendQuad]
  | |- quadsOnly _ (leftLines _ _ _ _ _ _) =>
      eapply quadsOnly_trans; [|apply quadsOnly_leftLines]
  | |- quadsOnly _ (rightLines _ _ _ _ _ _) =>
      eapply quadsOnly_trans; [|apply quadsOnly_rightLines]
  end.
Qed.

Lemma quadsOnly_drawGridlineRow (p : RenderingPayload) (g : GridlinePayload) (y : Z)
    (ranges : list GridLineRange) : forall b,
  quadsOnly b (_drawGridlineRow p g ranges y b).
Proof.
  unfold _drawGridlineRow. induction ranges as [|r ranges IH]; intros b; cbn [fold_left].
  - apply quadsOnly_refl.
  - eapply quadsOnly_trans; [apply quadsOnly_gridlineRange|apply IH].
Qed.

Lemma quadsOnly_gridlineRows (p : RenderingPayload) (g : GridlinePayload)
    (rs : list (list GridLineRange)) : forall y b,
  quadsOnly b (gridlineRows p g rs y b).
Proof.
  induction rs as [|ranges rs IH]; intros y b; cbn [gridlineRows]; [apply quadsOnly_refl|].
  eapply quadsOnly_trans; [|apply IH].
  destruct ranges; [apply quadsOnly_refl|apply quadsOnly_drawGridlineRow].
Qed.

Lemma quadsOnly_drawGridlines (p : RenderingPayload) (g : GridlinePayload) (b : BackendD3D) :
  quadsOnly b (_drawGridlines p g b).
Proof. apply quadsOnly_gridlineRows. Qed.

Lemma markersOk_drawCursorPart2 (p : RenderingPayload) (b : BackendD3D) :
  markersOk b -> markersOk (_drawCursorPart2 p b).
Proof.
  intros [Hasc Hnone]. unfold _drawCursorPart2.
  destruct (_cursorRects b) as [|c cs] eqn:Ecs; [split; assumption|].
  pose proof (instancesCount_nonneg b) as H0.
  destruct (cursorColor (cursor (s p)) =? 0xffffffff).
  - set (m1 := _markStateChange (Some _blendStateInvert) b).
    assert (Hr : _cursorRects m1 = c :: cs) by (unfold m1; cbn; exact Ecs).
    rewrite Hr.
    destruct (appendCursorQuads_spec (c :: cs) m1) as (E1 & E2 & _).
    unfold markersOk, _markStateChange.
    cbn [set_instancesStateChanges _instancesStateChanges _instances].
    unfold _instancesCount.
    cbn [set_instancesStateChanges _instancesStateChanges _instances].
    rewrite E1, E2. unfold m1.
    cbn [_markStateChange set_instancesStateChanges _instancesStateChanges _instances].
    rewrite length_app, length_map. unfold _instancesCount in *.
    cbn [length] in *.
    split; [|intros E; apply app_eq_nil in E; destruct E; discriminate].
    rewrite <- app_assoc. apply offsetsAscend_app. split.
    + apply (offsetsAscend_mono _ (Z.of_nat (length (_instances b)))); [lia|exact Hasc].
    + pose proof (offsetsAscend_last (Z.of_nat (length (_instances b)))
                    (_instancesStateChanges b) 0 ltac:(lia) Hasc) as Hl.
      set (lastOffset := List.last (0 :: map offset (_instancesStateChanges b)) 0) in *.
      cbn [app offsetsAscend offset]. repeat split; lia.
  - apply (markersOk_quadsOnly b); [|split; assumption].
    apply quadsOnly_appendCursorQuads.
Qed.

Lemma markersOk_emitGlyph (p : RenderingPayload) (row : ShapedRow) (baselineY : Z)
    (key : AtlasFontFaceKey) (t : TextState) :
  markersOk (backend t) -> markersOk (backend (emitGlyph p row baselineY key t)).
Proof.
  intros H. unfold emitGlyph. destruct (isDefault _); cbn [backend]; [exact H|].
  eapply markersOk_quadsOnly; [apply quadsOnly_appendQuad|exact H].
Qed.

Lemma markersOk_drawText (fuel : nat) (p p' : RenderingPayload) (b b' : BackendD3D) :
  markersOk b -> _drawText fuel p b = Done (p', b') -> markersOk b'.
Proof.
  intros Hb. unfold _drawText.
  destruct (if _fontChangedResetGlyphAtlas b then _resetGlyphAtlas p b else Done b)
    as [b1|e|] eqn:E1; cbn [bind]; try discriminate.
  assert (H1 : markersOk b1).
  { destruct (_fontChangedResetGlyphAtlas b).
    - eapply markersOk_streamKept; [apply (streamKept_resetGlyphAtlas p b b1 E1)|exact Hb].
    - injection E1 as <-. exact Hb. }
  match goal with |- bind ?r _ = _ -> _ => destruct r as [fr|e|] eqn:Er end;
    cbn [bind]; try discriminate.
  intros H. injection H as _ <-.
  apply (drawRows_invariant p markersOk) in Er.
  - eapply markersOk_streamKept; [|exact Er].
    destruct (streamKept_d2dEndDrawing (renderer fr)) as [D1 D2]. split; assumption.
  - intros key b0 H0. exact H0.
  - intros. apply markersOk_emitGlyph. assumption.
  - intros key glyphIndex b0 r b2 H0 Hd.
    destruct (drawGlyph_stream _ _ _ _ _ _ Hd) as [K|[F1 F2]].
    + eapply markersOk_streamKept; [exact K|]. exact H0.
    + apply markersOk_flushed; assumption.
  - exact H1.
Qed.

(** ** Direct2D drawing and the device log *)

Lemma d2dState_snoc (l : list DeviceCall) (c : DeviceCall) :
  d2dState (l ++ [c]) = d2dStep (d2dState l) c.
Proof. unfold d2dState. rewrite fold_left_app. reflexivity. Qed.

Lemma d2dOk_call (c : DeviceCall) (b : BackendD3D) :
  d2dOk b ->
  d2dStep (Some (_d2dBeganDrawing b)) c = Some (_d2dBeganDrawing b) ->
  d2dOk (call c b).
Proof.
  unfold d2dOk, call. cbn [set_device device _d2dBeganDrawing].
  intros H1 H2. rewrite d2dState_snoc, H1. exact H2.
Qed.

Lemma d2dOk_sameDevice (b b' : BackendD3D) :
  device b' = device b -> _d2dBeganDrawing b' = _d2dBeganDrawing b -> d2dOk b -> d2dOk b'.
Proof. unfold d2dOk. intros -> ->. auto. Qed.

Lemma d2dOk_quadsOnly (b b' : BackendD3D) : quadsOnly b b' -> d2dOk b -> d2dOk b'.
Proof. intros (D & F & _). apply d2dOk_sameDevice; assumption. Qed.

Lemma d2dOk_d2dBeginDrawing (b : BackendD3D) :
  d2dOk b -> d2dOk (_d2dBeginDrawing b) /\ _d2dBeganDrawing (_d2dBeginDrawing b) = true.
Proof.
  unfold d2dOk, _d2dBeginDrawing. intros H.
  destruct (_d2dBeganDrawing b) eqn:E; [split; [rewrite E|]; assumption|].
  cbn [set_d2dBeganDrawing call set_device device _d2dBeganDrawing].
  rewrite d2dState_snoc, H. split; reflexivity.
Qed.

Lemma d2dOk_d2dEndDrawing (b : BackendD3D) :
  d2dOk b -> d2dOk (_d2dEndDrawing b) /\ _d2dBeganDrawing (_d2dEndDrawing b) = false.
Proof.
  unfold d2dOk, _d2dEndDrawing. intros H.
  destruct (_d2dBeganDrawing b) eqn:E; [|split; [rewrite E|]; assumption].
  cbn [set_d2dBeganDrawing call set_device device _d2dBeganDrawing].
  rewrite d2dState_snoc, H. split; reflexivity.
Qed.

Lemma d2dState_flushLoop (l : list StateChange) : forall calls prev,
  d2dState calls = Some false ->
  d2dState (fst (fold_left flushStep l (calls, prev))) = Some false.
Proof.
  induction l as [|c l IH]; intros calls prev H; [exact H|].
  cbn [fold_left]. unfold flushStep at 2.
  destruct (to_size_t (offset c - prev) =? 0); destruct (blendState c);
    apply IH; rewrite ?d2dState_snoc, ?H; reflexivity.
Qed.

Lemma d2dOk_flushQuads (b : BackendD3D) :
  d2dOk b -> _d2dBeganDrawing b = false ->
  d2dOk (_flushQuads b) /\ _d2dBeganDrawing (_flushQuads b) = false.
Proof.
  unfold d2dOk, _flushQuads. intros H E. rewrite E in H.
  destruct (_instancesCount b =? 0); [split; [rewrite E|]; assumption|].
  cbn [set_instances set_instancesStateChanges set_device device _d2dBeganDrawing
       _markStateChange].
  rewrite E. split; [|reflexivity]. apply d2dState_flushLoop. exact H.
Qed.

Lemma d2dOk_resetGlyphAtlas (p : RenderingPayload) (b b' : BackendD3D) :
  d2dOk b -> _d2dBeganDrawing b = false ->
  _resetGlyphAtlas p b = Done b' ->
  d2dOk b' /\ _d2dBeganDrawing b' = true.
Proof.
  intros H E. unfold _resetGlyphAtlas.
  destruct (atlasSize _ _ _) as [[u v]|]; [|discriminate].
  intros Hr. injection Hr as <-.
  set (b1 := if negb (u =? width (_rectPacker b)) || negb (v =? height (_rectPacker b))
             then call (CreateTexture2D u v) b else b).
  assert (H1 : d2dOk b1 /\ _d2dBeganDrawing b1 = false).
  { unfold b1. destruct (negb _ || negb _); [|auto].
    split; [|exact E]. apply d2dOk_call; [exact H|]. rewrite E. reflexivity. }
  destruct H1 as [H1 E1].
  set (b2 := set_glyphAtlasMap _ (set_rectPacker (stbrp_init_target u v) b1)).
  assert (H2 : d2dOk b2) by (apply (d2dOk_sameDevice b1); [reflexivity|reflexivity|exact H1]).
  destruct (d2dOk_d2dBeginDrawing b2 H2) as [H3 E3].
  split.
  - apply (d2dOk_sameDevice (call Clear (_d2dBeginDrawing b2))); [reflexivity|reflexivity|].
    apply d2dOk_call; [exact H3|]. rewrite E3. reflexivity.
  - exact E3.
Qed.

Lemma d2dOk_drawGlyphPrepareRetry (p : RenderingPayload) (b b' : BackendD3D) :
  d2dOk b -> _drawGlyphPrepareRetry p b = Done b' ->
  d2dOk b' /\ _d2dBeganDrawing b' = true.
Proof.
  intros H. unfold _drawGlyphPrepareRetry. destruct (decide _); [discriminate|].
  destruct (d2dOk_d2dEndDrawing b H) as [H1 E1].
  destruct (d2dOk_flushQuads _ H1 E1) as [H2 E2].
  apply d2dOk_resetGlyphAtlas; assumption.
Qed.

Lemma d2dOk_restoreTransform (tr : bool) (b : BackendD3D) :
  d2dOk b -> d2dOk (restoreTransform tr b).
Proof.
  intros H. destruct tr; [|exact H]. apply d2dOk_call; [exact H|reflexivity].
Qed.

Lemma d2dOk_splitDoubleHeightGlyph (p : RenderingPayload) (key : AtlasFontFaceKey)
    (glyphIndex : Z) (b : BackendD3D) :
  d2dOk b -> d2dOk (_splitDoubleHeightGlyph p key glyphIndex b).
Proof.
  apply d2dOk_sameDevice; unfold _splitDoubleHeightGlyph; destruct (splitHalves _ _); reflexivity.
Qed.

Lemma d2dOk_drawSoftFontGlyph (p : RenderingPayload) (key : AtlasFontFaceKey) (glyphIndex : Z)
    (b : BackendD3D) (r : bool) (b' : BackendD3D) :
  d2dOk b -> _drawSoftFontGlyph p key glyphIndex b = Done (r, b') -> d2dOk b'.
Proof.
  intros H. unfold _drawSoftFontGlyph.
  destruct (stbrp_pack_rects (_rectPacker b) _ _) as [[x0 y0]|].
  - set (b1 := set_rectPacker _ b).
    assert (H1 : d2dOk b1) by (apply (d2dOk_sameDevice b); [reflexivity|reflexivity|exact H]).
    destruct (d2dOk_d2dBeginDrawing b1 H1) as [H2 E2].
    set (b3 := call _ (_d2dBeginDrawing b1)).
    assert (H3 : d2dOk b3) by (apply d2dOk_call; [exact H2|rewrite E2; reflexivity]).
    destruct (isDoubleHeight (lineRendition key)); intros Hr; injection Hr as _ <-.
    + apply d2dOk_splitDoubleHeightGlyph.
      apply (d2dOk_sameDevice b3); [reflexivity|reflexivity|exact H3].
    + apply (d2dOk_sameDevice b3); [reflexivity|reflexivity|exact H3].
  - destruct (_drawGlyphPrepareRetry p b) as [b1|e|] eqn:E; cbn [bind]; try discriminate.
    intros Hr. injection Hr as _ <-.
    apply (d2dOk_drawGlyphPrepareRetry p b b1 H E).
Qed.

Lemma d2dOk_drawGlyph (p : RenderingPayload) (key : AtlasFontFaceKey) (glyphIndex : Z)
    (b : BackendD3D) (r : bool) (b' : BackendD3D) :
  d2dOk b -> _drawGlyph p key glyphIndex b = Done (r, b') -> d2dOk b'.
Proof.
  intros H. unfold _drawGlyph.
  destruct (fontFace key =? 0); [apply d2dOk_drawSoftFontGlyph; exact H|].
  set (tr := negb (bool_decide (lineRendition key = SingleWidth))).
  set (b0 := if tr then call _ b else b).
  assert (H0 : d2dOk b0).
  { unfold b0. destruct tr; [|exact H]. apply d2dOk_call; [exact H|reflexivity]. }
  destruct (f32_ge _ _ || f32_ge _ _).
  { intros Hr. injection Hr as _ <-. apply d2dOk_restoreTransform. exact H0. }
  destruct (stbrp_pack_rects (_rectPacker b0) _ _) as [[x0 y0]|].
  - intros Hr. injection Hr as _ <-. apply d2dOk_restoreTransform.
    match goal with |- context [_d2dBeginDrawing ?bb] => set (b2 := bb) in * end.
    assert (H2 : d2dOk b2).
    { unfold b2. destruct tr.
      - apply d2dOk_call; [|reflexivity].
        apply (d2dOk_sameDevice b0); [reflexivity|reflexivity|exact H0].
      - apply (d2dOk_sameDevice b0); [reflexivity|reflexivity|exact H0]. }
    destruct (d2dOk_d2dBeginDrawing b2 H2) as [H3 E3].
    match goal with |- context [call ?c (_d2dBeginDrawing b2)] =>
      set (b4 := call c (_d2dBeginDrawing b2)) in *
    end.
    assert (H4 : d2dOk b4) by (apply d2dOk_call; [exact H3|rewrite E3; reflexivity]).
    destruct (isDoubleHeight (lineRendition key)).
    + apply d2dOk_splitDoubleHeightGlyph.
      apply (d2dOk_sameDevice b4); [reflexivity|reflexivity|exact H4].
    + apply (d2dOk_sameDevice b4); [reflexivity|reflexivity|exact H4].
  - destruct (_drawGlyphPrepareRetry p b0) as [b1|e|] eqn:E; cbn [bind]; try discriminate.
    intros Hr. injection Hr as _ <-. apply d2dOk_restoreTransform.
    apply (d2dOk_drawGlyphPrepareRetry p b0 b1 H0 E).
Qed.

Lemma d2dOk_emitGlyph (p : RenderingPayload) (row : ShapedRow) (baselineY : Z)
    (key : AtlasFontFaceKey) (t : TextState) :
  d2dOk (backend t) -> d2dOk (backend (emitGlyph p row baselineY key t)).
Proof.
  intros H. unfold emitGlyph. destruct (isDefault _); cbn [backend]; [exact H|].
  eapply d2dOk_quadsOnly; [apply quadsOnly_appendQuad|exact H].
Qed.

Lemma d2dOk_drawText (fuel : nat) (p p' : RenderingPayload) (b b' : BackendD3D) :
  d2dOk b -> _d2dBeganDrawing b = false ->
  _drawText fuel p b = Done (p', b') ->
  d2dOk b' /\ _d2dBeganDrawing b' = false.
Proof.
  intros Hb Eb. unfold _drawText.
  destruct (if _fontChangedResetGlyphAtlas b then _resetGlyphAtlas p b else Done b)
    as [b1|e|] eqn:E1; cbn [bind]; try discriminate.
  assert (H1 : d2dOk b1).
  { destruct (_fontChangedResetGlyphAtlas b).
    - apply (d2dOk_resetGlyphAtlas p b b1 Hb Eb E1).
    - injection E1 as <-. exact Hb. }
  match goal with |- bind ?r _ = _ -> _ => destruct r as [fr|e|] eqn:Er end;
    cbn [bind]; try discriminate.
  intros H. injection H as _ <-.
  apply (drawRows_invariant p d2dOk) in Er.
  - destruct (d2dOk_d2dEndDrawing (renderer fr) Er) as [H2 E2].
    split; [|exact E2].
    apply (d2dOk_sameDevice (_d2dEndDrawing (renderer fr))); [reflexivity|reflexivity|exact H2].
  - intros key b0 H0. exact H0.
  - intros. apply d2dOk_emitGlyph. assumption.
  - intros key glyphIndex b0 r b2 H0 Hd.
    eapply d2dOk_drawGlyph; [|exact Hd].
    apply (d2dOk_sameDevice b0); [reflexivity|reflexivity|exact H0].
  - exact H1.
Qed.

(** X10.  Across a frame the calls to Direct2D and to Direct3D keep their
    places.  When the device log is in order so far and Direct2D drawing is
    closed, then after [Render] the log is in order again and drawing is
    closed: [BeginDraw] and [EndDraw] alternate, [Clear], [DrawGlyphRun]
    and [DrawBitmap] happen between them only, and the atlas texture is
    created, blend states are set and quads are drawn outside of them
    only, by every flush of the frame, the flushes of the atlas retries
    included. *)
Theorem Render_brackets_direct2d (fuel : nat) (p p' : RenderingPayload) (g : GridlinePayload)
    (b b' : BackendD3D) :
  d2dState (device b) = Some false ->
  _d2dBeganDrawing b = false ->
  Render fuel p g b = Done (p', b') ->
  d2dState (device b') = Some false /\ _d2dBeganDrawing b' = false.
Proof.
  intros Hlog Eb. unfold Render.
  assert (Hb : d2dOk b) by (unfold d2dOk; rewrite Eb; exact Hlog).
  set (b1 := _drawCursorPart1 p (_drawBackground p b)).
  assert (Q1 : quadsOnly b b1).
  { eapply quadsOnly_trans; [apply quadsOnly_drawBackground|apply quadsOnly_drawCursorPart1]. }
  assert (H1 : d2dOk b1) by (eapply d2dOk_quadsOnly; eassumption).
  assert (E1 : _d2dBeganDrawing b1 = false) by (destruct Q1 as (_ & F & _); congruence).
  destruct (_drawText fuel p b1) as [[p2 b2]|e|] eqn:Et; cbn [bind fst snd]; try discriminate.
  intros H. injection H as _ <-.
  destruct (d2dOk_drawText fuel p p2 b1 b2 H1 E1 Et) as [H2 E2].
  set (b3 := _drawSelection p2 (_drawCursorPart2 p2 (_drawGridlines p2 g b2))).
  assert (Q3 : device b3 = device b2 /\ _d2dBeganDrawing b3 = _d2dBeganDrawing b2).
  { unfold b3.
    destruct (quadsOnly_drawSelection p2 (_drawCursorPart2 p2 (_drawGridlines p2 g b2)))
      as (D1 & F1 & _).
    destruct (quadsOnly_drawGridlines p2 g b2) as (D3 & F3 & _).
    assert (D2 : device (_drawCursorPart2 p2 (_drawGridlines p2 g b2)) =
                   device (_drawGridlines p2 g b2) /\
                 _d2dBeganDrawing (_drawCursorPart2 p2 (_drawGridlines p2 g b2)) =
                   _d2dBeganDrawing (_drawGridlines p2 g b2)).
    { unfold _drawCursorPart2. set (bg := _drawGridlines p2 g b2).
      destruct (_cursorRects bg); [split; reflexivity|].
      destruct (cursorColor (cursor (s p2)) =? 0xffffffff).
      - match goal with |- context [appendCursorQuads ?cs ?bb] =>
          destruct (quadsOnly_appendCursorQuads cs bb) as (Da & Fa & _)
        end.
        cbn [_markStateChange set_instancesStateChanges device _d2dBeganDrawing] in *.
        split; assumption.
      - match goal with |- context [appendCursorQuads ?cs ?bb] =>
          destruct (quadsOnly_appendCursorQuads cs bb) as (Da & Fa & _)
        end.
        split; assumption. }
    destruct D2 as [D2 F2]. split; congruence. }
  destruct Q3 as [D3 F3].
  assert (H3 : d2dOk b3) by (apply (d2dOk_sameDevice b2); assumption).
  destruct (d2dOk_flushQuads b3 H3 ltac:(congruence)) as [H4 E4].
  unfold d2dOk in H4. rewrite E4 in H4. split; assumption.
Qed.

(** X11.  A frame leaves nothing in the quad stream.  Started on a stream
    whose markers are in order, [Render] ends with no quad and no marker:
    the background quad and whatever the passes add is flushed, by the
    flush at the end of the frame or by that of an atlas retry, and no
    marker is left behind without the quads it belongs to. *)
Theorem Render_flushes_everything (fuel : nat) (p p' : RenderingPayload) (g : GridlinePayload)
    (b b' : BackendD3D) :
  markersOk b ->
  Render fuel p g b = Done (p', b') ->
  _instances b' = [] /\ _instancesStateChanges b' = [].
Proof.
  intros Hb. unfold Render.
  set (b1 := _drawCursorPart1 p (_drawBackground p b)).
  assert (H1 : markersOk b1).
  { eapply markersOk_quadsOnly; [|exact Hb].
    eapply quadsOnly_trans; [apply quadsOnly_drawBackground|apply quadsOnly_drawCursorPart1]. }
  destruct (_drawText fuel p b1) as [[p2 b2]|e|] eqn:Et; cbn [bind fst snd]; try discriminate.
  intros H. injection H as _ <-.
  pose proof (markersOk_drawText fuel p p2 b1 b2 H1 Et) as H2.
  set (b3 := _drawSelection p2 (_drawCursorPart2 p2 (_drawGridlines p2 g b2))).
  assert (H3 : markersOk b3).
  { unfold b3. eapply markersOk_quadsOnly; [apply quadsOnly_drawSelection|].
    apply markersOk_drawCursorPart2.
    eapply markersOk_quadsOnly; [apply quadsOnly_drawGridlines|exact H2]. }
  destruct (flushQuads_stream b3) as [F1 [F2|[F2 F3]]]; split; try assumption.
  rewrite F3. destruct H3 as [_ H3]. apply H3. exact F2.
Qed.

(** ** What the text pass leaves behind *)

(** X13.  The text pass adds no quad of the shading type [Default] to the
    stream: a glyph whose cache entry is [Default] (a glyph without black
    box, or the empty half of a split glyph) advances the pen and emits
    nothing. *)
Theorem drawText_emits_no_default_quad (fuel : nat) (p p' : RenderingPayload)
    (b b' : BackendD3D) :
  Forall (fun q => shadingType q <> plain Default) (_instances b) ->
  _drawText fuel p b = Done (p', b') ->
  Forall (fun q => shadingType q <> plain Default) (_instances b').
Proof.
  intros Hb. unfold _drawText.
  destruct (if _fontChangedResetGlyphAtlas b then _resetGlyphAtlas p b else Done b)
    as [b1|e|] eqn:E1; cbn [bind]; try discriminate.
  assert (H1 : Forall (fun q => shadingType q <> plain Default) (_instances b1)).
  { destruct (_fontChangedResetGlyphAtlas b).
    - destruct (streamKept_resetGlyphAtlas p b b1 E1) as [-> _]. exact Hb.
    - injection E1 as <-. exact Hb. }
  match goal with |- bind ?r _ = _ -> _ => destruct r as [fr|e|] eqn:Er end;
    cbn [bind]; try discriminate.
  intros H. injection H as _ <-.
  apply (drawRows_invariant p
           (fun b0 => Forall (fun q => shadingType q <> plain Default) (_instances b0))) in Er.
  - destruct (streamKept_d2dEndDrawing (renderer fr)) as [D1 _].
    cbn [set_skipForegroundBitmapUpload _instances]. rewrite D1. exact Er.
  - intros key b0 H0. exact H0.
  - intros row baselineY key t H0. unfold emitGlyph.
    match goal with |- context [isDefault ?st] => destruct (isDefault st) eqn:Ed end;
      cbn [backend]; [exact H0|].
    cbn [_appendQuad set_instances _instances]. apply Forall_app. split; [exact H0|].
    constructor; [|constructor]. cbn [shadingType].
    unfold isDefault in Ed. apply bool_decide_eq_false in Ed. exact Ed.
  - intros key glyphIndex b0 r b2 H0 Hd.
    destruct (drawGlyph_stream _ _ _ _ _ _ Hd) as [[K _]|[F1 _]].
    + rewrite K. exact H0.
    + rewrite F1. constructor.
  - exact H1.
Qed.

(** ** The payload after the text pass *)

Lemma emitGlyph_dirty (p : RenderingPayload) (row : ShapedRow) (baselineY : Z)
    (key : AtlasFontFaceKey) (t : TextState) :
  row_dirtyTop (emitGlyph p row baselineY key t) <= row_dirtyTop t /\
  row_dirtyBottom t <= row_dirtyBottom (emitGlyph p row baselineY key t).
Proof.
  unfold emitGlyph. destruct (isDefault _); cbn [row_dirtyTop row_dirtyBottom]; lia.
Qed.

Lemma glyphLoop_dirty (p : RenderingPayload) (row : ShapedRow) (baselineY : Z)
    (key : AtlasFontFaceKey) (n : nat) : forall t e,
  glyphLoop n p row baselineY key t = Done e ->
  let t' := match e with Finished t' => t' | Retry t' => t' end in
  row_dirtyTop t' <= row_dirtyTop t /\ row_dirtyBottom t <= row_dirtyBottom t'.
Proof.
  induction n as [|n IH]; intros t e Hrun; cbn [glyphLoop] in Hrun.
  { injection Hrun as <-. cbn. lia. }
  destruct (glyphsOf key (_glyphAtlasMap (backend t)) !! at_ (glyphIndices row) (x t) 0).
  - apply IH in Hrun. pose proof (emitGlyph_dirty p row baselineY key t). cbn zeta in *. lia.
  - match type of Hrun with bind ?r _ = _ => destruct r as [[ok b']|e'|] end;
      cbn [bind fst snd] in Hrun; try discriminate.
    destruct ok.
    + apply IH in Hrun.
      pose proof (emitGlyph_dirty p row baselineY key (with_backend b' t)) as He.
      cbn [with_backend row_dirtyTop row_dirtyBottom] in He. cbn zeta in *. lia.
    + injection Hrun as <-. cbn. lia.
Qed.

Lemma drawRun_dirty (p : RenderingPayload) (row : ShapedRow) (baselineY : Z)
    (m : FontMapping) (fuel : nat) : forall t t',
  drawRun fuel p row baselineY m t = Done t' ->
  row_dirtyTop t' <= row_dirtyTop t /\ row_dirtyBottom t <= row_dirtyBottom t'.
Proof.
  induction fuel as [|fuel IH]; intros t t' Hrun; cbn [drawRun] in Hrun; [discriminate|].
  match type of Hrun with bind ?r _ = _ => destruct r as [e|e'|] eqn:El end;
    cbn [bind] in Hrun; try discriminate.
  apply glyphLoop_dirty in El. cbn [with_backend row_dirtyTop row_dirtyBottom] in El.
  destruct e as [t1|t1].
  - injection Hrun as <-. exact El.
  - apply IH in Hrun. cbn zeta in El. lia.
Qed.

Lemma drawMappings_dirty (p : RenderingPayload) (row : ShapedRow) (baselineY : Z)
    (fuel : nat) (ms : list FontMapping) : forall t t',
  drawMappings fuel p row baselineY ms t = Done t' ->
  row_dirtyTop t' <= row_dirtyTop t /\ row_dirtyBottom t <= row_dirtyBottom t'.
Proof.
  induction ms as [|m ms IH]; intros t t' Hrun; cbn [drawMappings] in Hrun.
  { injection Hrun as <-. lia. }
  match type of Hrun with bind ?r _ = _ => destruct r as [t1|e'|] eqn:Er end;
    cbn [bind] in Hrun; try discriminate.
  apply drawRun_dirty in Er. cbn [row_dirtyTop row_dirtyBottom] in Er.
  apply IH in Hrun. lia.
Qed.

Lemma drawRows_rows (p : RenderingPayload) (fuel : nat) (rs : list ShapedRow) : forall fr fr',
  drawRows fuel p rs fr = Done fr' ->
  exists rs',
    done_rows fr' = done_rows fr ++ rs' /\
    Forall2 (fun r r' => r' = set_dirty (dirtyTop r') (dirtyBottom r') r /\
                         dirtyTop r' <= dirtyTop r /\ dirtyBottom r <= dirtyBottom r') rs rs'.
Proof.
  induction rs as [|row rs IH]; intros fr fr' Hrun; cbn [drawRows] in Hrun.
  { injection Hrun as <-. exists []. rewrite app_nil_r. split; [reflexivity|constructor]. }
  match type of Hrun with bind ?r _ = _ => destruct r as [t1|e'|] eqn:Er end;
    cbn [bind] in Hrun; try discriminate.
  apply drawMappings_dirty in Er. cbn [row_dirtyTop row_dirtyBottom] in Er.
  apply IH in Hrun. destruct Hrun as (rs' & E & HF). cbn [done_rows] in E.
  exists (set_dirty (row_dirtyTop t1) (row_dirtyBottom t1) row :: rs').
  split; [rewrite E, <- app_assoc; reflexivity|].
  constructor; [|exact HF]. cbn [set_dirty dirtyTop dirtyBottom]. split; [reflexivity|lia].
Qed.

(** X14.  Of the payload the text pass changes the dirty spans only, and
    these only grow: afterwards every row is the row it was with a
    [dirtyTop] that is not larger and a [dirtyBottom] that is not smaller,
    [dirtyRectInPx] has its left and right edge, a top that is not larger
    and a bottom that is not smaller, and the settings, the color bitmap,
    the cursor and the invalidated rows are those of before. *)
Theorem drawText_only_grows_dirty_spans (fuel : nat) (p p' : RenderingPayload)
    (b b' : BackendD3D) :
  _drawText fuel p b = Done (p', b') ->
  s p' = s p /\ colorBitmap p' = colorBitmap p /\
  colorBitmapRowStride p' = colorBitmapRowStride p /\
  cursorRect p' = cursorRect p /\ invalidatedRows p' = invalidatedRows p /\
  Forall2 (fun r r' => r' = set_dirty (dirtyTop r') (dirtyBottom r') r /\
                       dirtyTop r' <= dirtyTop r /\ dirtyBottom r <= dirtyBottom r')
          (rows p) (rows p') /\
  rect.left (dirtyRectInPx p') = rect.left (dirtyRectInPx p) /\
  rect.right (dirtyRectInPx p') = rect.right (dirtyRectInPx p) /\
  rect.top (dirtyRectInPx p') <= rect.top (dirtyRectInPx p) /\
  rect.bottom (dirtyRectInPx p) <= rect.bottom (dirtyRectInPx p').
Proof.
  unfold _drawText.
  destruct (if _fontChangedResetGlyphAtlas b then _resetGlyphAtlas p b else Done b)
    as [b1|e|]; cbn [bind]; try discriminate.
  match goal with |- bind ?r _ = _ -> _ => destruct r as [fr|e|] eqn:Er end;
    cbn [bind]; try discriminate.
  intros H. injection H as <- _.
  apply drawRows_rows in Er. destruct Er as (rs' & E & HF). cbn [done_rows app] in E.
  cbn [set_rows_dirtyRect s colorBitmap colorBitmapRowStride cursorRect invalidatedRows rows
       dirtyRectInPx].
  rewrite E. repeat (split; [reflexivity|]). split; [exact HF|].
  destruct (dirtyTop_ fr <? dirtyBottom_ fr); cbn [rect.left rect.right rect.top rect.bottom];
    repeat split; lia.
Qed.

(** ** Cache hits *)

Lemma emitGlyph_stream (p : RenderingPayload) (row : ShapedRow) (baselineY : Z)
    (key : AtlasFontFaceKey) (t : TextState) :
  _d2dBeganDrawing (backend (emitGlyph p row baselineY key t)) = _d2dBeganDrawing (backend t) /\
  _instancesStateChanges (backend (emitGlyph p row baselineY key t)) =
    _instancesStateChanges (backend t) /\
  exists qs, _instances (backend (emitGlyph p row baselineY key t)) =
               _instances (backend t) ++ qs /\ (length qs <= 1)%nat.
Proof.
  unfold emitGlyph. destruct (isDefault _); cbn [backend _appendQuad set_instances
    _d2dBeganDrawing _instancesStateChanges _instances].
  - split; [reflexivity|]. split; [reflexivity|]. exists []. rewrite app_nil_r. auto.
  - split; [reflexivity|]. split; [reflexivity|]. eexists. split; [reflexivity|]. cbn. lia.
Qed.

Lemma glyphLoop_cached (p : RenderingPayload) (row : ShapedRow) (baselineY : Z)
    (key : AtlasFontFaceKey) (n : nat) : forall t,
  0 <= x t -> x t + Z.of_nat n < 2 ^ 32 ->
  (forall i, x t <= i < x t + Z.of_nat n ->
     is_Some (glyphsOf key (_glyphAtlasMap (backend t)) !! at_ (glyphIndices row) i 0)) ->
  exists t',
    glyphLoop n p row baselineY key t = Done (Finished t') /\
    x t' = x t + Z.of_nat n /\
    device (backend t') = device (backend t) /\
    _glyphAtlasMap (backend t') = _glyphAtlasMap (backend t) /\
    _rectPacker (backend t') = _rectPacker (backend t) /\
    _d2dBeganDrawing (backend t') = _d2dBeganDrawing (backend t) /\
    _instancesStateChanges (backend t') = _instancesStateChanges (backend t) /\
    exists qs, _instances (backend t') = _instances (backend t) ++ qs /\ (length qs <= n)%nat.
Proof.
  induction n as [|n IH]; intros t H0 Hn Hall.
  { exists t. cbn [glyphLoop]. split; [reflexivity|]. split; [lia|].
    repeat (split; [reflexivity|]). exists []. rewrite app_nil_r. auto. }
  cbn [glyphLoop].
  destruct (Hall (x t) ltac:(lia)) as [d Hd]. rewrite Hd.
  destruct (emitGlyph_frame p row baselineY key t) as (X & M & P & D).
  destruct (emitGlyph_stream p row baselineY key t) as (F & C & qs1 & Q & L1).
  rewrite to_u32_succ in X by lia.
  destruct (IH (emitGlyph p row baselineY key t)) as (t' & Hrun & X' & D' & M' & P' & F' & C' & qs2 & Q' & L2).
  - lia.
  - lia.
  - intros i Hi. rewrite M. apply Hall. lia.
  - exists t'. split; [exact Hrun|]. split; [lia|].
    split; [congruence|]. split; [congruence|]. split; [congruence|].
    split; [congruence|]. split; [congruence|].
    exists (qs1 ++ qs2). rewrite Q', Q, <- app_assoc, length_app. split; [reflexivity|lia].
Qed.

(** X15.  A run whose glyphs are all in the glyph cache is drawn in one
    pass through [drawGlyphRetry] and without the device: nothing is
    rasterized, the atlas is not reset, the packer and the cache stay as
    they are, Direct2D drawing is neither opened nor closed, no marker is
    recorded, and the stream gets at most one quad per glyph behind the
    quads it holds. *)
Theorem drawRun_cached_needs_no_device (p : RenderingPayload) (row : ShapedRow)
    (baselineY : Z) (m : FontMapping) (fuel : nat) (t : TextState) :
  0 <= x t <= glyphsTo m -> glyphsTo m < 2 ^ 32 ->
  is_Some (_glyphAtlasMap (backend t) !! runKey row m) ->
  (forall i, x t <= i < glyphsTo m ->
     is_Some (glyphsOf (runKey row m) (_glyphAtlasMap (backend t))
                !! at_ (glyphIndices row) i 0)) ->
  exists t',
    drawRun (S fuel) p row baselineY m t = Done t' /\
    x t' = glyphsTo m /\
    device (backend t') = device (backend t) /\
    _glyphAtlasMap (backend t') = _glyphAtlasMap (backend t) /\
    _rectPacker (backend t') = _rectPacker (backend t) /\
    _d2dBeganDrawing (backend t') = _d2dBeganDrawing (backend t) /\
    _instancesStateChanges (backend t') = _instancesStateChanges (backend t) /\
    exists qs, _instances (backend t') = _instances (backend t) ++ qs /\
               Z.of_nat (length qs) <= glyphsTo m - x t.
Proof.
  intros Hx Hto [gm Hkey] Hall. cbn [drawRun]. fold (runKey row m).
  assert (Ei : insertFontFace (runKey row m) (_glyphAtlasMap (backend t)) =
               _glyphAtlasMap (backend t)).
  { unfold insertFontFace. rewrite Hkey. reflexivity. }
  rewrite Ei.
  set (t0 := with_backend _ t).
  destruct (glyphLoop_cached p row baselineY (runKey row m) (Z.to_nat (glyphsTo m - x t0)) t0)
    as (t' & Hrun & X' & D' & M' & P' & F' & C' & qs & Q' & L).
  - cbn [t0 with_backend x]. lia.
  - cbn [t0 with_backend x]. lia.
  - intros i Hi. cbn [t0 with_backend x backend set_glyphAtlasMap _glyphAtlasMap] in *.
    apply Hall. lia.
  - rewrite Hrun. cbn [bind]. exists t'. split; [reflexivity|].
    cbn [t0 with_backend x backend set_glyphAtlasMap _glyphAtlasMap device _rectPacker
         _d2dBeganDrawing _instancesStateChanges _instances] in *.
    split; [lia|]. repeat (split; [assumption|]). exists qs. split; [exact Q'|lia].
Qed.

(** ** Glyphs without a black box *)

(** X16.  A glyph of a font face whose black box is empty (white space)
    costs nothing but its cache entry: on a cache miss [_drawGlyph] returns
    [true] without asking the packer and without drawing, the entry stays
    the zero entry of shading type [Default], the loop emits no quad for
    it and goes on with the next glyph; the device sees the two
    [SetTransform] calls of a rendition that is not single width and
    nothing else. *)
Theorem glyph_without_box_costs_nothing (p : RenderingPayload) (row : ShapedRow)
    (baselineY : Z) (key : AtlasFontFaceKey) (n : nat) (t : TextState) :
  let glyphIndex := at_ (glyphIndices row) (x t) 0 in
  let box := GetGlyphRunWorldBounds (fontFace key) glyphIndex (lineRendition key) in
  fontFace key <> 0 ->
  f32_ge (box_left box) (box_right box) || f32_ge (box_top box) (box_bottom box) = true ->
  is_Some (_glyphAtlasMap (backend t) !! key) ->
  glyphsOf key (_glyphAtlasMap (backend t)) !! glyphIndex = None ->
  exists t1,
    glyphLoop (S n) p row baselineY key t = glyphLoop n p row baselineY key t1 /\
    x t1 = to_u32 (x t + 1) /\
    glyphsOf key (_glyphAtlasMap (backend t1)) !! glyphIndex = Some emptyGlyphEntry /\
    _rectPacker (backend t1) = _rectPacker (backend t) /\
    _instances (backend t1) = _instances (backend t) /\
    _d2dBeganDrawing (backend t1) = _d2dBeganDrawing (backend t) /\
    device (backend t1) =
      device (backend t) ++
      (if bool_decide (lineRendition key = SingleWidth) then []
       else [SetTransform 2 (if isDoubleHeight (lineRendition key) then 2 else 1) 0 0;
             SetTransform 1 1 0 0]).
Proof.
  intros glyphIndex box Hface Hbox Hkey Hmiss.
  cbn [glyphLoop]. fold glyphIndex. rewrite Hmiss.
  unfold _drawGlyph.
  destruct (Z.eqb_spec (fontFace key) 0) as [E|_]; [contradiction|].
  fold box. rewrite Hbox. cbn [bind fst snd].
  set (b1 := restoreTransform _ _).
  assert (Hm : _glyphAtlasMap b1 =
               setGlyphEntry key glyphIndex emptyGlyphEntry (_glyphAtlasMap (backend t))).
  { unfold b1. destruct (bool_decide (lineRendition key = SingleWidth)); reflexivity. }
  assert (He : glyphEntryOf key glyphIndex (_glyphAtlasMap b1) = emptyGlyphEntry).
  { rewrite Hm. apply glyphEntryOf_setGlyphEntry_eq. exact Hkey. }
  eexists. split; [reflexivity|].
  unfold emitGlyph. cbn [with_backend x backend]. fold glyphIndex. rewrite He.
  cbn [emptyGlyphEntry g_shadingType].
  assert (Ed : isDefault (plain Default) = true)
    by (unfold isDefault; apply bool_decide_eq_true_2; reflexivity).
  rewrite Ed. cbn [x backend with_backend].
  split; [reflexivity|]. split.
  { rewrite Hm, glyphsOf_setGlyphEntry_eq by exact Hkey. apply lookup_insert_eq. }
  unfold b1. destruct (bool_decide (lineRendition key = SingleWidth));
    cbn [negb restoreTransform call set_device set_glyphAtlasMap _rectPacker _instances
         _d2dBeganDrawing device]; rewrite <- ?app_assoc, ?app_nil_r; repeat split.
Qed.

(** ** Cache entries and the atlas texture *)

Lemma splitHalves_horizontal (f : FontSettings) (d : AtlasGlyphEntryData) :
  g_texcoord (fst (splitHalves f d)) = g_texcoord d /\
  v2.x (g_size (fst (splitHalves f d))) = v2.x (g_size d) /\
  v2.x (g_texcoord (snd (splitHalves f d))) = v2.x (g_texcoord d) /\
  v2.x (g_size (snd (splitHalves f d))) = v2.x (g_size d).
Proof.
  unfold splitHalves.
  cbn [g_size g_offset g_texcoord set_g_offset_y set_g_size_y set_g_texcoord_y v2.y v2.x].
  repeat match goal with |- context [if ?c then _ else _] => destruct c end;
    cbn [fst snd g_size g_offset g_texcoord set_g_shadingType set_g_offset_y set_g_size_y
         set_g_texcoord_y v2.y v2.x]; auto.
Qed.

Lemma splitDoubleHeightGlyph_entries (p : RenderingPayload) (key : AtlasFontFaceKey)
    (glyphIndex : Z) (b : BackendD3D) :
  isDoubleHeight (lineRendition key) = true ->
  is_Some (_glyphAtlasMap b !! key) ->
  let halves := splitHalves (font (s p)) (glyphEntryOf key glyphIndex (_glyphAtlasMap b)) in
  let m' := _glyphAtlasMap (_splitDoubleHeightGlyph p key glyphIndex b) in
  glyphEntryOf (topKey (fontFace key)) glyphIndex m' = fst halves /\
  glyphEntryOf (bottomKey (fontFace key)) glyphIndex m' = snd halves.
Proof.
  intros Hdh Hkey halves m'. unfold m', halves, _splitDoubleHeightGlyph, glyphEntryOf.
  destruct (splitHalves _ _) as [top bottom]. cbn [fst snd set_glyphAtlasMap _glyphAtlasMap].
  destruct key as [face lr]. destruct lr; try discriminate Hdh; cbn [fontFace lineRendition] in *.
  - rewrite bool_decide_eq_true_2 by reflexivity.
    change {| fontFace := face; lineRendition := DoubleHeightTop |} with (topKey face) in *.
    split.
    + rewrite glyphsOf_setGlyphEntry_eq, lookup_insert_eq; [reflexivity|].
      apply setGlyphEntry_keeps, insertFontFace_keeps. exact Hkey.
    + rewrite glyphsOf_setGlyphEntry_ne by discriminate.
      rewrite glyphsOf_setGlyphEntry_eq, lookup_insert_eq; [reflexivity|].
      apply lookup_insertFontFace_is_Some.
  - rewrite bool_decide_eq_false_2 by discriminate.
    change {| fontFace := face; lineRendition := DoubleHeightBottom |} with (bottomKey face) in *.
    split.
    + rewrite glyphsOf_setGlyphEntry_ne by discriminate.
      rewrite glyphsOf_setGlyphEntry_eq, lookup_insert_eq; [reflexivity|].
      apply lookup_insertFontFace_is_Some.
    + rewrite glyphsOf_setGlyphEntry_eq, lookup_insert_eq; [reflexivity|].
      apply setGlyphEntry_keeps, insertFontFace_keeps. exact Hkey.
Qed.

(** X17.  The rectangle of a cache entry lies inside the atlas texture.
    When [_drawGlyph] rasterizes an outline glyph whose rounded black box
    is [w] by [h], into an atlas of at most 65535 by 65535 pixels, and the
    packer answers with a place inside its extent, then the packer records
    the rectangle and the entry of the glyph has its [texcoord] and [size]:
    the same columns, and the same rows or, for the two entries of a double
    height glyph, a part of its rows.  So every entry the glyph leaves in
    the cache reads inside the texture. *)
Theorem drawGlyph_entry_inside_atlas (p : RenderingPayload) (key : AtlasFontFaceKey)
    (glyphIndex : Z) (b b' : BackendD3D) :
  let f := font (s p) in
  let box := GetGlyphRunWorldBounds (fontFace key) glyphIndex (lineRendition key) in
  let w := lrintf (box_right box) - lrintf (box_left box) in
  let h := lrintf (box_bottom box) - lrintf (box_top box) in
  fontFace key <> 0 ->
  is_Some (_glyphAtlasMap b !! key) ->
  f32_ge (box_left box) (box_right box) || f32_ge (box_top box) (box_bottom box) = false ->
  0 <= w -> 0 <= h ->
  width (_rectPacker b) < 2 ^ 16 -> height (_rectPacker b) < 2 ^ 16 ->
  is_u16 (baseline f) ->
  (forall x y, stbrp_pack_rects (_rectPacker b) w h = Some (x, y) ->
     0 <= x /\ 0 <= y /\
     x + w <= width (_rectPacker b) /\ y + h <= height (_rectPacker b)) ->
  _drawGlyph p key glyphIndex b = Done (true, b') ->
  exists x y,
    stbrp_pack_rects (_rectPacker b) w h = Some (x, y) /\
    _rectPacker b' =
      {| width := width (_rectPacker b); height := height (_rectPacker b);
         packed := packed (_rectPacker b) ++ [{| r_x := x; r_y := y; r_w := w; r_h := h |}] |} /\
    forall k,
      k = key \/
      (isDoubleHeight (lineRendition key) = true /\
       (k = topKey (fontFace key) \/ k = bottomKey (fontFace key))) ->
      let e := glyphEntryOf k glyphIndex (_glyphAtlasMap b') in
      v2.x (g_texcoord e) = x /\ v2.x (g_size e) = w /\
      y <= v2.y (g_texcoord e) /\ 0 <= v2.y (g_size e) /\
      v2.y (g_texcoord e) + v2.y (g_size e) <= y + h /\
      v2.x (g_texcoord e) + v2.x (g_size e) <= width (_rectPacker b') /\
      v2.y (g_texcoord e) + v2.y (g_size e) <= height (_rectPacker b') /\
      (isDoubleHeight (lineRendition key) = false ->
       v2.y (g_texcoord e) = y /\ v2.y (g_size e) = h).
Proof.
  intros f box w h Hface Hkey Hbox Hw Hh HW HH Hbase Hpack Hrun.
  unfold _drawGlyph in Hrun.
  destruct (Z.eqb_spec (fontFace key) 0) as [E|_]; [contradiction|].
  fold box in Hrun. rewrite Hbox in Hrun. fold f w h in Hrun.
  set (tr := negb (bool_decide (lineRendition key = SingleWidth))) in *.
  set (b0 := if tr then call _ b else b) in *.
  assert (H0 : _glyphAtlasMap b0 = _glyphAtlasMap b /\ _rectPacker b0 = _rectPacker b)
    by (unfold b0; destruct tr; split; reflexivity).
  destruct H0 as (M0 & P0). rewrite P0 in Hrun.
  destruct (stbrp_pack_rects (_rectPacker b) w h) as [[x0 y0]|] eqn:Ep.
  2:{ destruct (_drawGlyphPrepareRetry p b0); cbn [bind] in Hrun; discriminate. }
  destruct (Hpack x0 y0 eq_refl) as (Hx & Hy & Hxw & Hyh).
  change (2 ^ 16) with 65536 in *.
  assert (Ex : to_u16 x0 = x0) by (apply to_u16_small; unfold is_u16; change (2 ^ 16) with 65536; lia).
  assert (Ey : to_u16 y0 = y0) by (apply to_u16_small; unfold is_u16; change (2 ^ 16) with 65536; lia).
  assert (Ew : to_u16 w = w) by (apply to_u16_small; unfold is_u16; change (2 ^ 16) with 65536; lia).
  assert (Eh : to_u16 h = h) by (apply to_u16_small; unfold is_u16; change (2 ^ 16) with 65536; lia).
  injection Hrun as Hb'.
  match type of Hb' with
  | restoreTransform tr (if _ then _splitDoubleHeightGlyph _ _ _ ?bb else _) = _ =>
      set (b1 := bb) in *
  end.
  set (d := {| g_shadingType := glyphShadingType f (_textShadingType
                 (_d2dBeginDrawing
                    (if tr then call (SetTransform 2 (if isDoubleHeight (lineRendition key) then 2 else 1)
                                        ((1 - 2) * (x0 - lrintf (box_left box)))
                                        ((1 - (if isDoubleHeight (lineRendition key) then 2 else 1)) *
                                         (y0 - lrintf (box_top box))))
                                  (set_rectPacker
                                     {| width := width (_rectPacker b); height := height (_rectPacker b);
                                        packed := packed (_rectPacker b) ++
                                                  [{| r_x := x0; r_y := y0; r_w := w; r_h := h |}] |} b0)
                     else set_rectPacker
                            {| width := width (_rectPacker b); height := height (_rectPacker b);
                               packed := packed (_rectPacker b) ++
                                         [{| r_x := x0; r_y := y0; r_w := w; r_h := h |}] |} b0)))
                 (isColorGlyph (fontFace key) glyphIndex) w
                 (lrintf (box_left box)) (lrintf (box_right box));
               g_offset := v2.mk (to_i16 (lrintf (box_left box))) (to_i16 (lrintf (box_top box)));
               g_size := v2.mk w h;
               g_texcoord := v2.mk x0 y0 |}).
  assert (Hkey1 : is_Some (_glyphAtlasMap b1 !! key)).
  { unfold b1. cbn [set_glyphAtlasMap _glyphAtlasMap call set_device]. apply setGlyphEntry_keeps.
    match goal with |- is_Some (_glyphAtlasMap (_d2dBeginDrawing ?bb) !! key) =>
      destruct (d2dBeginDrawing_frame bb) as (Mb & _)
    end.
    rewrite Mb. destruct tr; cbn [call set_device set_rectPacker _glyphAtlasMap];
      rewrite M0; exact Hkey. }
  assert (Hd : glyphEntryOf key glyphIndex (_glyphAtlasMap b1) = d).
  { unfold b1. cbn [set_glyphAtlasMap _glyphAtlasMap].
    rewrite glyphEntryOf_setGlyphEntry_eq.
    - unfold d. rewrite Ex, Ey, Ew, Eh. reflexivity.
    - cbn [call set_device _glyphAtlasMap].
      match goal with |- is_Some (_glyphAtlasMap (_d2dBeginDrawing ?bb) !! key) =>
        destruct (d2dBeginDrawing_frame bb) as (Mb & _)
      end.
      rewrite Mb. destruct tr; cbn [call set_device set_rectPacker _glyphAtlasMap];
        rewrite M0; exact Hkey. }
  assert (Dsz : g_size d = v2.mk w h) by reflexivity.
  assert (Dtx : g_texcoord d = v2.mk x0 y0) by reflexivity.
  clearbody d.
  assert (Hp1 : _rectPacker b1 =
                {| width := width (_rectPacker b); height := height (_rectPacker b);
                   packed := packed (_rectPacker b) ++
                             [{| r_x := x0; r_y := y0; r_w := w; r_h := h |}] |}).
  { unfold b1. cbn [set_glyphAtlasMap _rectPacker call set_device].
    match goal with |- _rectPacker (_d2dBeginDrawing ?bb) = _ =>
      destruct (d2dBeginDrawing_frame bb) as (_ & Pb & _)
    end.
    rewrite Pb. destruct tr; reflexivity. }
  exists x0, y0. split; [reflexivity|].
  destruct (restoreTransform_frame tr
              (if isDoubleHeight (lineRendition key)
               then _splitDoubleHeightGlyph p key glyphIndex b1 else b1)) as (Mr & Pr & _).
  rewrite <- Hb', Mr, Pr.
  destruct (isDoubleHeight (lineRendition key)) eqn:Edh.
  - destruct (splitDoubleHeightGlyph_frame p key glyphIndex b1) as (_ & Ps & _).
    rewrite Ps. split; [exact Hp1|].
    destruct (splitDoubleHeightGlyph_entries p key glyphIndex b1 Edh Hkey1) as (Et & Eb).
    rewrite Hd in Et, Eb. fold f in Et, Eb.
    assert (HHu : is_u16 (v2.y (g_size d)))
      by (rewrite Dsz; unfold is_u16; cbn; change (2 ^ 16) with 65536; lia).
    destruct (splitHalves_spec f d HHu Hbase) as (S1 & S2 & S3 & _ & S5 & _).
    { rewrite Dtx. cbn. lia. }
    { rewrite Dtx, Dsz. cbn. change (2 ^ 16) with 65536. lia. }
    destruct (splitHalves_horizontal f d) as (T1 & T2 & T3 & T4).
    assert (HT : 0 <= v2.y (g_size (fst (splitHalves f d))) <= v2.y (g_size d)).
    { rewrite S1. apply clamp_bounds. rewrite Dsz. cbn. lia. }
    rewrite Dsz, Dtx in *. cbn [v2.x v2.y] in S1, S2, S3, S5, T2, T3, T4, HT.
    assert (Htop : forall k, k = topKey (fontFace key) ->
              let e := glyphEntryOf k glyphIndex
                         (_glyphAtlasMap (_splitDoubleHeightGlyph p key glyphIndex b1)) in
              v2.x (g_texcoord e) = x0 /\ v2.x (g_size e) = w /\
              y0 <= v2.y (g_texcoord e) /\ 0 <= v2.y (g_size e) /\
              v2.y (g_texcoord e) + v2.y (g_size e) <= y0 + h).
    { intros k -> e. unfold e. rewrite Et, T1, T2. cbn [v2.x v2.y]. lia. }
    assert (Hbot : forall k, k = bottomKey (fontFace key) ->
              let e := glyphEntryOf k glyphIndex
                         (_glyphAtlasMap (_splitDoubleHeightGlyph p key glyphIndex b1)) in
              v2.x (g_texcoord e) = x0 /\ v2.x (g_size e) = w /\
              y0 <= v2.y (g_texcoord e) /\ 0 <= v2.y (g_size e) /\
              v2.y (g_texcoord e) + v2.y (g_size e) <= y0 + h).
    { intros k -> e. unfold e. rewrite Eb, T3, T4, S5. lia. }
    assert (Hk : key = topKey (fontFace key) \/ key = bottomKey (fontFace key)).
    { destruct key as [face lr]. destruct lr; try discriminate Edh; [left|right]; reflexivity. }
    intros k Hcase e.
    assert (Hin : v2.x (g_texcoord e) = x0 /\ v2.x (g_size e) = w /\
                  y0 <= v2.y (g_texcoord e) /\ 0 <= v2.y (g_size e) /\
                  v2.y (g_texcoord e) + v2.y (g_size e) <= y0 + h).
    { destruct Hcase as [ -> | [_ [ -> | -> ]]].
      - destruct Hk as [Hk|Hk]; [apply (Htop key Hk)|apply (Hbot key Hk)].
      - apply (Htop _ eq_refl).
      - apply (Hbot _ eq_refl). }
    rewrite Hp1. cbn [width height].
    destruct Hin as (I1 & I2 & I3 & I4 & I5).
    repeat split; try lia; discriminate.
  - split; [exact Hp1|].
    intros k [ -> | [Hcontra _]] e; [|discriminate].
    unfold e. rewrite Hd, Hp1, Dsz, Dtx. cbn [v2.x v2.y width height].
    repeat split; lia.
Qed.

(** ** A glyph that fits no atlas *)

(** X18.  A glyph that is larger than the atlas hangs the frame.  When the
    first glyph of the first run of the first row asks for a rectangle the
    packer refuses even in an atlas that holds nothing else, whatever size
    [_resetGlyphAtlas] picks, the text pass of a frame that starts with an
    atlas reset never returns: every pass through [drawGlyphRetry] resets
    the atlas and fails at the same glyph again, and neither the deadlock
    guard nor any other error ends the loop.  No amount of fuel is
    enough. *)
Theorem drawText_hangs_on_glyph_too_large (p : RenderingPayload) (b : BackendD3D)
    (row : ShapedRow) (rs : list ShapedRow) (m : FontMapping) (ms : list FontMapping)
    (rw rh : Z) :
  rows p = row :: rs ->
  mappings row = m :: ms ->
  maxAreaByFont (s p) <> 1 ->
  glyphsFrom m < glyphsTo m ->
  _fontChangedResetGlyphAtlas b = true ->
  requestedRect p (runKey row m) (at_ (glyphIndices row) (glyphsFrom m) 0) = Some (rw, rh) ->
  (forall w h u v, atlasSize (s p) w h = Some (u, v) ->
                   stbrp_pack_rects (stbrp_init_target u v) rw rh = None) ->
  forall fuel, _drawText fuel p b = OutOfFuel.
Proof.
  intros Hrows Hmaps Hsize Hrun Hfont Hreq Hunfit fuel.
  unfold _drawText. rewrite Hfont, Hrows.
  pose proof (resetGlyphAtlas_spec p b) as Hreset.
  destruct (_resetGlyphAtlas p b) as [b1|e|]; [| |contradiction].
  2:{ destruct Hreset as (_ & Hnone). exfalso. exact (atlasSize_defined _ _ _ Hsize Hnone). }
  destruct Hreset as (Hfresh & _).
  cbn [bind drawRows]. rewrite Hmaps. cbn [drawMappings x baselineX row_dirtyTop
    row_dirtyBottom accumulatorLigature backend y accumulator renderer].
  rewrite (drawRun_never_ends p row _ m Hsize rw rh fuel); [reflexivity| | |exact Hreq|exact Hunfit].
  - exact Hfresh.
  - cbn [x]. exact Hrun.
Qed.

(** ** Where a glyph is drawn *)

(** X27.  [_drawGlyph] draws an outline glyph onto the rectangle the packer
    gave it.  The baseline origin of the [DrawGlyphRun] call is the place
    of the rectangle minus the left and top edge of the rounded black box,
    so that the black box lands on the rectangle; for a rendition that is
    not single width the second [SetTransform] scales about this origin
    (the transform maps the origin to itself), and the identity transform
    is restored afterwards.  [BeginDraw] is issued first unless Direct2D
    drawing is open, and these are all the calls of a successful
    rasterization. *)
Theorem drawGlyph_draws_onto_packed_rect (p : RenderingPayload) (key : AtlasFontFaceKey)
    (glyphIndex : Z) (b b' : BackendD3D) :
  let box := GetGlyphRunWorldBounds (fontFace key) glyphIndex (lineRendition key) in
  let bl := lrintf (box_left box) in
  let bt := lrintf (box_top box) in
  let w := lrintf (box_right box) - bl in
  let h := lrintf (box_bottom box) - bt in
  let scaled := negb (bool_decide (lineRendition key = SingleWidth)) in
  let m22 := if isDoubleHeight (lineRendition key) then 2 else 1 in
  fontFace key <> 0 ->
  f32_ge (box_left box) (box_right box) || f32_ge (box_top box) (box_bottom box) = false ->
  _drawGlyph p key glyphIndex b = Done (true, b') ->
  exists x y baselineOriginX baselineOriginY dx dy,
    stbrp_pack_rects (_rectPacker b) w h = Some (x, y) /\
    device b' =
      device b ++
      (if scaled then [SetTransform 2 m22 0 0; SetTransform 2 m22 dx dy] else []) ++
      (if _d2dBeganDrawing b then [] else [BeginDraw]) ++
      [DrawGlyphRun (fontFace key) glyphIndex baselineOriginX baselineOriginY] ++
      (if scaled then [SetTransform 1 1 0 0] else []) /\
    bl + baselineOriginX = x /\ bt + baselineOriginY = y /\
    2 * baselineOriginX + dx = baselineOriginX /\
    m22 * baselineOriginY + dy = baselineOriginY.
Proof.
  intros box bl bt w h scaled m22 Hface Hbox Hrun.
  unfold _drawGlyph in Hrun.
  destruct (Z.eqb_spec (fontFace key) 0) as [E|_]; [contradiction|].
  fold box in Hrun. rewrite Hbox in Hrun. fold bl bt in Hrun. fold w h in Hrun.
  fold scaled m22 in Hrun.
  set (b0 := if scaled then call _ b else b) in *.
  assert (P0 : _rectPacker b0 = _rectPacker b) by (unfold b0; destruct scaled; reflexivity).
  rewrite P0 in Hrun.
  destruct (stbrp_pack_rects (_rectPacker b) w h) as [[x0 y0]|] eqn:Ep.
  2:{ destruct (_drawGlyphPrepareRetry p b0); cbn [bind] in Hrun; discriminate. }
  injection Hrun as Hb'.
  exists x0, y0, (x0 - bl), (y0 - bt), ((1 - 2) * (x0 - bl)), ((1 - m22) * (y0 - bt)).
  split; [reflexivity|]. split; [|lia].
  rewrite <- Hb'.
  assert (Hsplit : forall b1, device (if isDoubleHeight (lineRendition key)
                                      then _splitDoubleHeightGlyph p key glyphIndex b1 else b1) =
                              device b1).
  { intros b1. destruct (isDoubleHeight (lineRendition key)); [|reflexivity].
    apply (splitDoubleHeightGlyph_frame p key glyphIndex b1). }
  unfold restoreTransform.
  assert (Hbegin : forall b1, device (_d2dBeginDrawing b1) =
                              device b1 ++ (if _d2dBeganDrawing b1 then [] else [BeginDraw])).
  { intros b1. unfold _d2dBeginDrawing. destruct (_d2dBeganDrawing b1);
      [rewrite app_nil_r|]; reflexivity. }
  unfold b0. destruct scaled;
    cbn [call set_device device]; rewrite Hsplit;
    cbn [set_glyphAtlasMap call set_device device]; rewrite Hbegin;
    cbn [call set_device set_rectPacker device _d2dBeganDrawing];
    rewrite <- ?app_assoc; cbn [app]; rewrite ?app_nil_r; reflexivity.
Qed.

(** ** The selection pass, once more *)

Lemma modify_last_app {A : Type} (f : A -> A) (l1 l2 : list A) :
  l2 <> [] -> modify_last f (l1 ++ l2) = l1 ++ modify_last f l2.
Proof.
  intros Hne. destruct (exists_last Hne) as (l2' & a & ->).
  rewrite app_assoc, !modify_last_snoc, app_assoc. reflexivity.
Qed.

Lemma to_u16_idem_succ (z : Z) : to_u16 (to_u16 z + 1) = to_u16 (z + 1).
Proof. unfold to_u16. apply Zplus_mod_idemp_l. Qed.

Lemma selectionRow_y (p : RenderingPayload) (st : SelectionState) (row : ShapedRow) :
  sel_y (selectionRow p st row) = to_u16 (sel_y st + 1).
Proof.
  unfold selectionRow. cbn [sel_y].
  destruct (selectionFrom row <? selectionTo row); [|reflexivity].
  destruct (_ && _); reflexivity.
Qed.

Lemma selectionLoop_y (p : RenderingPayload) (rs : list ShapedRow) : forall st,
  is_u16 (sel_y st) ->
  sel_y (selectionLoop p rs st) = to_u16 (sel_y st + Z.of_nat (length rs)).
Proof.
  unfold selectionLoop. induction rs as [|row rs IH]; intros st Hy; cbn [fold_left length].
  - rewrite Z.add_0_r. symmetry. apply to_u16_small. exact Hy.
  - rewrite IH.
    + rewrite selectionRow_y. unfold to_u16. rewrite Zplus_mod_idemp_l. f_equal. lia.
    + rewrite selectionRow_y. unfold is_u16, to_u16. apply Z.mod_pos_bound. lia.
Qed.

(** The quads of one selection: a stream that ends with the quads [qs] of
    the pass stays of this kind, and the last pair is (0, 0) as long as
    the pass has emitted nothing. *)
Lemma selectionLoop_appends (p : RenderingPayload) (base : list QuadInstance)
    (rs : list ShapedRow) : forall st qs,
  _instances (sel_backend st) = base ++ qs ->
  Forall (fun q => shadingType q = plain SolidFill /\
                   color q = selectionColor (misc (s p)) /\ texcoord q = v2_zero) qs ->
  (qs = [] -> lastFrom st = 0 /\ lastTo st = 0) ->
  exists qs',
    _instances (sel_backend (selectionLoop p rs st)) = base ++ qs' /\
    Forall (fun q => shadingType q = plain SolidFill /\
                     color q = selectionColor (misc (s p)) /\ texcoord q = v2_zero) qs' /\
    (length qs <= length qs' <= length qs + length (selectedRows rs))%nat.
Proof.
  unfold selectionLoop.
  induction rs as [|row rs IH]; intros st qs Hinst Hall Hnone; cbn [fold_left].
  { exists qs. cbn. split; [exact Hinst|]. split; [exact Hall|lia]. }
  unfold selectedRows. cbn [List.filter]. fold (selectedRows rs).
  unfold selectionRow at 2.
  destruct (Z.ltb_spec (selectionFrom row) (selectionTo row)) as [Hsel|Hno].
  - destruct (Z.eqb_spec (selectionFrom row) (lastFrom st)) as [Ef|Ef];
      [destruct (Z.eqb_spec (selectionTo row) (lastTo st)) as [Et|Et]|]; cbn [andb].
    + assert (Hqs : qs <> []) by (intros E; destruct (Hnone E); lia).
      destruct (IH {| sel_y := to_u16 (sel_y st + 1); lastFrom := lastFrom st; lastTo := lastTo st;
                      sel_backend := _modifyLastQuad (growQuad (v2.y (cellSize (font (s p)))))
                                       (sel_backend st) |}
                   (modify_last (growQuad (v2.y (cellSize (font (s p))))) qs))
        as (qs' & E' & A' & L').
      * cbn [sel_backend _modifyLastQuad set_instances _instances]. rewrite Hinst.
        apply modify_last_app. exact Hqs.
      * destruct (exists_last Hqs) as (qs0 & q & ->). rewrite modify_last_snoc.
        apply Forall_app in Hall. destruct Hall as [H1 H2].
        apply Forall_app. split; [exact H1|].
        inversion H2 as [|? ? Hq _]; subst. constructor; [|constructor]. exact Hq.
      * intros E. exfalso. destruct (exists_last Hqs) as (qs0 & q & ->).
        rewrite modify_last_snoc in E. destruct qs0; discriminate.
      * exists qs'. split; [exact E'|]. split; [exact A'|].
        rewrite length_modify_last in L'. cbn [length]. lia.
    + destruct (IH {| sel_y := to_u16 (sel_y st + 1); lastFrom := selectionFrom row;
                      lastTo := selectionTo row;
                      sel_backend := _appendQuad (selectionQuad p row (sel_y st)) (sel_backend st) |}
                   (qs ++ [selectionQuad p row (sel_y st)]))
        as (qs' & E' & A' & L').
      * cbn [sel_backend _appendQuad set_instances _instances]. rewrite Hinst, app_assoc. reflexivity.
      * apply Forall_app. split; [exact Hall|]. constructor; [|constructor]. cbn. auto.
      * intros E. destruct qs; discriminate.
      * exists qs'. split; [exact E'|]. split; [exact A'|].
        rewrite length_app in L'. cbn [length] in *. lia.
    + destruct (IH {| sel_y := to_u16 (sel_y st + 1); lastFrom := selectionFrom row;
                      lastTo := selectionTo row;
                      sel_backend := _appendQuad (selectionQuad p row (sel_y st)) (sel_backend st) |}
                   (qs ++ [selectionQuad p row (sel_y st)]))
        as (qs' & E' & A' & L').
      * cbn [sel_backend _appendQuad set_instances _instances]. rewrite Hinst, app_assoc. reflexivity.
      * apply Forall_app. split; [exact Hall|]. constructor; [|constructor]. cbn. auto.
      * intros E. destruct qs; discriminate.
      * exists qs'. split; [exact E'|]. split; [exact A'|].
        rewrite length_app in L'. cbn [length] in *. lia.
  - destruct (IH {| sel_y := to_u16 (sel_y st + 1); lastFrom := lastFrom st; lastTo := lastTo st;
                    sel_backend := sel_backend st |} qs) as (qs' & E' & A' & L').
    + exact Hinst.
    + exact Hall.
    + exact Hnone.
    + exists qs'. split; [exact E'|]. split; [exact A'|]. lia.
Qed.

(** X19.  The selection pass leaves the quads of the earlier passes alone.
    It only adds quads behind them, at most one per row with a selection,
    each a [SolidFill] quad in the selection color; the quad it makes
    higher for a row that repeats the last selection is always one of its
    own, never a quad of the text, the gridlines or the cursor, and
    [_getLastQuad] is never called on an empty stream. *)
Theorem drawSelection_keeps_earlier_quads (p : RenderingPayload) (b : BackendD3D) :
  exists qs,
    _instances (_drawSelection p b) = _instances b ++ qs /\
    Forall (fun q => shadingType q = plain SolidFill /\
                     color q = selectionColor (misc (s p)) /\ texcoord q = v2_zero) qs /\
    (length qs <= length (selectedRows (rows p)))%nat /\
    _instancesStateChanges (_drawSelection p b) = _instancesStateChanges b /\
    device (_drawSelection p b) = device b.
Proof.
  destruct (selectionLoop_appends p (_instances b) (rows p)
              {| sel_y := 0; lastFrom := 0; lastTo := 0; sel_backend := b |} [])
    as (qs & E & A & L).
  - cbn [sel_backend]. rewrite app_nil_r. reflexivity.
  - constructor.
  - auto.
  - destruct (quadsOnly_drawSelection p b) as (D & _ & C & _).
    exists qs. cbn [length] in L. unfold _drawSelection.
    split; [exact E|]. split; [exact A|]. split; [lia|]. split; assumption.
Qed.

Lemma growQuad_withHeight (h H : Z) (q : QuadInstance) :
  growQuad h (withHeight H q) = withHeight (to_u16 (H + h)) q.
Proof. reflexivity. Qed.

Lemma selectionLoop_same_selection (p : RenderingPayload) (base : list QuadInstance)
    (q0 : QuadInstance) (F T : Z) (rest : list ShapedRow) : forall st k,
  F < T ->
  lastFrom st = F -> lastTo st = T ->
  _instances (sel_backend st) =
    base ++ [withHeight (to_u16 (k * v2.y (cellSize (font (s p))))) q0] ->
  Forall (fun r => selectionTo r <= selectionFrom r \/
                   (selectionFrom r = F /\ selectionTo r = T)) rest ->
  _instances (sel_backend (selectionLoop p rest st)) =
    base ++ [withHeight (to_u16 ((k + Z.of_nat (length (selectedRows rest))) *
                                 v2.y (cellSize (font (s p))))) q0].
Proof.
  unfold selectionLoop.
  induction rest as [|row rest IH]; intros st k HFT HF HT Hinst Hall; cbn [fold_left].
  { cbn. rewrite Z.add_0_r. exact Hinst. }
  inversion Hall as [|? ? Hrow Hrest]; subst.
  unfold selectedRows. cbn [List.filter]. fold (selectedRows rest).
  unfold selectionRow at 2.
  destruct (Z.ltb_spec (selectionFrom row) (selectionTo row)) as [Hsel|Hno].
  - destruct Hrow as [Hrow|[Ef Et]]; [lia|].
    rewrite Ef, Et, !Z.eqb_refl. cbn [andb].
    rewrite (IH _ (k + 1)); try assumption; try reflexivity.
    + cbn [length].
      replace (Z.of_nat (S (length (selectedRows rest))))
        with (1 + Z.of_nat (length (selectedRows rest))) by lia.
      rewrite Z.add_assoc. reflexivity.
    + cbn [sel_backend _modifyLastQuad set_instances _instances]. rewrite Hinst.
      rewrite modify_last_snoc, growQuad_withHeight. do 3 f_equal.
      unfold to_u16. rewrite Zplus_mod_idemp_l. f_equal. lia.
  - rewrite (IH _ k); try assumption; reflexivity.
Qed.

(** X20.  What the selection pass makes of one selection.  When every row
    with a selection selects the same cells, the pass emits one quad,
    whatever rows without a selection lie before, after or between them: a
    quad at the first of these rows, as wide as the selection and as high
    as the cell height times the number of rows with a selection (modulo
    2^16), so that it covers the rows that follow the first one, selected
    or not. *)
Theorem drawSelection_one_selection_one_quad (p : RenderingPayload) (b : BackendD3D)
    (pre rest : list ShapedRow) (r0 : ShapedRow) :
  rows p = pre ++ r0 :: rest ->
  Forall (fun r => selectionTo r <= selectionFrom r) pre ->
  selectionFrom r0 < selectionTo r0 ->
  Forall (fun r => selectionTo r <= selectionFrom r \/
                   (selectionFrom r = selectionFrom r0 /\ selectionTo r = selectionTo r0)) rest ->
  is_u16 (v2.y (cellSize (font (s p)))) ->
  Z.of_nat (length pre) < 2 ^ 16 ->
  _instances (_drawSelection p b) =
    _instances b ++
    [withHeight (to_u16 (Z.of_nat (length (selectedRows (r0 :: rest))) *
                         v2.y (cellSize (font (s p)))))
       (selectionQuad p r0 (Z.of_nat (length pre)))].
Proof.
  intros Hrows Hpre Hsel Hrest Hh Hlen.
  unfold _drawSelection. rewrite Hrows. unfold selectionLoop. rewrite fold_left_app.
  set (st0 := {| sel_y := 0; lastFrom := 0; lastTo := 0; sel_backend := b |}).
  destruct (selectionLoop_unselected p pre st0 Hpre) as (L1 & L2 & L3).
  pose proof (selectionLoop_y p pre st0 ltac:(unfold is_u16; cbn; lia)) as Ly.
  unfold selectionLoop in L1, L2, L3, Ly.
  set (st1 := fold_left (selectionRow p) pre st0) in *.
  cbn [st0 sel_y lastFrom lastTo sel_backend] in L1, L2, L3, Ly.
  rewrite Z.add_0_l, to_u16_small in Ly by (unfold is_u16; lia).
  cbn [fold_left].
  assert (Hst : selectionRow p st1 r0 =
                {| sel_y := to_u16 (sel_y st1 + 1); lastFrom := selectionFrom r0;
                   lastTo := selectionTo r0;
                   sel_backend := _appendQuad (selectionQuad p r0 (sel_y st1)) (sel_backend st1) |}).
  { unfold selectionRow. destruct (Z.ltb_spec (selectionFrom r0) (selectionTo r0)); [|lia].
    rewrite L1, L2.
    destruct (Z.eqb_spec (selectionFrom r0) 0); destruct (Z.eqb_spec (selectionTo r0) 0);
      cbn [andb sel_y lastFrom lastTo sel_backend]; try lia; reflexivity. }
  rewrite Hst.
  pose proof (selectionLoop_same_selection p (_instances b)
                (selectionQuad p r0 (Z.of_nat (length pre)))
                (selectionFrom r0) (selectionTo r0) rest
                {| sel_y := to_u16 (sel_y st1 + 1); lastFrom := selectionFrom r0;
                   lastTo := selectionTo r0;
                   sel_backend := _appendQuad (selectionQuad p r0 (sel_y st1)) (sel_backend st1) |}
                1 Hsel eq_refl eq_refl) as Hloop.
  unfold selectionLoop in Hloop. rewrite Hloop.
  - unfold selectedRows. cbn [List.filter].
    destruct (Z.ltb_spec (selectionFrom r0) (selectionTo r0)); [|lia].
    cbn [length].
    replace (Z.of_nat (S (length (List.filter (fun r => selectionFrom r <? selectionTo r) rest))))
      with (1 + Z.of_nat (length (List.filter (fun r => selectionFrom r <? selectionTo r) rest)))
      by lia.
    reflexivity.
  - cbn [sel_backend _appendQuad set_instances _instances]. rewrite L3, Ly. do 2 f_equal.
    unfold withHeight, selectionQuad. cbn [shadingType position size texcoord color v2.x].
    rewrite Z.mul_1_l, (to_u16_small (v2.y (cellSize (font (s p)))) Hh). reflexivity.
  - exact Hrest.
Qed.

(** ** The cursor under the text *)

Lemma scanRun_to (p : RenderingPayload) (offset bg e : Z) (fuel : nat) : forall x1,
  x1 <= e <= rect.right (cursorRect p) ->
  (forall i, x1 <= i < e -> opaqueBackground p offset i = bg) ->
  e = rect.right (cursorRect p) \/ opaqueBackground p offset e <> bg ->
  (Z.to_nat (e - x1) <= fuel)%nat ->
  scanRun fuel p offset bg x1 = e.
Proof.
  induction fuel as [|fuel IH]; intros x1 Hx Hrun Hend Hfuel; cbn [scanRun]; [lia|].
  destruct (Z.eq_dec x1 e) as [->|Hne].
  - destruct Hend as [->|Hbg].
    + destruct (Z.ltb_spec (rect.right (cursorRect p)) (rect.right (cursorRect p))); [lia|].
      reflexivity.
    + destruct (Z.eqb_spec (opaqueBackground p offset e) bg); [contradiction|].
      rewrite andb_false_r. reflexivity.
  - destruct (Z.ltb_spec x1 (rect.right (cursorRect p))); [|lia].
    rewrite (Hrun x1) by lia. rewrite Z.eqb_refl. cbn [andb].
    apply IH; [lia| |exact Hend|lia]. intros i Hi. apply Hrun. lia.
Qed.

Lemma cursorLoop_done (p : RenderingPayload) (offset : Z) (fuel : nat) (x1 : Z)
    (acc : list CursorRect) :
  rect.right (cursorRect p) <= x1 -> cursorLoop fuel p offset x1 acc = acc.
Proof.
  intros H. destruct fuel; cbn [cursorLoop]; [reflexivity|].
  destruct (Z.ltb_spec x1 (rect.right (cursorRect p))); [lia|reflexivity].
Qed.

Lemma cursorRect_nonempty (p : RenderingPayload) :
  rect.empty (cursorRect p) = false -> rect.left (cursorRect p) < rect.right (cursorRect p).
Proof.
  unfold rect.empty. intros H.
  apply negb_false_iff in H. rewrite !andb_true_iff in H. destruct H as [[[_ _] Hlr] _].
  apply Z.ltb_lt in Hlr. exact Hlr.
Qed.

(** X21.  Over cells of one background color the cursor is one run: when
    all cells under a cursor rectangle that is not empty have the same
    background, part 1 records the rectangles of the cursor shape once, for
    the run from the left to the right edge of the cursor, in the color the
    code picks for that background (white when the cursor color asks for
    inversion). *)
Theorem drawCursorPart1_one_background (p : RenderingPayload) (b : BackendD3D) (bg : Z) :
  let offset := rect.top (cursorRect p) * colorBitmapRowStride p in
  rect.empty (cursorRect p) = false ->
  (forall i, rect.left (cursorRect p) <= i < rect.right (cursorRect p) ->
             opaqueBackground p offset i = bg) ->
  _cursorRects (_drawCursorPart1 p b) =
    (if cursorColor (cursor (s p)) =? 0xffffffff
     then map (set_cr_color 0xffffffff)
     else fun cs => cs)
      (cursorShape p (rect.left (cursorRect p)) (rect.right (cursorRect p)) bg).
Proof.
  intros offset Hne Hbg. pose proof (cursorRect_nonempty p Hne) as Hlr.
  unfold _drawCursorPart1. rewrite Hne. fold offset.
  assert (E : cursorLoop (Z.to_nat (rect.right (cursorRect p) - rect.left (cursorRect p)))
                p offset (rect.left (cursorRect p)) [] =
              cursorShape p (rect.left (cursorRect p)) (rect.right (cursorRect p)) bg).
  { destruct (Z.to_nat (rect.right (cursorRect p) - rect.left (cursorRect p))) as [|fuel] eqn:Ef;
      [lia|].
    cbn [cursorLoop].
    destruct (Z.ltb_spec (rect.left (cursorRect p)) (rect.right (cursorRect p))); [|lia].
    rewrite (Hbg (rect.left (cursorRect p))) by lia.
    rewrite (scanRun_to p offset bg (rect.right (cursorRect p))); [|lia|exact Hbg|auto|lia].
    rewrite cursorLoop_done by lia. reflexivity. }
  rewrite E. destruct (cursorColor (cursor (s p)) =? 0xffffffff); reflexivity.
Qed.

(** X22.  A change of the background under the cursor costs a cell.  When
    the cells from the left edge of the cursor up to [mid] have one
    background, the cell [mid] has another one and the cells behind it
    share a background, part 1 records the cursor shape for the cells
    before [mid] and, when there are cells behind [mid], for these; the
    cell [mid] itself gets no rectangle, because the outer loop steps over
    the cell at which the inner loop stopped.  A cursor that is two cells
    wide over two backgrounds is drawn over its first cell only. *)
Theorem drawCursorPart1_skips_cell_after_run (p : RenderingPayload) (b : BackendD3D)
    (mid bg bg' : Z) :
  let offset := rect.top (cursorRect p) * colorBitmapRowStride p in
  let left := rect.left (cursorRect p) in
  let right := rect.right (cursorRect p) in
  rect.empty (cursorRect p) = false ->
  left < mid < right ->
  (forall i, left <= i < mid -> opaqueBackground p offset i = bg) ->
  opaqueBackground p offset mid <> bg ->
  (forall i, mid < i < right -> opaqueBackground p offset i = bg') ->
  _cursorRects (_drawCursorPart1 p b) =
    (if cursorColor (cursor (s p)) =? 0xffffffff
     then map (set_cr_color 0xffffffff)
     else fun cs => cs)
      (cursorShape p left mid bg ++
       (if mid + 1 <? right then cursorShape p (mid + 1) right bg' else [])).
Proof.
  intros offset left right Hne Hmid Hbg Hchange Hbg'.
  unfold _drawCursorPart1. rewrite Hne. fold offset left right.
  assert (E : cursorLoop (Z.to_nat (right - left)) p offset left [] =
              cursorShape p left mid bg ++
              (if mid + 1 <? right then cursorShape p (mid + 1) right bg' else [])).
  { destruct (Z.to_nat (right - left)) as [|fuel] eqn:Ef; [lia|].
    cbn [cursorLoop]. fold right.
    destruct (Z.ltb_spec left right); [|lia].
    rewrite (Hbg left) by lia.
    rewrite (scanRun_to p offset bg mid); [|unfold right in *; lia|exact Hbg|auto|lia].
    cbn [app].
    destruct (Z.ltb_spec (mid + 1) right) as [Hmore|Hlast].
    - destruct fuel as [|fuel]; [lia|]. cbn [cursorLoop]. fold right.
      destruct (Z.ltb_spec (mid + 1) right); [|lia].
      rewrite (Hbg' (mid + 1)) by lia.
      rewrite (scanRun_to p offset bg' right); [|unfold right in *; lia| |auto|lia].
      + rewrite cursorLoop_done by (fold right; lia). reflexivity.
      + intros i Hi. apply Hbg'. lia.
    - rewrite cursorLoop_done by (fold right; lia). rewrite app_nil_r. reflexivity. }
  rewrite E. destruct (cursorColor (cursor (s p)) =? 0xffffffff); reflexivity.
Qed.

(** ** Gridlines *)

Lemma leftLines_columns (p : RenderingPayload) (r : GridLineRange) (y : Z) (fuel : nat) :
  forall i b,
  is_u16 (gl_to r) -> 0 <= i ->
  (Z.to_nat (gl_to r - i) <= fuel)%nat ->
  _instances (leftLines fuel p r y i b) =
    _instances b ++ map (verticalLineQuad p r y) (seqZ i (gl_to r - i)).
Proof.
  induction fuel as [|fuel IH]; intros i b Hto Hi Hfuel; cbn [leftLines].
  { rewrite seqZ_nil by lia. cbn. rewrite app_nil_r. reflexivity. }
  destruct (Z.ltb_spec i (gl_to r)) as [Hlt|Hge].
  - assert (E : to_u16 (i + 1) = i + 1)
      by (apply to_u16_small; unfold is_u16 in *; lia).
    rewrite E, IH by (assumption || lia).
    unfold appendVerticalLine. cbn [_appendQuad set_instances _instances].
    rewrite <- app_assoc. f_equal.
    rewrite (seqZ_cons i) by lia. cbn [map app]. f_equal.
    replace (Z.succ i) with (i + 1) by lia.
    replace (Z.pred (gl_to r - i)) with (gl_to r - (i + 1)) by lia. reflexivity.
  - rewrite seqZ_nil by lia. cbn. rewrite app_nil_r. reflexivity.
Qed.

Lemma seqZ_snoc (m n : Z) : 0 <= n -> seqZ m (n + 1) = seqZ m n ++ [m + n].
Proof.
  intros Hn. rewrite seqZ_app by lia. reflexivity.
Qed.

Lemma rightLines_columns (p : RenderingPayload) (r : GridLineRange) (y : Z) (fuel : nat) :
  forall i b,
  is_u16 (gl_from r) -> is_u16 i ->
  (Z.to_nat (i - gl_from r) <= fuel)%nat ->
  _instances (rightLines fuel p r y i b) =
    _instances b ++
    map (verticalLineQuad p r y) (reverse (seqZ (gl_from r + 1) (i - gl_from r))).
Proof.
  induction fuel as [|fuel IH]; intros i b Hfrom Hi Hfuel; cbn [rightLines].
  { rewrite seqZ_nil by lia. cbn. rewrite app_nil_r. reflexivity. }
  destruct (Z.ltb_spec (gl_from r) i) as [Hlt|Hge].
  - assert (E : to_u16 (i - 1) = i - 1)
      by (apply to_u16_small; unfold is_u16 in *; lia).
    rewrite E, IH by (assumption || (unfold is_u16 in *; lia) || lia).
    unfold appendVerticalLine. cbn [_appendQuad set_instances _instances].
    rewrite <- app_assoc. f_equal.
    replace (i - gl_from r) with (i - 1 - gl_from r + 1) by lia.
    rewrite seqZ_snoc by lia. rewrite reverse_snoc. cbn [map app].
    replace (gl_from r + 1 + (i - 1 - gl_from r)) with i by lia. reflexivity.
  - rewrite seqZ_nil by lia. cbn. rewrite app_nil_r. reflexivity.
Qed.

Lemma gridline_columns_aux (p : RenderingPayload) (r : GridLineRange) (y : Z) :
  is_u16 (gl_from r) -> is_u16 (gl_to r) ->
  (forall b, _instances (leftLines (Z.to_nat (gl_to r - gl_from r)) p r y (gl_from r) b) =
             _instances b ++
             map (verticalLineQuad p r y) (seqZ (gl_from r) (gl_to r - gl_from r))) /\
  (forall b, _instances (rightLines (Z.to_nat (gl_to r - gl_from r)) p r y (gl_to r) b) =
             _instances b ++
             map (verticalLineQuad p r y)
               (reverse (seqZ (gl_from r + 1) (gl_to r - gl_from r)))).
Proof.
  intros Hfrom Hto. split; intros b.
  - apply leftLines_columns; [exact Hto|unfold is_u16 in Hfrom; lia|lia].
  - apply rightLines_columns; [exact Hfrom|exact Hto|lia].
Qed.

(** X23.  The vertical gridlines of a range of cells [from, to): the left
    lines are thin quads at the left edge of the cells from, ..., to - 1,
    in this order; the right lines are thin quads at the left edge of the
    cells to, ..., from + 1, in this order, so that the right line of a
    cell lies on the first pixels of the cell to its right. *)
Theorem gridline_columns (p : RenderingPayload) (r : GridLineRange) (y : Z) (b : BackendD3D) :
  is_u16 (gl_from r) -> is_u16 (gl_to r) ->
  let columns := Z.to_nat (gl_to r - gl_from r) in
  _instances (leftLines columns p r y (gl_from r) b) =
    _instances b ++
    map (verticalLineQuad p r y) (seqZ (gl_from r) (gl_to r - gl_from r)) /\
  _instances (rightLines columns p r y (gl_to r) b) =
    _instances b ++
    map (verticalLineQuad p r y) (reverse (seqZ (gl_from r + 1) (gl_to r - gl_from r))).
Proof.
  intros Hfrom Hto columns. split.
  - apply leftLines_columns; [exact Hto|unfold is_u16 in Hfrom; lia|unfold columns; lia].
  - apply rightLines_columns; [exact Hfrom|exact Hto|unfold columns; lia].
Qed.

Lemma addsQuads_refl (P : QuadInstance -> Prop) (b : BackendD3D) : addsQuads P 0 b b.
Proof.
  exists []. rewrite app_nil_r. split; [reflexivity|]. split; [reflexivity|constructor].
Qed.

Lemma addsQuads_trans (P : QuadInstance -> Prop) (n1 n2 n : Z) (b1 b2 b3 : BackendD3D) :
  n = n1 + n2 -> addsQuads P n1 b1 b2 -> addsQuads P n2 b2 b3 -> addsQuads P n b1 b3.
Proof.
  intros -> (q1 & E1 & L1 & F1) (q2 & E2 & L2 & F2). exists (q1 ++ q2).
  rewrite E2, E1, <- app_assoc, length_app. split; [reflexivity|]. split; [lia|].
  apply Forall_app. split; assumption.
Qed.

Lemma addsQuads_appendQuad (P : QuadInstance -> Prop) (q : QuadInstance) (b : BackendD3D) :
  P q -> addsQuads P 1 b (_appendQuad q b).
Proof.
  intros HP. exists [q]. split; [reflexivity|]. split; [reflexivity|].
  constructor; [exact HP|constructor].
Qed.

Lemma addsQuads_instances (P : QuadInstance -> Prop) (n : Z) (b b' : BackendD3D)
    (qs : list QuadInstance) :
  _instances b' = _instances b ++ qs -> Z.of_nat (length qs) = n -> Forall P qs ->
  addsQuads P n b b'.
Proof. intros E L F. exists qs. auto. Qed.

Lemma addsQuads_gridlineRange (p : RenderingPayload) (g : GridlinePayload) (y : Z)
    (b : BackendD3D) (r : GridLineRange) :
  is_u16 (gl_from r) -> is_u16 (gl_to r) ->
  addsQuads isGridlineQuad (gridlineQuadCount r) b (gridlineRange p g y b r).
Proof.
  intros Hfrom Hto.
  assert (Hh : forall offsetY height b0,
            addsQuads isGridlineQuad 1 b0 (appendHorizontalLine p r y offsetY height b0)).
  { intros. apply addsQuads_appendQuad. split; reflexivity. }
  assert (Hv : forall cols, Forall isGridlineQuad (map (verticalLineQuad p r y) cols)).
  { intros cols. induction cols as [|c cols IH]; cbn [map]; constructor;
      [split; reflexivity|exact IH]. }
  destruct (gridline_columns_aux p r y Hfrom Hto) as [Hl Hr].
  assert (Hleft : forall b0, addsQuads isGridlineQuad (Z.max 0 (gl_to r - gl_from r)) b0
            (leftLines (Z.to_nat (gl_to r - gl_from r)) p r y (gl_from r) b0)).
  { intros b0. eapply addsQuads_instances; [apply Hl| |apply Hv].
    rewrite length_map, length_seqZ. lia. }
  assert (Hright : forall b0, addsQuads isGridlineQuad (Z.max 0 (gl_to r - gl_from r)) b0
            (rightLines (Z.to_nat (gl_to r - gl_from r)) p r y (gl_to r) b0)).
  { intros b0. eapply addsQuads_instances; [apply Hr| |apply Hv].
    rewrite length_map, length_reverse, length_seqZ. lia. }
  assert (Hfirst : forall k (c : bool) (f : BackendD3D -> BackendD3D) b0,
            (forall b1, addsQuads isGridlineQuad k b1 (f b1)) ->
            addsQuads isGridlineQuad (if c then k else 0) b0 (if c then f b0 else b0)).
  { intros k c f b0 Hf. destruct c; [apply Hf|apply addsQuads_refl]. }
  assert (Hnext : forall n k (c : bool) (f : BackendD3D -> BackendD3D) b0 b1,
            (forall b2, addsQuads isGridlineQuad k b2 (f b2)) ->
            addsQuads isGridlineQuad n b0 b1 ->
            addsQuads isGridlineQuad (n + (if c then k else 0)) b0 (if c then f b1 else b1)).
  { intros n k c f b0 b1 Hf H01. eapply addsQuads_trans; [reflexivity|exact H01|].
    apply Hfirst. exact Hf. }
  unfold gridlineQuadCount. cbv zeta.
  change (gridlineRange p g y b r) with
    ((fun b7 => if gl_lines r GridLines.Strikethrough
                then appendHorizontalLine p r y (strikethroughPos g) (strikethroughWidth g) b7
                else b7)
     ((fun b6 => if gl_lines r GridLines.DoubleUnderline
                 then (fun b' => appendHorizontalLine p r y (v2.y (doubleUnderlinePos (font (s p))))
                                   (thinLineWidth (font (s p)))
                                   (appendHorizontalLine p r y
                                      (v2.x (doubleUnderlinePos (font (s p))))
                                      (thinLineWidth (font (s p))) b')) b6
                 else b6)
      ((fun b5 => if gl_lines r GridLines.HyperlinkUnderline
                  then appendHorizontalLine p r y (underlinePos (font (s p)))
                         (underlineWidth (font (s p))) b5
                  else b5)
       ((fun b4 => if gl_lines r GridLines.Underline
                   then appendHorizontalLine p r y (underlinePos (font (s p)))
                          (underlineWidth (font (s p))) b4
                   else b4)
        ((fun b3 => if gl_lines r GridLines.Bottom
                    then appendHorizontalLine p r y
                           (v2.y (cellSize (font (s p))) - thinLineWidth (font (s p)))
                           (thinLineWidth (font (s p))) b3
                    else b3)
         ((fun b2 => if gl_lines r GridLines.Right
                     then rightLines (Z.to_nat (gl_to r - gl_from r)) p r y (gl_to r) b2
                     else b2)
          ((fun b1 => if gl_lines r GridLines.Top
                      then appendHorizontalLine p r y 0 (thinLineWidth (font (s p))) b1
                      else b1)
           (if gl_lines r GridLines.Left
            then leftLines (Z.to_nat (gl_to r - gl_from r)) p r y (gl_from r) b
            else b)))))))).
  refine (Hnext _ 1 _ (fun b' => appendHorizontalLine p r y _ _ b') _ _ _ _);
    [intros; apply Hh|].
  refine (Hnext _ 2 _ (fun b' => appendHorizontalLine p r y _ _
                                   (appendHorizontalLine p r y _ _ b')) _ _ _ _);
    [intros; eapply addsQuads_trans; [|apply Hh|apply Hh]; reflexivity|].
  refine (Hnext _ 1 _ (fun b' => appendHorizontalLine p r y _ _ b') _ _ _ _);
    [intros; apply Hh|].
  refine (Hnext _ 1 _ (fun b' => appendHorizontalLine p r y _ _ b') _ _ _ _);
    [intros; apply Hh|].
  refine (Hnext _ 1 _ (fun b' => appendHorizontalLine p r y _ _ b') _ _ _ _);
    [intros; apply Hh|].
  refine (Hnext _ _ _ (fun b' => rightLines _ p r y _ b') _ _ _ _); [exact Hright|].
  refine (Hnext _ 1 _ (fun b' => appendHorizontalLine p r y _ _ b') _ _ _ _);
    [intros; apply Hh|].
  refine (Hfirst _ _ (fun b' => leftLines _ p r y _ b') _ _). exact Hleft.
Qed.

Lemma addsQuads_drawGridlineRow (p : RenderingPayload) (g : GridlinePayload) (y : Z)
    (ranges : list GridLineRange) : forall b,
  Forall (fun r => is_u16 (gl_from r) /\ is_u16 (gl_to r)) ranges ->
  addsQuads isGridlineQuad (fold_right (fun r total => gridlineQuadCount r + total) 0 ranges)
    b (_drawGridlineRow p g ranges y b).
Proof.
  unfold _drawGridlineRow.
  induction ranges as [|r ranges IH]; intros b Hall; cbn [fold_left fold_right].
  - apply addsQuads_refl.
  - inversion Hall as [|? ? [Hfrom Hto] Hrest]; subst.
    eapply addsQuads_trans; [reflexivity| |apply IH; exact Hrest].
    apply addsQuads_gridlineRange; assumption.
Qed.

Lemma addsQuads_gridlineRows (p : RenderingPayload) (g : GridlinePayload)
    (rs : list (list GridLineRange)) : forall y b,
  Forall (Forall (fun r => is_u16 (gl_from r) /\ is_u16 (gl_to r))) rs ->
  addsQuads isGridlineQuad (gridlineQuadTotal rs) b (gridlineRows p g rs y b).
Proof.
  unfold gridlineQuadTotal.
  induction rs as [|ranges rs IH]; intros y b Hall; cbn [gridlineRows fold_right].
  - apply addsQuads_refl.
  - inversion Hall as [|? ? Hrow Hrest]; subst.
    eapply addsQuads_trans; [reflexivity| |apply IH; exact Hrest].
    destruct ranges as [|r ranges]; [apply addsQuads_refl|].
    apply addsQuads_drawGridlineRow. exact Hrow.
Qed.

(** X24.  The gridline pass appends, behind the quads of the stream, one
    quad per cell for the left and for the right lines of a range, two for
    a double underline and one for every other kind of line, over all
    ranges of all rows (a hyperlink underline on top of an underline draws
    the underline twice); every one of them is a solid fill without
    texture.  Rows without ranges add nothing, and the pass records no
    marker and calls no device. *)
Theorem drawGridlines_quads (p : RenderingPayload) (g : GridlinePayload) (b : BackendD3D) :
  Forall (Forall (fun r => is_u16 (gl_from r) /\ is_u16 (gl_to r))) (gridLineRanges g) ->
  (exists qs,
     _instances (_drawGridlines p g b) = _instances b ++ qs /\
     Z.of_nat (length qs) = gridlineQuadTotal (gridLineRanges g) /\
     Forall isGridlineQuad qs) /\
  _instancesStateChanges (_drawGridlines p g b) = _instancesStateChanges b /\
  device (_drawGridlines p g b) = device b.
Proof.
  intros Hall. split.
  - exact (addsQuads_gridlineRows p g (gridLineRanges g) 0 b Hall).
  - destruct (quadsOnly_drawGridlines p g b) as (D & _ & C & _). split; assumption.
Qed.

(** ** The upload of the color bitmap, row by row *)

Lemma copyRows_rows (srcEnd srcStride RowPitch : Z) (rows : nat) :
  0 < srcStride ->
  forall (fuel : nat) (src dst : Z) (acc : list memcpy),
  srcEnd = src + Z.of_nat rows * srcStride ->
  (rows <= fuel)%nat ->
  copyRows fuel srcEnd srcStride RowPitch src dst acc =
    Some (acc ++ map (fun j : nat =>
                        {| cp_dst := dst + Z.of_nat j * RowPitch;
                           cp_src := src + Z.of_nat j * srcStride;
                           cp_n := srcStride |})
                     (seq 0 rows)).
Proof.
  intros Hs. induction rows as [|rows IH]; intros fuel src dst acc Hend Hfuel.
  - assert (E : (src <? srcEnd) = false) by (apply Z.ltb_ge; lia).
    destruct fuel; cbn [copyRows]; rewrite E; cbn; rewrite app_nil_r; reflexivity.
  - destruct fuel as [|fuel]; [lia|]. cbn [copyRows].
    assert (E : (src <? srcEnd) = true) by (apply Z.ltb_lt; nia). rewrite E.
    rewrite (IH fuel (src + srcStride) (dst + RowPitch)) by lia.
    rewrite <- app_assoc. do 2 f_equal.
    cbn [seq map app]. f_equal.
    + f_equal; lia.
    + rewrite <- seq_shift, map_map. apply map_ext. intros j. f_equal; lia.
Qed.

Lemma copyRows_stuck (srcEnd RowPitch : Z) (fuel : nat) : forall src dst acc,
  src < srcEnd -> copyRows fuel srcEnd 0 RowPitch src dst acc = None.
Proof.
  induction fuel as [|fuel IH]; intros src dst acc Hlt; cbn [copyRows];
    (assert (E : (src <? srcEnd) = true) by (apply Z.ltb_lt; lia)); rewrite E; [reflexivity|].
  rewrite Z.add_0_r. apply IH. exact Hlt.
Qed.


(** X25.  [_uploadColorBitmap] copies a bitmap of [rows] whole rows with
    [rows] calls of [memcpy]: row [j] of the bitmap, [4 * stride] bytes
    from byte [j * 4 * stride] on, goes to byte [j * RowPitch] of the
    mapped texture, so that no byte of the bitmap is left out or copied
    twice and nothing behind the bitmap is read.  With a row stride of 0
    and a bitmap that is not empty the loop never ends. *)
Theorem uploadColorBitmap_copies_rows (p : RenderingPayload) (RowPitch : Z) :
  (forall rows fuel : nat,
     0 < colorBitmapRowStride p < 2 ^ 61 ->
     Z.of_nat (length (colorBitmap p)) = Z.of_nat rows * colorBitmapRowStride p ->
     (rows <= fuel)%nat ->
     _uploadColorBitmap fuel p RowPitch =
       Some (map (fun j : nat =>
                    {| cp_dst := Z.of_nat j * RowPitch;
                       cp_src := Z.of_nat j * (4 * colorBitmapRowStride p);
                       cp_n := 4 * colorBitmapRowStride p |})
                 (seq 0 rows))) /\
  (colorBitmapRowStride p = 0 -> colorBitmap p <> [] ->
   forall fuel, _uploadColorBitmap fuel p RowPitch = None).
Proof.
  split.
  - intros rows fuel Hs Hlen Hfuel. unfold _uploadColorBitmap.
    assert (E : to_size_t (colorBitmapRowStride p * 4) = 4 * colorBitmapRowStride p).
    { unfold to_size_t. change (2 ^ 61) with 2305843009213693952 in Hs.
      change (2 ^ 64) with 18446744073709551616. rewrite Z.mod_small by lia. lia. }
    rewrite E, (copyRows_rows _ _ _ rows) by lia.
    cbn [app]. reflexivity.
  - intros Hs Hne fuel. unfold _uploadColorBitmap. rewrite Hs.
    change (to_size_t (0 * 4)) with 0. apply copyRows_stuck.
    destruct (colorBitmap p); [contradiction|]. cbn [length]. lia.
Qed.

(** ** The cursor rectangles between the two cursor passes *)

Lemma cursorRects_d2dBeginDrawing (b : BackendD3D) :
  _cursorRects (_d2dBeginDrawing b) = _cursorRects b.
Proof. unfold _d2dBeginDrawing. destruct (_d2dBeganDrawing b); reflexivity. Qed.

Lemma cursorRects_d2dEndDrawing (b : BackendD3D) :
  _cursorRects (_d2dEndDrawing b) = _cursorRects b.
Proof. unfold _d2dEndDrawing. destruct (_d2dBeganDrawing b); reflexivity. Qed.

Lemma cursorRects_flushQuads (b : BackendD3D) : _cursorRects (_flushQuads b) = _cursorRects b.
Proof. unfold _flushQuads. destruct (_instancesCount b =? 0); reflexivity. Qed.

Lemma cursorRects_restoreTransform (tr : bool) (b : BackendD3D) :
  _cursorRects (restoreTransform tr b) = _cursorRects b.
Proof. destruct tr; reflexivity. Qed.

Lemma cursorRects_splitDoubleHeightGlyph (p : RenderingPayload) (key : AtlasFontFaceKey)
    (glyphIndex : Z) (b : BackendD3D) :
  _cursorRects (_splitDoubleHeightGlyph p key glyphIndex b) = _cursorRects b.
Proof. unfold _splitDoubleHeightGlyph. destruct (splitHalves _ _). reflexivity. Qed.

Lemma cursorRects_resetGlyphAtlas (p : RenderingPayload) (b b' : BackendD3D) :
  _resetGlyphAtlas p b = Done b' -> _cursorRects b' = _cursorRects b.
Proof.
  unfold _resetGlyphAtlas.
  destruct (atlasSize _ _ _) as [[u v]|]; [|discriminate].
  intros H. injection H as <-.
  cbn [set_fontChangedResetGlyphAtlas call set_device _cursorRects].
  rewrite cursorRects_d2dBeginDrawing. destruct (negb _ || negb _); reflexivity.
Qed.

Lemma cursorRects_drawGlyphPrepareRetry (p : RenderingPayload) (b b' : BackendD3D) :
  _drawGlyphPrepareRetry p b = Done b' -> _cursorRects b' = _cursorRects b.
Proof.
  unfold _drawGlyphPrepareRetry. destruct (decide _); [discriminate|]. intros H.
  apply cursorRects_resetGlyphAtlas in H.
  rewrite H, cursorRects_flushQuads, cursorRects_d2dEndDrawing. reflexivity.
Qed.

Lemma cursorRects_drawSoftFontGlyph (p : RenderingPayload) (key : AtlasFontFaceKey)
    (glyphIndex : Z) (b : BackendD3D) (r : bool) (b' : BackendD3D) :
  _drawSoftFontGlyph p key glyphIndex b = Done (r, b') -> _cursorRects b' = _cursorRects b.
Proof.
  unfold _drawSoftFontGlyph.
  destruct (stbrp_pack_rects (_rectPacker b) _ _) as [[x0 y0]|].
  - destruct (isDoubleHeight (lineRendition key)); intros H; injection H as _ <-;
      rewrite ?cursorRects_splitDoubleHeightGlyph;
      cbn [set_glyphAtlasMap call set_device _cursorRects];
      rewrite cursorRects_d2dBeginDrawing; reflexivity.
  - destruct (_drawGlyphPrepareRetry p b) as [b1|e|] eqn:E; cbn [bind]; try discriminate.
    intros H. injection H as _ <-. apply (cursorRects_drawGlyphPrepareRetry p b b1 E).
Qed.

Lemma cursorRects_drawGlyph (p : RenderingPayload) (key : AtlasFontFaceKey) (glyphIndex : Z)
    (b : BackendD3D) (r : bool) (b' : BackendD3D) :
  _drawGlyph p key glyphIndex b = Done (r, b') -> _cursorRects b' = _cursorRects b.
Proof.
  unfold _drawGlyph.
  destruct (fontFace key =? 0); [apply cursorRects_drawSoftFontGlyph|].
  set (tr := negb (bool_decide (lineRendition key = SingleWidth))).
  set (b0 := if tr then call _ b else b).
  assert (H0 : _cursorRects b0 = _cursorRects b) by (unfold b0; destruct tr; reflexivity).
  destruct (f32_ge _ _ || f32_ge _ _).
  { intros H. injection H as _ <-. rewrite cursorRects_restoreTransform. exact H0. }
  destruct (stbrp_pack_rects (_rectPacker b0) _ _) as [[x0 y0]|].
  - intros H. injection H as _ <-. rewrite cursorRects_restoreTransform.
    destruct (isDoubleHeight (lineRendition key));
      rewrite ?cursorRects_splitDoubleHeightGlyph;
      cbn [set_glyphAtlasMap call set_device _cursorRects];
      rewrite cursorRects_d2dBeginDrawing; destruct tr; exact H0.
  - destruct (_drawGlyphPrepareRetry p b0) as [b1|e|] eqn:E; cbn [bind]; try discriminate.
    intros H. injection H as _ <-. rewrite cursorRects_restoreTransform.
    rewrite (cursorRects_drawGlyphPrepareRetry p b0 b1 E). exact H0.
Qed.

Lemma cursorRects_drawText (fuel : nat) (p p' : RenderingPayload) (b b' : BackendD3D) :
  _drawText fuel p b = Done (p', b') -> _cursorRects b' = _cursorRects b.
Proof.
  unfold _drawText.
  destruct (if _fontChangedResetGlyphAtlas b then _resetGlyphAtlas p b else Done b)
    as [b1|e|] eqn:E1; cbn [bind]; try discriminate.
  assert (H1 : _cursorRects b1 = _cursorRects b).
  { destruct (_fontChangedResetGlyphAtlas b).
    - apply (cursorRects_resetGlyphAtlas p b b1 E1).
    - injection E1 as <-. reflexivity. }
  match goal with |- bind ?r _ = _ -> _ => destruct r as [fr|e|] eqn:Er end;
    cbn [bind]; try discriminate.
  intros H. injection H as _ <-.
  apply (drawRows_invariant p (fun b0 => _cursorRects b0 = _cursorRects b)) in Er.
  - cbn [set_skipForegroundBitmapUpload _cursorRects].
    rewrite cursorRects_d2dEndDrawing. exact Er.
  - intros key b0 H0. exact H0.
  - intros row baselineY key t H0. unfold emitGlyph.
    destruct (isDefault _); cbn [backend]; exact H0.
  - intros key glyphIndex b0 r b2 H0 Hd.
    rewrite (cursorRects_drawGlyph _ _ _ _ _ _ Hd). exact H0.
  - exact H1.
Qed.

Lemma cursorRects_leftLines (p : RenderingPayload) (r : GridLineRange) (y : Z) (fuel : nat) :
  forall i b, _cursorRects (leftLines fuel p r y i b) = _cursorRects b.
Proof.
  induction fuel as [|fuel IH]; intros i b; cbn [leftLines]; [reflexivity|].
  destruct (i <? gl_to r); [|reflexivity]. rewrite IH. reflexivity.
Qed.

Lemma cursorRects_rightLines (p : RenderingPayload) (r : GridLineRange) (y : Z) (fuel : nat) :
  forall i b, _cursorRects (rightLines fuel p r y i b) = _cursorRects b.
Proof.
  induction fuel as [|fuel IH]; intros i b; cbn [rightLines]; [reflexivity|].
  destruct (gl_from r <? i); [|reflexivity]. rewrite IH. reflexivity.
Qed.

Lemma cursorRects_gridlineRange (p : RenderingPayload) (g : GridlinePayload) (y : Z)
    (b : BackendD3D) (r : GridLineRange) :
  _cursorRects (gridlineRange p g y b r) = _cursorRects b.
Proof.
  unfold gridlineRange. cbv zeta.
  repeat match goal with
  | |- _cursorRects (if ?c then _ else _) = _ => destruct c
  | |- _cursorRects (appendHorizontalLine _ _ _ _ _ ?b0) = _ =>
      change (_cursorRects (appendHorizontalLine p r y _ _ b0)) with (_cursorRects b0)
  | |- _cursorRects (leftLines _ _ _ _ _ _) = _ => rewrite cursorRects_leftLines
  | |- _cursorRects (rightLines _ _ _ _ _ _) = _ => rewrite cursorRects_rightLines
  | |- _cursorRects ?b0 = _cursorRects ?b0 => reflexivity
  end.
Qed.

Lemma cursorRects_gridlineRows (p : RenderingPayload) (g : GridlinePayload)
    (rs : list (list GridLineRange)) : forall y b,
  _cursorRects (gridlineRows p g rs y b) = _cursorRects b.
Proof.
  induction rs as [|ranges rs IH]; intros y b; cbn [gridlineRows]; [reflexivity|].
  rewrite IH. destruct ranges as [|r ranges]; [reflexivity|].
  unfold _drawGridlineRow. generalize (r :: ranges). intros l. revert b.
  induction l as [|r' l IHl]; intros b; cbn [fold_left]; [reflexivity|].
  rewrite IHl. apply cursorRects_gridlineRange.
Qed.

(** X26.  Nothing touches the cursor rectangles between the two cursor
    passes of a frame.  The rectangles part 1 records are those part 2
    finds: the text pass, with its glyph rasterization, its flushes and
    atlas resets, and the gridline pass leave [_cursorRects] alone, and the
    text pass hands on the cursor settings it was given.  So the quads part
    2 draws over the text have the places and sizes of the rectangles of
    part 1. *)
Theorem cursor_rectangles_reach_part2 (fuel : nat) (p p2 : RenderingPayload)
    (g : GridlinePayload) (b b2 : BackendD3D) :
  _drawText fuel p (_drawCursorPart1 p (_drawBackground p b)) = Done (p2, b2) ->
  _cursorRects (_drawGridlines p2 g b2) =
    _cursorRects (_drawCursorPart1 p (_drawBackground p b)) /\
  s p2 = s p /\
  Render fuel p g b =
    Done (p2, _flushQuads (_drawSelection p2 (_drawCursorPart2 p2 (_drawGridlines p2 g b2)))).
Proof.
  intros Ht. split; [|split].
  - unfold _drawGridlines. rewrite cursorRects_gridlineRows.
    apply (cursorRects_drawText _ _ _ _ _ Ht).
  - unfold _drawText in Ht.
    destruct (if _fontChangedResetGlyphAtlas _ then _ else _) as [b1|e|];
      cbn [bind] in Ht; try discriminate.
    match type of Ht with bind ?r _ = _ => destruct r as [fr|e|] end;
      cbn [bind] in Ht; try discriminate.
    injection Ht as <- _. reflexivity.
  - unfold Render. rewrite Ht. reflexivity.
Qed.

(** ** The retry, call by call *)

Lemma flushQuads_calls (b : BackendD3D) :
  streamOk b ->
  device (_flushQuads b) =
    device b ++
    concat (map spanCalls
              (spans 0 (_instancesStateChanges b ++
                        [{| blendState := None; offset := _instancesCount b |}]))) /\
  _instancesStateChanges (_flushQuads b) = [].
Proof.
  intros (Hcount & Hasc & Hnone). unfold _flushQuads.
  destruct (Z.eqb_spec (_instancesCount b) 0) as [E|E].
  - specialize (Hnone E). rewrite Hnone, E. simpl. rewrite app_nil_r. auto.
  - split; [|reflexivity]. simpl.
    apply (flushLoop_spans _ _ _ (_instancesCount b)); try lia.
    apply offsetsAscend_app. split; [assumption|].
    simpl. split; [|exact I].
    assert (0 <= _instancesCount b) by (unfold _instancesCount; lia).
    pose proof (offsetsAscend_last (_instancesCount b) (_instancesStateChanges b) 0
                  ltac:(lia) Hasc) as Hlast.
    simpl in Hlast. lia.
Qed.

Lemma streamOk_sameStream (b b' : BackendD3D) :
  _instances b' = _instances b -> _instancesStateChanges b' = _instancesStateChanges b ->
  streamOk b -> streamOk b'.
Proof. intros E1 E2. unfold streamOk, _instancesCount. rewrite E1, E2. auto. Qed.

(** [_drawGlyphPrepareRetry], call by call: [EndDraw] when Direct2D drawing
    is open, the draw calls of the flush, the new texture when the size
    changes, then [BeginDraw] and [Clear]. *)
Lemma prepareRetry_calls (p : RenderingPayload) (b b' : BackendD3D) :
  streamOk b ->
  _drawGlyphPrepareRetry p b = Done b' ->
  exists u v,
    atlasSize (s p) (width (_rectPacker b)) (height (_rectPacker b)) = Some (u, v) /\
    device b' =
      device b ++
      (if _d2dBeganDrawing b then [EndDraw] else []) ++
      concat (map spanCalls
                (spans 0 (_instancesStateChanges b ++
                          [{| blendState := None; offset := _instancesCount b |}]))) ++
      (if negb (u =? width (_rectPacker b)) || negb (v =? height (_rectPacker b))
       then [CreateTexture2D u v] else []) ++
      [BeginDraw; Clear] /\
    _d2dBeganDrawing b' = true /\
    _instancesStateChanges b' = [].
Proof.
  intros Hs. unfold _drawGlyphPrepareRetry. destruct (decide _); [discriminate|].
  set (bE := _d2dEndDrawing b).
  destruct (streamKept_d2dEndDrawing b) as [EI EC]. fold bE in EI, EC.
  assert (HsE : streamOk bE) by (apply (streamOk_sameStream b); assumption).
  assert (HdE : device bE = device b ++ (if _d2dBeganDrawing b then [EndDraw] else [])).
  { unfold bE, _d2dEndDrawing. destruct (_d2dBeganDrawing b); [reflexivity|].
    rewrite app_nil_r. reflexivity. }
  assert (HbE : _d2dBeganDrawing bE = false).
  { unfold bE, _d2dEndDrawing. destruct (_d2dBeganDrawing b) eqn:E; [reflexivity|exact E]. }
  assert (HpE : _rectPacker bE = _rectPacker b) by apply d2dEndDrawing_frame.
  destruct (flushQuads_calls bE HsE) as [HdF HcF].
  destruct (flushQuads_frame bE) as (_ & HpF & HbF & _ & _).
  set (bF := _flushQuads bE) in *.
  unfold _resetGlyphAtlas. rewrite HpF, HpE.
  destruct (atlasSize _ _ _) as [[u v]|]; [|discriminate].
  intros H. injection H as <-. exists u, v. split; [reflexivity|].
  unfold _d2dBeginDrawing.
  cbn [set_glyphAtlasMap set_rectPacker _d2dBeganDrawing].
  assert (Hb : _d2dBeganDrawing
                 (if negb (u =? width (_rectPacker b)) || negb (v =? height (_rectPacker b))
                  then call (CreateTexture2D u v) bF else bF) = false).
  { destruct (negb _ || negb _); cbn; rewrite HbF; exact HbE. }
  rewrite Hb.
  cbn [set_fontChangedResetGlyphAtlas call set_device set_d2dBeganDrawing device
       _d2dBeganDrawing _instancesStateChanges set_glyphAtlasMap set_rectPacker].
  split; [|split; [reflexivity|]].
  - unfold _instancesCount in *. rewrite EI, EC in HdF.
    destruct (negb _ || negb _);
      cbn [call set_device device]; rewrite HdF, HdE; rewrite <- !app_assoc; reflexivity.
  - destruct (negb _ || negb _); cbn; exact HcF.
Qed.

(** A rasterization that fails, call by call. *)
Lemma drawGlyph_retry_calls (p : RenderingPayload) (key : AtlasFontFaceKey) (glyphIndex : Z)
    (b b' : BackendD3D) :
  let transform :=
    negb (fontFace key =? 0) && negb (bool_decide (lineRendition key = SingleWidth)) in
  let m22 := if isDoubleHeight (lineRendition key) then 2 else 1 in
  streamOk b ->
  _drawGlyph p key glyphIndex b = Done (false, b') ->
  exists u v,
    atlasSize (s p) (width (_rectPacker b)) (height (_rectPacker b)) = Some (u, v) /\
    device b' =
      device b ++
      (if transform then [SetTransform 2 m22 0 0] else []) ++
      (if _d2dBeganDrawing b then [EndDraw] else []) ++
      concat (map spanCalls
                (spans 0 (_instancesStateChanges b ++
                          [{| blendState := None; offset := _instancesCount b |}]))) ++
      (if negb (u =? width (_rectPacker b)) || negb (v =? height (_rectPacker b))
       then [CreateTexture2D u v] else []) ++
      [BeginDraw; Clear] ++
      (if transform then [SetTransform 1 1 0 0] else []) /\
    _d2dBeganDrawing b' = true /\
    _instancesStateChanges b' = [].
Proof.
  intros transform m22 Hs. unfold _drawGlyph.
  destruct (fontFace key =? 0) eqn:Eface.
  - unfold _drawSoftFontGlyph.
    destruct (stbrp_pack_rects (_rectPacker b) _ _) as [[x0 y0]|].
    { destruct (isDoubleHeight (lineRendition key)); discriminate. }
    destruct (_drawGlyphPrepareRetry p b) as [b1|e|] eqn:E; cbn [bind]; try discriminate.
    intros H. injection H as <-.
    destruct (prepareRetry_calls p b b1 Hs E) as (u & v & Hsz & Hd & Hb & Hc).
    exists u, v. split; [exact Hsz|]. split; [|auto].
    unfold transform. cbn [negb andb]. rewrite Hd. cbn [app]. reflexivity.
  - unfold transform. cbn [negb andb].
    set (tr := negb (bool_decide (lineRendition key = SingleWidth))).
    set (b0 := if tr then call _ b else b).
    assert (Hs0 : streamOk b0).
    { apply (streamOk_sameStream b); [| |exact Hs]; unfold b0; destruct tr; reflexivity. }
    destruct (f32_ge _ _ || f32_ge _ _); [discriminate|].
    destruct (stbrp_pack_rects (_rectPacker b0) _ _) as [[x0 y0]|]; [discriminate|].
    destruct (_drawGlyphPrepareRetry p b0) as [b1|e|] eqn:E; cbn [bind]; try discriminate.
    intros H. injection H as <-.
    destruct (prepareRetry_calls p b0 b1 Hs0 E) as (u & v & Hsz & Hd & Hb & Hc).
    assert (P0 : _rectPacker b0 = _rectPacker b) by (unfold b0; destruct tr; reflexivity).
    assert (B0 : _d2dBeganDrawing b0 = _d2dBeganDrawing b) by (unfold b0; destruct tr; reflexivity).
    assert (C0 : _instancesStateChanges b0 = _instancesStateChanges b)
      by (unfold b0; destruct tr; reflexivity).
    assert (I0 : _instancesCount b0 = _instancesCount b) by (unfold b0; destruct tr; reflexivity).
    assert (D0 : device b0 = device b ++ (if tr then [SetTransform 2 m22 0 0] else [])).
    { unfold b0. destruct tr; [reflexivity|]. rewrite app_nil_r. reflexivity. }
    rewrite P0, B0, C0, I0, D0 in *.
    exists u, v. split; [exact Hsz|].
    split; [|split].
    + unfold restoreTransform. destruct tr; cbn [call set_device device];
        rewrite Hd; rewrite <- !app_assoc; cbn [app]; rewrite ?app_nil_r; reflexivity.
    + unfold restoreTransform. destruct tr; cbn; exact Hb.
    + unfold restoreTransform. destruct tr; cbn; exact Hc.
Qed.

(** A rasterization that succeeds leaves the quad stream alone. *)
Lemma drawGlyph_done_stream (p : RenderingPayload) (key : AtlasFontFaceKey) (glyphIndex : Z)
    (b b' : BackendD3D) :
  _drawGlyph p key glyphIndex b = Done (true, b') -> streamKept b b'.
Proof.
  unfold _drawGlyph.
  destruct (fontFace key =? 0).
  - unfold _drawSoftFontGlyph.
    destruct (stbrp_pack_rects (_rectPacker b) _ _) as [[x0 y0]|].
    + match goal with |- context [_d2dBeginDrawing ?bb] =>
        pose proof (streamKept_d2dBeginDrawing bb) as Hb
      end.
      intros Hrun. destruct (isDoubleHeight (lineRendition key)); injection Hrun as <-.
      * eapply streamKept_trans; [|apply streamKept_splitDoubleHeightGlyph].
        destruct Hb as [E1 E2]. split; cbn; [rewrite E1|rewrite E2]; reflexivity.
      * destruct Hb as [E1 E2]. split; cbn; [rewrite E1|rewrite E2]; reflexivity.
    + destruct (_drawGlyphPrepareRetry p b); cbn [bind]; discriminate.
  - set (tr := negb (bool_decide (lineRendition key = SingleWidth))).
    set (b0 := if tr then call _ b else b).
    assert (H0 : streamKept b b0) by (unfold b0; destruct tr; split; reflexivity).
    destruct (f32_ge _ _ || f32_ge _ _).
    { intros H. injection H as <-.
      eapply streamKept_trans; [exact H0|apply streamKept_restoreTransform]. }
    destruct (stbrp_pack_rects (_rectPacker b0) _ _) as [[x0 y0]|].
    + intros H. injection H as <-.
      eapply streamKept_trans; [|apply streamKept_restoreTransform].
      match goal with |- context [_d2dBeginDrawing ?bb] =>
        pose proof (streamKept_d2dBeginDrawing bb) as Hb; set (b2 := bb) in *
      end.
      assert (H2 : streamKept b b2).
      { eapply streamKept_trans; [exact H0|]. unfold b2. destruct tr; split; reflexivity. }
      assert (H3 : streamKept b (_d2dBeginDrawing b2)) by (eapply streamKept_trans; eassumption).
      destruct (isDoubleHeight (lineRendition key)).
      * eapply streamKept_trans; [|apply streamKept_splitDoubleHeightGlyph].
        destruct H3 as [E1 E2]. split; cbn; [rewrite E1|rewrite E2]; reflexivity.
      * destruct H3 as [E1 E2]. split; cbn; [rewrite E1|rewrite E2]; reflexivity.
    + destruct (_drawGlyphPrepareRetry p b0); cbn [bind]; discriminate.
Qed.

(** The glyphs of a pass that reaches the end of its glyphs add at most
    one quad each behind the quads of the stream, and no marker. *)
Lemma glyphLoop_finished_stream (p : RenderingPayload) (row : ShapedRow) (baselineY : Z)
    (key : AtlasFontFaceKey) (n : nat) : forall t pre,
  glyphLoop n p row baselineY key t = Done (Finished pre) ->
  _instancesStateChanges (backend pre) = _instancesStateChanges (backend t) /\
  exists qs, _instances (backend pre) = _instances (backend t) ++ qs /\ (length qs <= n)%nat.
Proof.
  induction n as [|n IH]; intros t pre.
  { cbn [glyphLoop]. intros H. injection H as <-. split; [reflexivity|].
    exists []. rewrite app_nil_r. auto. }
  cbn [glyphLoop].
  destruct (glyphsOf key (_glyphAtlasMap (backend t)) !! at_ (glyphIndices row) (x t) 0).
  - intros H. destruct (IH _ _ H) as (C & qs2 & Q & L).
    destruct (emitGlyph_stream p row baselineY key t) as (_ & C1 & qs1 & Q1 & L1).
    split; [congruence|].
    exists (qs1 ++ qs2). rewrite Q, Q1, <- app_assoc, length_app. split; [reflexivity|lia].
  - destruct (_drawGlyph p key _ _) as [[[|] b1]|e|] eqn:E; cbn [bind fst snd]; try discriminate.
    intros H. destruct (IH _ _ H) as (C & qs2 & Q & L).
    apply drawGlyph_done_stream in E. destruct E as [EI EC].
    cbn [set_glyphAtlasMap _instances _instancesStateChanges] in EI, EC.
    destruct (emitGlyph_stream p row baselineY key (with_backend b1 t)) as (_ & C1 & qs1 & Q1 & L1).
    cbn [with_backend backend] in C1, Q1.
    split; [congruence|].
    exists (qs1 ++ qs2). rewrite Q, Q1, EI, <- app_assoc, length_app. split; [reflexivity|lia].
Qed.

(** C2, as amended.  When a pass through the glyph loop leaves through the
    retry exit, the glyph at the index [x t'] of the exit is the one whose
    rasterization failed.  The glyphs from [x t] up to it were drawn in
    that pass and left at most one quad each behind the quads of the
    stream.  The failed rasterization then did what the device log shows,
    in this order and nothing else: the scaling transform of a rendition
    that is not single width, [EndDraw] when Direct2D drawing was open,
    the flush (one draw call for every span of the stream that is not
    empty, with the blend state of its marker), the new texture when the
    atlas changes its size, [BeginDraw] and [Clear] of the reset, and the
    identity transform.  Afterwards the stream holds no quad and no marker
    and the atlas is fresh.  The next pass starts at the label with that
    same index [x t'], which need not be [m.glyphsFrom]: the glyphs before
    it are not processed again. *)
Theorem drawRun_resumes_at_failed_glyph (p : RenderingPayload) (row : ShapedRow)
    (baselineY : Z) (m : FontMapping) (t t' : TextState) (fuel : nat) :
  let key := runKey row m in
  let transform :=
    negb (fontFace key =? 0) && negb (bool_decide (lineRendition key = SingleWidth)) in
  let m22 := if isDoubleHeight (lineRendition key) then 2 else 1 in
  glyphsTo m < 2 ^ 32 ->
  0 <= x t ->
  streamOk (backend t) ->
  _instancesCount (backend t) + (glyphsTo m - x t) < 2 ^ 32 ->
  glyphLoop (Z.to_nat (glyphsTo m - x t)) p row baselineY key (atRetryLabel row m t)
    = Done (Retry t') ->
  x t <= x t' < glyphsTo m /\
  (exists pre qs u v,
     glyphLoop (Z.to_nat (x t' - x t)) p row baselineY key (atRetryLabel row m t)
       = Done (Finished pre) /\
     x pre = x t' /\
     glyphLoop 1 p row baselineY key pre = Done (Retry t') /\
     _instances (backend pre) = _instances (backend t) ++ qs /\
     Z.of_nat (length qs) <= x t' - x t /\
     _instancesStateChanges (backend pre) = _instancesStateChanges (backend t) /\
     atlasSize (s p) (width (_rectPacker (backend pre))) (height (_rectPacker (backend pre)))
       = Some (u, v) /\
     device (backend t') =
       device (backend pre) ++
       (if transform then [SetTransform 2 m22 0 0] else []) ++
       (if _d2dBeganDrawing (backend pre) then [EndDraw] else []) ++
       concat (map spanCalls
                 (spans 0 (_instancesStateChanges (backend pre) ++
                           [{| blendState := None; offset := _instancesCount (backend pre) |}]))) ++
       (if negb (u =? width (_rectPacker (backend pre))) ||
           negb (v =? height (_rectPacker (backend pre)))
        then [CreateTexture2D u v] else []) ++
       [BeginDraw; Clear] ++
       (if transform then [SetTransform 1 1 0 0] else [])) /\
  freshAtlas p (backend t') /\
  _instances (backend t') = [] /\
  _instancesStateChanges (backend t') = [] /\
  _d2dBeganDrawing (backend t') = true /\
  resets (device (backend t')) = S (resets (device (backend t))) /\
  drawRun (S fuel) p row baselineY m t = drawRun fuel p row baselineY m t'.
Proof.
  intros key transform m22 Hu32 H0 Hs Hbound Hrun.
  destruct (drawRun_retry_exit p row baselineY m Hu32 t t' fuel H0 Hrun)
    as (Hx & (pre & Hpre & Xpre & Hstep) & Hfresh & Hinst & Hres & Hnext).
  destruct (glyphLoop_finished_stream p row baselineY key _ _ _ Hpre) as (C & qs & Q & L).
  cbn [atRetryLabel with_backend backend set_glyphAtlasMap _instances _instancesStateChanges]
    in C, Q.
  assert (Hspre : streamOk (backend pre)).
  { destruct Hs as (Hc & Ha & Hn). unfold streamOk, _instancesCount in *.
    rewrite C, Q, length_app. split; [lia|]. split.
    - eapply offsetsAscend_mono; [|exact Ha]. lia.
    - intros E. apply Hn. lia. }
  set (i := at_ (glyphIndices row) (x pre) 0).
  set (b0 := set_glyphAtlasMap
               (setGlyphEntry key i emptyGlyphEntry (_glyphAtlasMap (backend pre)))
               (backend pre)).
  assert (Hfail : exists b1, _drawGlyph p key i b0 = Done (false, b1) /\
                             t' = with_backend b1 pre).
  { generalize Hstep. cbn [glyphLoop]. fold i.
    destruct (glyphsOf (runKey row m) (_glyphAtlasMap (backend pre)) !! i); [discriminate|].
    match goal with |- context [_drawGlyph ?a1 ?a2 ?a3 ?a4] =>
      destruct (_drawGlyph a1 a2 a3 a4) as [[[|] b1]|e|] eqn:E
    end; cbn [bind fst snd]; try discriminate.
    intros H. injection H as <-. exists b1. split; [exact E|reflexivity]. }
  destruct Hfail as (b1 & E & ->). cbn [with_backend backend] in *.
  assert (Hs0 : streamOk b0) by (apply (streamOk_sameStream (backend pre)); auto).
  destruct (drawGlyph_retry_calls p key i b0 b1 Hs0 E) as (u & v & Hsz & Hd & Hb & Hc).
  split; [exact Hx|]. split.
  { exists pre, qs, u, v. split; [exact Hpre|]. split; [exact Xpre|]. split; [exact Hstep|].
    split; [exact Q|]. split; [lia|]. split; [exact C|]. split; [exact Hsz|]. exact Hd. }
  split; [exact Hfresh|]. split; [exact Hinst|]. split; [exact Hc|]. split; [exact Hb|].
  split; [exact Hres|exact Hnext].
Qed.

End RendererProperties.

(* ===================================================================== *)
(** * Part IV, continued: sizes, buffers and device logs                  *)
(* ===================================================================== *)

(** ** The size of the atlas texture, across resets *)

Lemma atlasArea_nonneg st w h : 0 <= atlasArea st w h.
Proof.
  assert (0 <= maxAreaByFont st)
    by (unfold maxAreaByFont, to_u32; apply Z.mod_pos_bound; lia).
  unfold atlasArea, minArea, maxArea, D3D10_REQ_TEXTURE2D_U_OR_V_DIMENSION. lia.
Qed.

(** The texture size for an area of at least 2. *)
Lemma atlasSize_of_area st w h :
  2 <= atlasArea st w h ->
  let i := Z.log2 (atlasArea st w h - 1) in
  0 <= i < 26 /\
  2 ^ i <= atlasArea st w h - 1 < 2 ^ (i + 1) /\
  atlasSize st w h = Some (2 ^ ((i + 2) / 2), 2 ^ ((i + 1) / 2)).
Proof.
  intros Harea i.
  pose proof (atlasArea_le_maxArea st w h) as Hmax.
  set (area := atlasArea st w h) in *.
  assert (Hi0 : 0 <= i) by apply Z.log2_nonneg.
  assert (Hi : i < 26) by (apply Z.log2_lt_pow2; lia).
  assert (Hlog : 2 ^ i <= area - 1 < 2 ^ (i + 1)).
  { pose proof (Z.log2_spec (area - 1) ltac:(lia)) as Hs. unfold i.
    replace (Z.log2 (area - 1) + 1) with (Z.succ (Z.log2 (area - 1))) by lia. exact Hs. }
  split; [lia|]. split; [exact Hlog|].
  unfold atlasSize. fold area.
  assert (Hm : to_u32 (area - 1) = area - 1) by (unfold to_u32; apply Z.mod_small; lia).
  rewrite Hm. unfold _BitScanReverse.
  destruct (Z.eqb_spec (area - 1) 0) as [E|_]; [lia|]. fold i.
  destruct (halves_order i Hi0) as [[Hb0 Hba] Hab].
  pose proof (halves_sum i Hi0) as Hsum.
  rewrite !shiftl_1_u16 by lia. reflexivity.
Qed.

Lemma atlasSize_of_area_0 st w h : atlasArea st w h = 0 -> atlasSize st w h = Some (0, 0).
Proof. intros E. unfold atlasSize. rewrite E. vm_compute. reflexivity. Qed.

Lemma atlasSize_of_area_1 st w h : atlasArea st w h = 1 -> atlasSize st w h = None.
Proof. intros E. unfold atlasSize. rewrite E. vm_compute. reflexivity. Qed.

(** X1.  Whatever the settings and the current atlas, the texture
    [_resetGlyphAtlas] asks for is at most
    D3D10_REQ_TEXTURE2D_U_OR_V_DIMENSION = 8192 pixels wide and high, and
    not higher than wide. *)
Theorem atlasSize_within_device_limit (st : Settings) (w h u v : Z) :
  atlasSize st w h = Some (u, v) ->
  0 <= v <= u /\ u <= D3D10_REQ_TEXTURE2D_U_OR_V_DIMENSION.
Proof.
  intros Hsz. pose proof (atlasArea_nonneg st w h) as H0.
  destruct (Z.eq_dec (atlasArea st w h) 0) as [E0|E0].
  { rewrite (atlasSize_of_area_0 _ _ _ E0) in Hsz. injection Hsz as <- <-.
    unfold D3D10_REQ_TEXTURE2D_U_OR_V_DIMENSION. lia. }
  destruct (Z.eq_dec (atlasArea st w h) 1) as [E1|E1].
  { rewrite (atlasSize_of_area_1 _ _ _ E1) in Hsz. discriminate. }
  destruct (atlasSize_of_area st w h ltac:(lia)) as (Hi & _ & E).
  rewrite E in Hsz. injection Hsz as <- <-.
  set (i := Z.log2 (atlasArea st w h - 1)) in *.
  destruct (halves_order i ltac:(lia)) as [[Hb0 Hba] Hab].
  pose proof (halves_sum i ltac:(lia)) as Hsum.
  assert (0 < 2 ^ ((i + 1) / 2)) by (apply Z.pow_pos_nonneg; lia).
  assert (2 ^ ((i + 1) / 2) <= 2 ^ ((i + 2) / 2)) by (apply Z.pow_le_mono_r; lia).
  assert (2 ^ ((i + 2) / 2) <= 2 ^ 13) by (apply Z.pow_le_mono_r; lia).
  change (2 ^ 13) with 8192 in *. unfold D3D10_REQ_TEXTURE2D_U_OR_V_DIMENSION. lia.
Qed.

(** X2.  [_resetGlyphAtlas] reads the undefined index of [_BitScanReverse]
    exactly when 1.25 times the area of the target, in 32 bit arithmetic,
    is 1 (a target of one pixel): then, and only then, the area it computes
    is 1 and the mask [area - 1] is 0. *)
Theorem atlasSize_undefined_iff (st : Settings) (w h : Z) :
  atlasSize st w h = None <-> maxAreaByFont st = 1.
Proof.
  split.
  - intros E. destruct (Z.eq_dec (maxAreaByFont st) 1) as [|Hne]; [assumption|].
    exfalso. exact (atlasSize_defined st w h Hne E).
  - intros E. apply atlasSize_of_area_1.
    unfold atlasArea. rewrite E. unfold minArea, maxArea, D3D10_REQ_TEXTURE2D_U_OR_V_DIMENSION. lia.
Qed.

Lemma minAreaByGrowth_pow2 a b :
  0 <= b <= a -> a <= 13 -> minAreaByGrowth (2 ^ a) (2 ^ b) = 2 * (2 ^ a * 2 ^ b).
Proof.
  intros Hb Ha.
  assert (0 < 2 ^ b) by (apply Z.pow_pos_nonneg; lia).
  assert (0 < 2 ^ a) by (apply Z.pow_pos_nonneg; lia).
  assert (2 ^ a <= 2 ^ 13) by (apply Z.pow_le_mono_r; lia).
  assert (2 ^ b <= 2 ^ 13) by (apply Z.pow_le_mono_r; lia).
  change (2 ^ 13) with 8192 in *.
  assert (2 ^ a * 2 ^ b <= 8192 * 8192) by nia.
  unfold minAreaByGrowth, to_u32. change (2 ^ 32) with 4294967296.
  rewrite (Z.mod_small (2 ^ a)) by lia.
  rewrite (Z.mod_small (2 ^ a * 2 ^ b)) by nia.
  rewrite Z.mod_small by nia. lia.
Qed.

(** X3.  With settings that stay the same, an atlas reset never makes the
    texture smaller than the one it replaces, in either dimension; and
    once the texture is as large as the cap min(maxArea, 1.25 target area)
    a reset keeps its size, so that the texture is not created anew. *)
Theorem atlasSize_never_shrinks (st : Settings) (w h u v : Z) :
  atlasSize st w h = Some (u, v) ->
  exists u' v',
    atlasSize st u v = Some (u', v') /\ u <= u' /\ v <= v' /\
    (Z.min maxArea (maxAreaByFont st) <= u * v -> u' = u /\ v' = v).
Proof.
  intros Hsz. pose proof (atlasArea_nonneg st w h) as H0.
  assert (HM : 0 <= maxAreaByFont st)
    by (unfold maxAreaByFont, to_u32; apply Z.mod_pos_bound; lia).
  destruct (Z.eq_dec (atlasArea st w h) 0) as [E0|E0].
  { rewrite (atlasSize_of_area_0 _ _ _ E0) in Hsz. injection Hsz as <- <-.
    assert (E : atlasArea st 0 0 = 0).
    { unfold atlasArea in *. unfold minArea, maxArea, D3D10_REQ_TEXTURE2D_U_OR_V_DIMENSION in *. lia. }
    exists 0, 0. rewrite (atlasSize_of_area_0 _ _ _ E). repeat split; lia. }
  destruct (Z.eq_dec (atlasArea st w h) 1) as [E1|E1].
  { rewrite (atlasSize_of_area_1 _ _ _ E1) in Hsz. discriminate. }
  destruct (atlasSize_of_area st w h ltac:(lia)) as (Hi & Hlog & E).
  rewrite E in Hsz. injection Hsz as <- <-.
  set (A := atlasArea st w h) in *. set (i := Z.log2 (A - 1)) in *.
  destruct (halves_order i ltac:(lia)) as [[Hb0 Hba] Hab].
  pose proof (halves_sum i ltac:(lia)) as Hsum.
  set (a := (i + 2) / 2) in *. set (b := (i + 1) / 2) in *.
  assert (Hprod : 2 ^ a * 2 ^ b = 2 ^ (i + 1)).
  { rewrite <- Z.pow_add_r by lia. f_equal. lia. }
  assert (Hg : minAreaByGrowth (2 ^ a) (2 ^ b) = 2 * 2 ^ (i + 1)).
  { rewrite minAreaByGrowth_pow2 by lia. rewrite Hprod. reflexivity. }
  assert (HA' : A <= atlasArea st (2 ^ a) (2 ^ b)).
  { unfold atlasArea. rewrite Hg. unfold A, atlasArea in *.
    unfold minArea, maxArea, D3D10_REQ_TEXTURE2D_U_OR_V_DIMENSION in *. lia. }
  destruct (atlasSize_of_area st (2 ^ a) (2 ^ b) ltac:(lia)) as (Hi' & Hlog' & E').
  set (A' := atlasArea st (2 ^ a) (2 ^ b)) in *. set (i' := Z.log2 (A' - 1)) in *.
  assert (Hii : i <= i') by (apply Z.log2_le_mono; lia).
  eexists _, _. split; [exact E'|].
  assert (Ha' : a <= (i' + 2) / 2) by (apply Z.div_le_mono; lia).
  assert (Hb' : b <= (i' + 1) / 2) by (apply Z.div_le_mono; lia).
  split; [apply Z.pow_le_mono_r; lia|]. split; [apply Z.pow_le_mono_r; lia|].
  intros Hcap. rewrite Hprod in Hcap.
  assert (EA' : A' = Z.min maxArea (maxAreaByFont st)).
  { unfold A', atlasArea. rewrite Hg.
    unfold minArea, maxArea, D3D10_REQ_TEXTURE2D_U_OR_V_DIMENSION in *. lia. }
  assert (Ei : i' = i).
  { unfold i'. apply Z.log2_unique; lia. }
  rewrite Ei. split; reflexivity.
Qed.

(** ** Flushing draws every quad once *)

Lemma drawnUpTo_app l1 : forall next l2,
  drawnUpTo next (l1 ++ l2) =
    match drawnUpTo next l1 with
    | Some next' => drawnUpTo next' l2
    | None => None
    end.
Proof.
  induction l1 as [|c l1 IH]; intros next l2; [reflexivity|].
  destruct c; cbn [app drawnUpTo]; try apply IH.
  destruct ((StartInstanceLocation =? next) && (0 <? InstanceCount)); [apply IH|reflexivity].
Qed.

Lemma drawnUpTo_spans l : forall prev count,
  offsetsAscend prev count l ->
  drawnUpTo prev (concat (map spanCalls (spans prev l))) =
    Some (List.last (prev :: map offset l) 0).
Proof.
  induction l as [|c l IH]; intros prev count Hasc; [reflexivity|].
  destruct Hasc as [Hc Hasc].
  cbn [spans map concat]. rewrite drawnUpTo_app.
  assert (E : drawnUpTo prev (spanCalls (prev, c)) = Some (offset c)).
  { unfold spanCalls. cbn [fst snd].
    destruct (Z.eqb_spec (offset c) prev) as [->|Hne].
    - destruct (blendState c); reflexivity.
    - cbn [app drawnUpTo]. rewrite Z.eqb_refl.
      destruct (Z.ltb_spec 0 (offset c - prev)); [|lia]. cbn [andb].
      replace (prev + (offset c - prev)) with (offset c) by lia.
      destruct (blendState c); reflexivity. }
  rewrite E, (IH _ count Hasc). destruct l; reflexivity.
Qed.

(** X4.  On a quad stream that satisfies its invariant, the draw calls a
    flush issues draw the instances 0, 1, ..., [_instancesCount - 1] in
    this order: every range starts where the one before ended, none is
    empty, and together they end at the instance count.  So every quad of
    the stream is drawn by exactly one draw call. *)
Theorem flushQuads_draws_every_quad_once (b : BackendD3D) :
  streamOk b ->
  exists calls,
    device (_flushQuads b) = device b ++ calls /\
    drawnUpTo 0 calls = Some (_instancesCount b).
Proof.
  intros (Hcount & Hasc & Hnone). unfold _flushQuads.
  destruct (Z.eqb_spec (_instancesCount b) 0) as [E|E].
  { exists []. rewrite app_nil_r, E. split; reflexivity. }
  assert (H0 : 0 <= _instancesCount b) by (unfold _instancesCount; lia).
  set (sentinel := {| blendState := None; offset := _instancesCount b |}).
  assert (Hall : offsetsAscend 0 (_instancesCount b) (_instancesStateChanges b ++ [sentinel])).
  { apply offsetsAscend_app. split; [assumption|]. simpl. split; [|exact I].
    pose proof (offsetsAscend_last (_instancesCount b) (_instancesStateChanges b) 0
                  ltac:(lia) Hasc) as Hlast.
    simpl in Hlast. lia. }
  exists (concat (map spanCalls (spans 0 (_instancesStateChanges b ++ [sentinel])))).
  split.
  - cbn [set_instances set_instancesStateChanges set_device device _markStateChange
         _instancesStateChanges].
    apply (flushLoop_spans _ _ _ (_instancesCount b)); [lia|exact Hall|exact Hcount].
  - rewrite (drawnUpTo_spans _ 0 _ Hall). f_equal.
    rewrite map_app. cbn [map offset sentinel].
    change (0 :: map offset (_instancesStateChanges b) ++ [_instancesCount b])
      with ((0 :: map offset (_instancesStateChanges b)) ++ [_instancesCount b]).
    apply List.last_last.
Qed.

(** ** Overlapping buffers *)

(** X5.  [DoBuffersOverlap] answers [true] exactly when the byte ranges,
    taken with their end addresses, meet: when they share a byte, but also
    when one begins where the other ends or is empty inside or next to the
    other.  It never answers [false] for two buffers that share a byte, and
    the order of the two buffers does not matter. *)
Theorem DoBuffersOverlap_iff (pBufferA cbBufferA pBufferB cbBufferB : Z) :
  0 <= cbBufferA -> 0 <= cbBufferB ->
  (DoBuffersOverlap pBufferA cbBufferA pBufferB cbBufferB = true <->
   pBufferA <= pBufferB + cbBufferB /\ pBufferB <= pBufferA + cbBufferA) /\
  ((exists byte, pBufferA <= byte < pBufferA + cbBufferA /\
                 pBufferB <= byte < pBufferB + cbBufferB) ->
   DoBuffersOverlap pBufferA cbBufferA pBufferB cbBufferB = true) /\
  DoBuffersOverlap pBufferA cbBufferA pBufferB cbBufferB =
    DoBuffersOverlap pBufferB cbBufferB pBufferA cbBufferA.
Proof.
  intros HA HB. unfold DoBuffersOverlap.
  destruct (Z.leb_spec pBufferA pBufferB); destruct (Z.leb_spec pBufferB (pBufferA + cbBufferA));
    destruct (Z.leb_spec pBufferB pBufferA); destruct (Z.leb_spec pBufferA (pBufferB + cbBufferB));
    cbn [andb orb]; (split; [split; [intros; try discriminate; lia | intros; try reflexivity; lia]|]);
    (split; [intros (byte & ? & ?); try reflexivity; lia | reflexivity]).
Qed.

(** ** The CPU-side instance buffer *)

Lemma bumpInstancesSize_spec (i : Instances.t) :
  Instances.size i < 2 ^ 63 ->
  Instances._bumpInstancesSize i =
    Some (Instances.mk
            (Instances.slots i ++
             replicate (Z.to_nat (Z.max 256 (2 * Instances.size i) - Instances.size i)) None)
            (Instances.count i)).
Proof.
  intros Hsz. unfold Instances._bumpInstancesSize.
  assert (H0 : 0 <= Instances.size i) by (unfold Instances.size; lia).
  assert (E : to_size_t (Instances.size i * 2) = 2 * Instances.size i).
  { unfold to_size_t. change (2 ^ 63) with 9223372036854775808 in Hsz.
    change (2 ^ 64) with 18446744073709551616. rewrite Z.mod_small by lia. lia. }
  rewrite E. destruct (Z.ltb_spec (Instances.size i) (Z.max 256 (2 * Instances.size i))); [|lia].
  reflexivity.
Qed.

Lemma bumpInstancesSize_Some (i i' : Instances.t) :
  Instances._bumpInstancesSize i = Some i' ->
  Instances.size i < 2 ^ 63.
Proof.
  unfold Instances._bumpInstancesSize. intros H.
  assert (H0 : 0 <= Instances.size i) by (unfold Instances.size; lia).
  destruct (Z.ltb_spec (Instances.size i) (Z.max 256 (to_size_t (Instances.size i * 2))))
    as [Hlt|]; [|discriminate].
  destruct (Z.lt_ge_cases (Instances.size i) (2 ^ 63)) as [|Hge]; [assumption|exfalso].
  change (2 ^ 63) with 9223372036854775808 in Hge.
  assert (to_size_t (Instances.size i * 2) <= Instances.size i); [|lia].
  unfold to_size_t. change (2 ^ 64) with 18446744073709551616.
  destruct (Z.lt_ge_cases (Instances.size i) 18446744073709551616).
  - replace (Instances.size i * 2) with
      (Instances.size i * 2 - 18446744073709551616 + 1 * 18446744073709551616) by lia.
    rewrite Z.mod_add by lia. rewrite Z.mod_small by lia. lia.
  - pose proof (Z.mod_pos_bound (Instances.size i * 2) 18446744073709551616 ltac:(lia)). lia.
Qed.

(** X6.  The buffered [_appendQuad] agrees with the list of quads the
    passes are modelled on: when the slots in use hold the quads of the
    renderer, the buffer holds fewer than 2^63 slots and
    [_instancesCount] does not exceed them, the append succeeds (the
    [Expects] of [_bumpInstancesSize] holds, the store is inside the
    buffer), the slots in use afterwards are the old quads, unchanged and
    in their order, followed by the new one, and [_instancesCount] is
    again within the buffer. *)
Theorem appendQuad_keeps_quads (q : QuadInstance) (i : Instances.t) (b : BackendD3D) :
  Instances.quads i = map Some (_instances b) ->
  0 <= Instances.count i <= Instances.size i ->
  Instances.size i < 2 ^ 63 ->
  exists i',
    Instances._appendQuad q i = Some i' /\
    Instances.quads i' = map Some (_instances (_appendQuad q b)) /\
    Instances.count i' = _instancesCount (_appendQuad q b) /\
    0 <= Instances.count i' <= Instances.size i'.
Proof.
  intros Hq Hc Hsz.
  assert (Hlen : Instances.count i = Z.of_nat (length (_instances b))).
  { apply (f_equal (@length _)) in Hq. unfold Instances.quads in Hq.
    rewrite length_take_le, length_map in Hq by (unfold Instances.size in Hc; lia). lia. }
  assert (Hcount : _instancesCount (_appendQuad q b) = Instances.count i + 1).
  { unfold _instancesCount, _appendQuad. cbn [set_instances _instances].
    rewrite length_app. cbn [length]. lia. }
  assert (Hinst : map Some (_instances (_appendQuad q b)) = Instances.quads i ++ [Some q]).
  { unfold _appendQuad. cbn [set_instances _instances]. rewrite map_app, Hq. reflexivity. }
  assert (Hwrap : to_size_t (Instances.count i + 1) = Instances.count i + 1).
  { unfold to_size_t. change (2 ^ 63) with 9223372036854775808 in Hsz.
    change (2 ^ 64) with 18446744073709551616. apply Z.mod_small. lia. }
  unfold Instances._appendQuad.
  destruct (Z.leb_spec (Instances.size i) (Instances.count i)) as [Hfull|Hroom].
  - rewrite (bumpInstancesSize_spec i Hsz).
    set (k := Z.to_nat (Z.max 256 (2 * Instances.size i) - Instances.size i)).
    assert (Hk : (1 <= k)%nat) by (unfold k; lia).
    assert (Hn : Z.to_nat (Instances.count i) = length (Instances.slots i))
      by (unfold Instances.size in *; lia).
    unfold Instances.size at 1. cbn [Instances.slots Instances.count].
    rewrite length_app, length_replicate.
    destruct (Z.leb_spec 0 (Instances.count i)); [|lia].
    destruct (Z.ltb_spec (Instances.count i) (Z.of_nat (length (Instances.slots i) + k))); [|lia].
    cbn [andb]. eexists. split; [reflexivity|].
    unfold Instances.quads, Instances.size. cbn [Instances.slots Instances.count].
    rewrite Hwrap, Hinst, Hcount, length_insert, length_app, length_replicate.
    split; [|split; [reflexivity|lia]].
    unfold Instances.quads.
    replace (Z.to_nat (Instances.count i + 1)) with (length (Instances.slots i) + 1)%nat by lia.
    rewrite Hn. rewrite insert_app_r_alt by lia. rewrite Nat.sub_diag.
    rewrite take_app_add, firstn_all.
    destruct k as [|k]; [lia|]. reflexivity.
  - destruct (Z.leb_spec 0 (Instances.count i)); [|lia].
    destruct (Z.ltb_spec (Instances.count i) (Instances.size i)); [|lia].
    cbn [andb]. eexists. split; [reflexivity|].
    unfold Instances.quads, Instances.size. cbn [Instances.slots Instances.count].
    rewrite Hwrap, Hinst, Hcount, length_insert.
    split; [|split; [reflexivity|unfold Instances.size in *; lia]].
    unfold Instances.quads.
    replace (Z.to_nat (Instances.count i + 1)) with (S (Z.to_nat (Instances.count i))) by lia.
    rewrite (take_S_r _ _ (Some q)).
    + rewrite take_insert_ge by lia. reflexivity.
    + apply list_lookup_insert_eq. unfold Instances.size in *. lia.
Qed.

(** X7.  The instance buffer is reallocated only by an append that finds
    it full, and then to max(256, twice its size): while there is room the
    size stays, and a size that is 0 or 256 times a power of two stays of
    this kind. *)
Theorem appendQuad_grows_geometrically (q : QuadInstance) (i i' : Instances.t) :
  0 <= Instances.count i <= Instances.size i ->
  Instances._appendQuad q i = Some i' ->
  (Instances.count i < Instances.size i -> Instances.size i' = Instances.size i) /\
  (Instances.count i = Instances.size i ->
   Instances.size i' = Z.max 256 (2 * Instances.size i)) /\
  (isCapacity (Instances.size i) -> isCapacity (Instances.size i')).
Proof.
  intros Hc Happ.
  assert (Hsize : Instances.size i' = Instances.size i /\ Instances.count i < Instances.size i \/
                  Instances.size i' = Z.max 256 (2 * Instances.size i) /\
                  Instances.count i = Instances.size i).
  { unfold Instances._appendQuad in Happ.
    destruct (Z.leb_spec (Instances.size i) (Instances.count i)) as [Hfull|Hroom].
    - destruct (Instances._bumpInstancesSize i) as [i1|] eqn:Eb; [|discriminate].
      pose proof (bumpInstancesSize_Some i i1 Eb) as Hsz.
      rewrite (bumpInstancesSize_spec i Hsz) in Eb. injection Eb as <-.
      cbn [Instances.slots Instances.count] in Happ.
      destruct (_ && _); [|discriminate]. injection Happ as <-.
      right. split; [|lia].
      unfold Instances.size in *. cbn [Instances.slots].
      rewrite length_insert, length_app, length_replicate. lia.
    - destruct (_ && _); [|discriminate]. injection Happ as <-.
      left. split; [|lia]. unfold Instances.size. cbn [Instances.slots].
      rewrite length_insert. reflexivity. }
  split; [|split].
  - intros Hroom. destruct Hsize as [[E _]|[_ E]]; [exact E|lia].
  - intros Hfull. destruct Hsize as [[_ E]|[E _]]; [lia|exact E].
  - intros Hcap. destruct Hsize as [[E _]|[E _]]; rewrite E; [exact Hcap|].
    right. destruct Hcap as [E0|(k & Hk & Ek)].
    + exists 0. rewrite E0. split; [lia|reflexivity].
    + exists (k + 1). split; [lia|]. rewrite Ek, Z.pow_add_r by lia.
      assert (0 < 2 ^ k) by (apply Z.pow_pos_nonneg; lia). lia.
Qed.

(** ** The instance buffer of the device *)

(** [x & ~size_t{0xffff}] clears the low 16 bits. *)
Lemma land_not_0xffff (x : Z) :
  0 <= x < 2 ^ 64 -> Z.land x (to_size_t (Z.lnot 0xffff)) = x - x mod 65536.
Proof.
  intros Hx. unfold to_size_t.
  replace (Z.lnot 65535 mod 2 ^ 64) with (Z.land (Z.lnot (Z.ones 16)) (Z.ones 64))
    by (vm_compute; reflexivity).
  rewrite Z.land_assoc, (Z.land_comm x), <- Z.land_assoc, (Z.land_ones x 64) by lia.
  rewrite (Z.mod_small x) by lia.
  rewrite Z.land_comm, <- Z.ldiff_land, Z.ldiff_ones_r by lia.
  rewrite Z.shiftr_div_pow2, Z.shiftl_mul_pow2 by lia.
  change (2 ^ 16) with 65536.
  pose proof (Z.div_mod x 65536 ltac:(lia)). lia.
Qed.

(** Rounding up to a multiple of 64 kB. *)
Lemma roundUp_64k (n : Z) :
  0 <= n < 2 ^ 48 ->
  let R := Z.land (to_size_t (n + 0xffff)) (to_size_t (Z.lnot 0xffff)) in
  R mod 65536 = 0 /\ n <= R < n + 65536 /\ (R < 2 ^ 32 <-> n <= 2 ^ 32 - 65536).
Proof.
  intros Hn R. change (2 ^ 48) with 281474976710656 in Hn.
  assert (E : to_size_t (n + 65535) = n + 65535).
  { unfold to_size_t. change (2 ^ 64) with 18446744073709551616. apply Z.mod_small. lia. }
  unfold R. rewrite E, land_not_0xffff by (change (2 ^ 64) with 18446744073709551616; lia).
  pose proof (Z.mod_pos_bound (n + 65535) 65536 ltac:(lia)) as Hm.
  pose proof (Z.div_mod (n + 65535) 65536 ltac:(lia)) as Hd.
  assert (HR : n + 65535 - (n + 65535) mod 65536 = ((n + 65535) / 65536) * 65536) by lia.
  change (2 ^ 32) with (65536 * 65536).
  split; [rewrite HR; apply Z.mod_mul; lia|]. split; [lia|]. rewrite HR. lia.
Qed.

Section InstanceUploadProperties.
Variable sizeofQuadInstance : Z.
Hypothesis sizeof_range : 0 < sizeofQuadInstance < 2 ^ 16.

Variable st : Settings.
Hypothesis cells_x : is_u16 (v2.x (cellCount st)).
Hypothesis cells_y : is_u16 (v2.y (cellCount st)).

Local Abbreviation needed := (neededBytes sizeofQuadInstance st).

Lemma needed_range (instancesCount : Z) :
  0 <= instancesCount < 2 ^ 32 -> 0 <= needed instancesCount < 2 ^ 48.
Proof.
  unfold neededBytes, is_u16 in *. change (2 ^ 16) with 65536 in *.
  change (2 ^ 32) with 4294967296. change (2 ^ 48) with 281474976710656. nia.
Qed.

Lemma recreateInstanceBuffers_eq (instancesCount : Z) :
  0 <= instancesCount < 2 ^ 32 ->
  _recreateInstanceBuffers sizeofQuadInstance st instancesCount =
    let R := Z.land (to_size_t (needed instancesCount + 0xffff)) (to_size_t (Z.lnot 0xffff)) in
    if R <? 2 ^ 32
    then Some {| ByteWidth := R; _instanceBufferCapacity := R / sizeofQuadInstance |}
    else None.
Proof.
  intros Hc. pose proof (needed_range instancesCount Hc) as Hn.
  unfold neededBytes in *. unfold is_u16 in *. unfold _recreateInstanceBuffers.
  change (2 ^ 16) with 65536 in *. change (2 ^ 32) with 4294967296 in *.
  change (2 ^ 48) with 281474976710656 in *.
  assert (E1 : to_size_t (to_size_t (v2.x (cellCount st)) * v2.y (cellCount st)) =
               v2.x (cellCount st) * v2.y (cellCount st)).
  { unfold to_size_t. change (2 ^ 64) with 18446744073709551616.
    rewrite (Z.mod_small (v2.x (cellCount st))) by lia. apply Z.mod_small. nia. }
  rewrite E1.
  set (n := Z.max instancesCount (v2.x (cellCount st) * v2.y (cellCount st)) * sizeofQuadInstance) in *.
  assert (E2 : to_size_t n = n).
  { unfold to_size_t. change (2 ^ 64) with 18446744073709551616. apply Z.mod_small. lia. }
  rewrite E2. reflexivity.
Qed.

(** X8.  [_recreateInstanceBuffers] gives the device a buffer whose size is
    a multiple of 64 kB, below 2^32, at least the bytes the quads and the
    cells of the viewport need and less than 64 kB more, with a capacity
    that covers both and fits the buffer; when the rounded size does not
    fit 32 bits it throws instead of creating a smaller buffer. *)
Theorem recreateInstanceBuffers_rounds_up (instancesCount : Z) :
  0 <= instancesCount < 2 ^ 32 ->
  match _recreateInstanceBuffers sizeofQuadInstance st instancesCount with
  | Some g =>
      ByteWidth g mod 65536 = 0 /\
      needed instancesCount <= ByteWidth g < needed instancesCount + 65536 /\
      ByteWidth g < 2 ^ 32 /\
      Z.max instancesCount (v2.x (cellCount st) * v2.y (cellCount st))
        <= _instanceBufferCapacity g /\
      _instanceBufferCapacity g * sizeofQuadInstance <= ByteWidth g
  | None => 2 ^ 32 - 65536 < needed instancesCount
  end.
Proof.
  intros Hc. rewrite (recreateInstanceBuffers_eq instancesCount Hc).
  destruct (roundUp_64k (needed instancesCount) (needed_range instancesCount Hc))
    as (Hmod & Hle & Hfit).
  cbv zeta. set (R := Z.land _ _) in *.
  destruct (Z.ltb_spec R (2 ^ 32)) as [Hlt|Hge]; [|lia].
  cbn [ByteWidth _instanceBufferCapacity].
  split; [exact Hmod|]. split; [exact Hle|]. split; [exact Hlt|]. split.
  - replace (Z.max instancesCount (v2.x (cellCount st) * v2.y (cellCount st)))
      with (needed instancesCount / sizeofQuadInstance)
      by (unfold neededBytes; apply Z.div_mul; lia).
    apply Z.div_le_mono; lia.
  - rewrite Z.mul_comm. apply Z.mul_div_le. lia.
Qed.

(** X9.  The quads a flush copies into the mapped instance buffer fit it:
    when the capacity on record fits the buffer, the buffer that is mapped
    holds at least [_instancesCount * sizeof(QuadInstance)] bytes, which is
    what [memcpy] writes, and the capacity on record still fits it; a
    buffer with room for the quads is kept as it is. *)
Theorem uploadInstances_fits (instancesCount : Z) (g : InstanceBuffer) :
  0 <= instancesCount < 2 ^ 32 ->
  _instanceBufferCapacity g * sizeofQuadInstance <= ByteWidth g ->
  match uploadInstances sizeofQuadInstance st instancesCount g with
  | Some (g', bytes) =>
      bytes = instancesCount * sizeofQuadInstance /\
      bytes <= ByteWidth g' /\
      instancesCount <= _instanceBufferCapacity g' /\
      _instanceBufferCapacity g' * sizeofQuadInstance <= ByteWidth g' /\
      (instancesCount <= _instanceBufferCapacity g -> g' = g)
  | None => 2 ^ 32 - 65536 < needed instancesCount
  end.
Proof.
  intros Hc Hg. unfold uploadInstances.
  assert (Hb : to_size_t (instancesCount * sizeofQuadInstance) = instancesCount * sizeofQuadInstance).
  { unfold to_size_t. change (2 ^ 64) with 18446744073709551616.
    change (2 ^ 16) with 65536 in *. change (2 ^ 32) with 4294967296 in *.
    apply Z.mod_small. nia. }
  rewrite Hb.
  destruct (Z.ltb_spec (_instanceBufferCapacity g) instancesCount) as [Hsmall|Hroom].
  - rewrite (recreateInstanceBuffers_eq instancesCount Hc).
    destruct (roundUp_64k (needed instancesCount) (needed_range instancesCount Hc))
      as (_ & Hle & Hfit).
    cbv zeta. set (R := Z.land _ _) in *.
    destruct (Z.ltb_spec R (2 ^ 32)) as [Hlt|Hge]; [|lia].
    cbn [ByteWidth _instanceBufferCapacity].
    assert (Hcap : instancesCount <= R / sizeofQuadInstance).
    { replace instancesCount with (instancesCount * sizeofQuadInstance / sizeofQuadInstance)
        by (apply Z.div_mul; lia).
      apply Z.div_le_mono; [lia|]. unfold neededBytes in Hle. nia. }
    assert (Hfits : R / sizeofQuadInstance * sizeofQuadInstance <= R)
      by (rewrite Z.mul_comm; apply Z.mul_div_le; lia).
    split; [reflexivity|]. split; [nia|]. split; [lia|]. split; [exact Hfits|lia].
  - split; [reflexivity|]. split; [nia|]. split; [lia|]. split; [exact Hg|reflexivity].
Qed.

End InstanceUploadProperties.

(* ===================================================================== *)
(** * Part V: the properties on concrete frames                           *)
(* ===================================================================== *)

(** ** The retry loop *)

Lemma atlasSize_settings100 (w h : Z) : atlasSize settings100 w h = Some (128, 128).
Proof.
  unfold atlasSize.
  assert (E : atlasArea settings100 w h = 12500).
  { unfold atlasArea.
    change (maxAreaByFont settings100) with 12500.
    change (minAreaByFont settings100) with 475000.
    change minArea with 16384. change maxArea with 67108864. lia. }
  rewrite E. reflexivity.
Qed.


(** The run of three glyphs of [threeGlyphs], each of which fills the
    atlas: two passes through [drawGlyphRetry] do not end it, the third
    pass ends it, after two atlas resets. *)
Lemma three_glyphs_two_resets :
  @drawRun integerFloats (uniformGlyphs 100 100) 2 threeGlyphs glyphRow 80 run0to3
    threeGlyphsStart = OutOfFuel /\
  exists t',
    @drawRun integerFloats (uniformGlyphs 100 100) 3 threeGlyphs glyphRow 80 run0to3
      threeGlyphsStart = Done t' /\
    resets (device (@backend integerFloats t')) =
      (resets (device (@backend integerFloats threeGlyphsStart)) + 2)%nat.
Proof.
  split; [vm_compute; reflexivity|].
  eexists. split; vm_compute; reflexivity.
Qed.


(** The guard itself is live: on a renderer whose glyph map is empty the
    retry preparation throws. *)
Lemma prepareRetry_guard_fires :
  @_drawGlyphPrepareRetry integerFloats threeGlyphs newBackend = Fail E_UNEXPECTED.
Proof. reflexivity. Qed.

(** A run whose glyphs are higher than the atlas is never left: the guard
    of [_drawGlyphPrepareRetry] does not see the deadlock. *)
Lemma tall_glyph_never_ends (fuel : nat) :
  @drawRun integerFloats (uniformGlyphs 100 200) fuel threeGlyphs glyphRow 80 run0to3
    threeGlyphsStart = OutOfFuel.
Proof.
  apply (@drawRun_never_ends integerFloats (uniformGlyphs 100 200) threeGlyphs glyphRow 80
           run0to3 ltac:(vm_compute; discriminate) 100 200).
  - unfold threeGlyphsStart. cbn [backend].
    pose proof (@resetGlyphAtlas_spec integerFloats threeGlyphs firstFrame) as H.
    destruct (@_resetGlyphAtlas integerFloats threeGlyphs firstFrame) as [b'|e|] eqn:E;
      [|vm_compute in E; discriminate|contradiction].
    cbn [resultOf]. apply H.
  - vm_compute. reflexivity.
  - reflexivity.
  - intros w h u v Hsz. change (@s integerFloats threeGlyphs) with settings100 in Hsz.
    rewrite atlasSize_settings100 in Hsz. injection Hsz as <- <-. reflexivity.
Qed.


(** In the second run of [twoRuns] glyph 67 does not fit.  The code resumes
    at glyph 67, at index 2; restarting at [m.glyphsFrom = 1] would
    rasterize and emit glyph 66 a second time. *)
Lemma two_runs_resume_or_restart :
  exists t_code t_worded,
    @drawRun integerFloats (uniformGlyphs 100 60) 2 twoRuns twoRunsRow 80 run1to3
      twoRunsSecondStart = Done t_code /\
    @drawRun_restarting integerFloats (uniformGlyphs 100 60) 2 twoRuns twoRunsRow 80 run1to3
      twoRunsSecondStart = Done t_worded /\
    device (@backend integerFloats t_code) =
      [CreateTexture2D 128 128; BeginDraw; Clear; DrawGlyphRun 1 65 0 60;
       DrawGlyphRun 2 66 0 120; EndDraw; DrawIndexedInstanced 6 2 0 0 0;
       BeginDraw; Clear; DrawGlyphRun 2 67 0 60] /\
    device (@backend integerFloats t_worded) =
      [CreateTexture2D 128 128; BeginDraw; Clear; DrawGlyphRun 1 65 0 60;
       DrawGlyphRun 2 66 0 120; EndDraw; DrawIndexedInstanced 6 2 0 0 0;
       BeginDraw; Clear; DrawGlyphRun 2 66 0 60; DrawGlyphRun 2 67 0 120] /\
    length (_instances (@backend integerFloats t_code)) = 1%nat /\
    length (_instances (@backend integerFloats t_worded)) = 2%nat.
Proof.
  eexists. eexists.
  split; [vm_compute; reflexivity|].
  split; [vm_compute; reflexivity|].
  split; [vm_compute; reflexivity|].
  split; [vm_compute; reflexivity|].
  split; vm_compute; reflexivity.
Qed.

(** C2 as worded fails on that run: the code does not give what a restart
    of the run from [m.glyphsFrom] gives. *)
Lemma restart_from_glyphsFrom_fails :
  ~ @restart_as_worded integerFloats (uniformGlyphs 100 60) 2 twoRuns twoRunsRow 80 run1to3
      twoRunsSecondStart.
Proof.
  unfold restart_as_worded. intros E.
  apply (f_equal (fun r => length (_instances (@backend integerFloats
                                                 (resultOf twoRunsSecondStart r))))) in E.
  vm_compute in E. discriminate.
Qed.

(** The amended C2 on that run: the pass that starts at index 1 draws
    glyph 66, leaves through the retry exit at index 2, and the next pass
    starts there.  In between Direct2D drawing is ended, the two quads of
    the stream are drawn by one draw call and the atlas, which keeps its
    size, is cleared. *)
Lemma drawRun_resumes_at_failed_glyph_witness :
  let start := @atRetryLabel integerFloats twoRunsRow run1to3 twoRunsSecondStart in
  let t' := retryStateOf twoRunsSecondStart
              (@glyphLoop integerFloats (uniformGlyphs 100 60) 2 twoRuns twoRunsRow 80
                 (@runKey integerFloats twoRunsRow run1to3) start) in
  @x integerFloats t' = 2 /\
  (exists pre,
     @glyphLoop integerFloats (uniformGlyphs 100 60) 1 twoRuns twoRunsRow 80
       (@runKey integerFloats twoRunsRow run1to3) start = Done (Finished pre) /\
     length (_instances (@backend integerFloats pre)) = 2%nat /\
     device (@backend integerFloats t') =
       device (@backend integerFloats pre) ++
       [EndDraw; DrawIndexedInstanced 6 2 0 0 0; BeginDraw; Clear]) /\
  _instances (@backend integerFloats t') = [] /\
  _instancesStateChanges (@backend integerFloats t') = [] /\
  @drawRun integerFloats (uniformGlyphs 100 60) 2 twoRuns twoRunsRow 80 run1to3
    twoRunsSecondStart =
  @drawRun integerFloats (uniformGlyphs 100 60) 1 twoRuns twoRunsRow 80 run1to3 t'.
Proof.
  intros start t'.
  destruct (@drawRun_resumes_at_failed_glyph integerFloats (uniformGlyphs 100 60) twoRuns
              twoRunsRow 80 run1to3 twoRunsSecondStart t' 1%nat)
    as (_ & (pre & qs & u & v & Hpre & _ & _ & _ & _ & _ & Hsz & Hd) & _ & I & C & _ & _ & E).
  - vm_compute. reflexivity.
  - vm_compute. discriminate.
  - unfold streamOk. vm_compute. repeat split; discriminate.
  - vm_compute. reflexivity.
  - vm_compute. reflexivity.
  - split; [vm_compute; reflexivity|]. split; [|split; [exact I|split; [exact C|exact E]]].
    exists pre. split; [exact Hpre|].
    assert (Hval := Hpre). vm_compute in Hval. injection Hval as Hval. subst pre.
    vm_compute in Hsz. injection Hsz as <- <-.
    split; [reflexivity|]. rewrite Hd. vm_compute. reflexivity.
Defined.

(** ** Glyphs *)

(** C4 on a double height glyph 200 pixels high whose top is 170 pixels
    above the baseline origin, with a baseline of 80: the top half is 90
    pixels high, the bottom half 110. *)
Lemma splitDoubleHeightGlyph_halves_witness :
  exists top bottom,
    glyphsOf (topKey 1)
      (_glyphAtlasMap (@_splitDoubleHeightGlyph integerFloats threeGlyphs tallKey 65 tallBackend))
      !! 65 = Some top /\
    glyphsOf (bottomKey 1)
      (_glyphAtlasMap (@_splitDoubleHeightGlyph integerFloats threeGlyphs tallKey 65 tallBackend))
      !! 65 = Some bottom /\
    v2.y (g_size top) = 90 /\
    v2.y (g_size bottom) = 110 /\
    v2.y (g_offset bottom) = -80 /\
    v2.y (g_texcoord bottom) = 90.
Proof.
  destruct (@splitDoubleHeightGlyph_halves integerFloats threeGlyphs tallKey 65 tallBackend)
    as (top & bottom & Ht & Hb & H1 & H2 & _ & H4 & H5 & _).
  - reflexivity.
  - vm_compute. eauto.
  - vm_compute. split; [discriminate|reflexivity].
  - vm_compute. split; [discriminate|reflexivity].
  - vm_compute. discriminate.
  - vm_compute. reflexivity.
  - exists top, bottom. repeat split; assumption.
Defined.

(** C5 on glyph 65 of [threeGlyphs]: it is 100 pixels wide in cells of 50
    pixels and its right edge is beyond the trigger at 58, so it is marked. *)
Lemma drawGlyph_ligature_marker_witness :
  let key := {| fontFace := 1; lineRendition := SingleWidth |} in
  let b := set_glyphAtlasMap
             (insertFontFace key (_glyphAtlasMap (@backend integerFloats threeGlyphsStart)))
             (@backend integerFloats threeGlyphsStart) in
  let b' := snd (resultOf (false, b)
                   (@_drawGlyph integerFloats (uniformGlyphs 100 100) threeGlyphs key 65 b)) in
  LigatureMarker (g_shadingType (glyphEntryOf key 65 (_glyphAtlasMap b'))) = true <->
  50 <= 100 - 0 /\ (0 <= -8 \/ 58 <= 100).
Proof.
  intros key b b'.
  destruct (@drawGlyph_ligature_marker integerFloats (uniformGlyphs 100 100) threeGlyphs key 65
              b b') as (b1 & _ & _ & H).
  - discriminate.
  - vm_compute. eauto.
  - reflexivity.
  - reflexivity.
  - vm_compute. reflexivity.
  - apply H. reflexivity.
Defined.

(** ** Cursor and selection *)

(** C8 on a cursor with the color 0xffffffff over two cells of one
    background color, drawn as an empty box of four rectangles: part 2
    records the invert blend state at instance 4 and the standard blend
    state at instance 8. *)
Lemma cursor_state_changes_witness :
  let p := cursorPayload 0xffffffff in
  let mid := @_drawCursorPart1 integerFloats p newBackend in
  _instancesStateChanges mid = [] /\
  _instancesStateChanges (@_drawCursorPart2 integerFloats p mid) =
    [{| blendState := Some _blendStateInvert; offset := 4 |};
     {| blendState := Some _blendState; offset := 8 |}].
Proof.
  intros p mid.
  destruct (@cursor_state_changes integerFloats p newBackend mid) as (H1 & H2 & _).
  - reflexivity.
  - reflexivity.
  - split; [exact H1|].
    destruct (H2 eq_refl) as (cs & _ & Hcs & _ & Hsc).
    rewrite Hsc, <- Hcs. vm_compute. reflexivity.
Defined.

(** C10 on three rows of which the first and the third select the cells 1
    and 2 and the second selects nothing: one quad, two cells high, from
    the top of the first row. *)
Lemma drawSelection_bridges_gap_witness :
  _instances (@_drawSelection integerFloats selectionGapped newBackend) =
    [{| shadingType := plain SolidFill; position := v2.mk 10 0; size := v2.mk 20 40;
        texcoord := v2_zero; color := 0xff808080 |}].
Proof.
  destruct (@drawSelection_bridges_gap integerFloats selectionGapped newBackend
              (selectionRowOf 1 3) (selectionRowOf 1 3) [selectionRowOf 0 0]) as (_ & H).
  - vm_compute. reflexivity.
  - repeat constructor. vm_compute. discriminate.
  - reflexivity.
  - reflexivity.
  - reflexivity.
  - rewrite H. vm_compute. reflexivity.
Defined.

(** C7 at rows 0, 3 and 4 selecting the cells 2 to 4 while rows 1 and 2
    select nothing.  The blocks of rows are [0, 0] and [3, 4]: one quad of
    one cell at row 0 and one quad of two cells at row 3.  The selection
    pass emits a single quad of three cells at row 0 instead. *)
Theorem drawSelection_joins_separate_blocks :
  _instances (@_drawSelection integerFloats selectionTwoBlocks newBackend) =
    [{| shadingType := plain SolidFill; position := v2.mk 20 0; size := v2.mk 30 60;
        texcoord := v2_zero; color := 0xff808080 |}] /\
  @coalescedSelection integerFloats selectionTwoBlocks 0 None
    (@rows integerFloats selectionTwoBlocks) [] =
    [{| shadingType := plain SolidFill; position := v2.mk 20 0; size := v2.mk 30 20;
        texcoord := v2_zero; color := 0xff808080 |};
     {| shadingType := plain SolidFill; position := v2.mk 20 60; size := v2.mk 30 40;
        texcoord := v2_zero; color := 0xff808080 |}].
Proof. split; vm_compute; reflexivity. Qed.

(** ** Sizes and buffers *)

(** X1 at a 1000 by 1000 viewport with no atlas yet: 256 by 128. *)
Lemma atlasSize_within_device_limit_witness : 0 <= 128 <= 256 /\ 256 <= 8192.
Proof.
  apply (atlasSize_within_device_limit settings1000 0 0 256 128). vm_compute. reflexivity.
Defined.

(** X3 on the same viewport: the reset after the first one doubles the
    256 by 128 texture to 256 by 256. *)
Lemma atlasSize_never_shrinks_witness :
  exists u' v',
    atlasSize settings1000 256 128 = Some (u', v') /\ 256 <= u' /\ 128 <= v' /\
    (Z.min maxArea (maxAreaByFont settings1000) <= 256 * 128 -> u' = 256 /\ v' = 128).
Proof.
  apply (atlasSize_never_shrinks settings1000 0 0 256 128). vm_compute. reflexivity.
Defined.

(** X4 on the stream of three quads with two markers: the three draw calls
    draw the instances 0, 1 and 2. *)
Lemma flushQuads_draws_every_quad_once_witness :
  exists calls,
    device (_flushQuads threeQuadStream) = device threeQuadStream ++ calls /\
    drawnUpTo 0 calls = Some 3.
Proof.
  apply (flushQuads_draws_every_quad_once threeQuadStream).
  unfold streamOk. vm_compute. repeat split; discriminate.
Defined.

(** X5 on a buffer of 8 bytes at address 100 and one of 4 bytes at address
    108: they touch and are reported to overlap. *)
Lemma DoBuffersOverlap_iff_witness :
  (DoBuffersOverlap 100 8 108 4 = true <-> 100 <= 108 + 4 /\ 108 <= 100 + 8) /\
  ((exists byte, 100 <= byte < 100 + 8 /\ 108 <= byte < 108 + 4) ->
   DoBuffersOverlap 100 8 108 4 = true) /\
  DoBuffersOverlap 100 8 108 4 = DoBuffersOverlap 108 4 100 8.
Proof. apply (DoBuffersOverlap_iff 100 8 108 4); lia. Defined.

(** X6 on the first quad of a renderer: the buffer is allocated and holds
    the quad. *)
Lemma appendQuad_keeps_quads_witness :
  exists i',
    Instances._appendQuad (solidQuad 0 0 10 20) noInstances = Some i' /\
    Instances.quads i' = map Some (_instances (_appendQuad (solidQuad 0 0 10 20) newBackend)) /\
    Instances.count i' = _instancesCount (_appendQuad (solidQuad 0 0 10 20) newBackend) /\
    0 <= Instances.count i' <= Instances.size i'.
Proof.
  apply (appendQuad_keeps_quads (solidQuad 0 0 10 20) noInstances newBackend).
  - reflexivity.
  - vm_compute. split; discriminate.
  - vm_compute. reflexivity.
Defined.

(** X7 on the same append: the first allocation has 256 slots. *)
Lemma appendQuad_grows_geometrically_witness :
  let i' := default noInstances (Instances._appendQuad (solidQuad 0 0 10 20) noInstances) in
  (Instances.count noInstances < Instances.size noInstances ->
   Instances.size i' = Instances.size noInstances) /\
  (Instances.count noInstances = Instances.size noInstances ->
   Instances.size i' = Z.max 256 (2 * Instances.size noInstances)) /\
  (isCapacity (Instances.size noInstances) -> isCapacity (Instances.size i')).
Proof.
  intros i'.
  apply (appendQuad_grows_geometrically (solidQuad 0 0 10 20) noInstances i').
  - vm_compute. split; discriminate.
  - vm_compute. reflexivity.
Defined.

(** X8 for quads of 32 bytes, 100 by 50 cells and 6000 quads: 192000 bytes
    are needed and 196608 are allocated. *)
Lemma recreateInstanceBuffers_rounds_up_witness :
  match _recreateInstanceBuffers 32 settings1000 6000 with
  | Some g =>
      ByteWidth g mod 65536 = 0 /\
      neededBytes 32 settings1000 6000 <= ByteWidth g < neededBytes 32 settings1000 6000 + 65536 /\
      ByteWidth g < 2 ^ 32 /\
      Z.max 6000 (v2.x (cellCount settings1000) * v2.y (cellCount settings1000))
        <= _instanceBufferCapacity g /\
      _instanceBufferCapacity g * 32 <= ByteWidth g
  | None => 2 ^ 32 - 65536 < neededBytes 32 settings1000 6000
  end.
Proof.
  apply (recreateInstanceBuffers_rounds_up 32 ltac:(vm_compute; split; reflexivity) settings1000).
  - vm_compute. split; [discriminate|reflexivity].
  - vm_compute. split; [discriminate|reflexivity].
  - vm_compute. split; [discriminate|reflexivity].
Defined.

(** X9 on the first flush of 6000 quads. *)
Lemma uploadInstances_fits_witness :
  match uploadInstances 32 settings1000 6000 noInstanceBuffer with
  | Some (g', bytes) =>
      bytes = 6000 * 32 /\
      bytes <= ByteWidth g' /\
      6000 <= _instanceBufferCapacity g' /\
      _instanceBufferCapacity g' * 32 <= ByteWidth g' /\
      (6000 <= _instanceBufferCapacity noInstanceBuffer -> g' = noInstanceBuffer)
  | None => 2 ^ 32 - 65536 < neededBytes 32 settings1000 6000
  end.
Proof.
  apply (uploadInstances_fits 32 ltac:(vm_compute; split; reflexivity) settings1000).
  - vm_compute. split; [discriminate|reflexivity].
  - vm_compute. split; [discriminate|reflexivity].
  - vm_compute. split; [discriminate|reflexivity].
  - vm_compute. discriminate.
Defined.

(** ** Frames *)

(** X10 on the frame of [threeGlyphs], whose glyphs fill the atlas one at
    a time: two atlas retries, and the device log is in order. *)
Lemma Render_brackets_direct2d_witness :
  let r := resultOf (threeGlyphs, firstFrame) threeGlyphsFrame in
  d2dState (device (snd r)) = Some false /\ _d2dBeganDrawing (snd r) = false.
Proof.
  intros r.
  apply (@Render_brackets_direct2d integerFloats (uniformGlyphs 100 100) 4 threeGlyphs (fst r)
           noGridlines firstFrame (snd r)).
  - reflexivity.
  - reflexivity.
  - vm_compute. reflexivity.
Defined.

(** X11 on the same frame. *)
Lemma Render_flushes_everything_witness :
  let r := resultOf (threeGlyphs, firstFrame) threeGlyphsFrame in
  _instances (snd r) = [] /\ _instancesStateChanges (snd r) = [].
Proof.
  intros r.
  apply (@Render_flushes_everything integerFloats (uniformGlyphs 100 100) 4 threeGlyphs (fst r)
           noGridlines firstFrame (snd r)).
  - unfold markersOk. cbn. auto.
  - vm_compute. reflexivity.
Defined.

(** X13 on the text pass of [threeGlyphs]. *)
Lemma drawText_emits_no_default_quad_witness :
  let r := resultOf (threeGlyphs, firstFrame) threeGlyphsText in
  Forall (fun q => shadingType q <> plain Default) (_instances (snd r)).
Proof.
  intros r.
  apply (@drawText_emits_no_default_quad integerFloats (uniformGlyphs 100 100) 4 threeGlyphs
           (fst r) firstFrame (snd r)).
  - constructor.
  - vm_compute. reflexivity.
Defined.

(** X14 on the text pass of [threeGlyphs]: the glyphs are 100 pixels high
    above a baseline at 80, so the top of the dirty span moves to -20. *)
Lemma drawText_only_grows_dirty_spans_witness :
  let r := resultOf (threeGlyphs, firstFrame) threeGlyphsText in
  rect.top (@dirtyRectInPx integerFloats (fst r)) <= 0 /\
  100 <= rect.bottom (@dirtyRectInPx integerFloats (fst r)).
Proof.
  intros r.
  destruct (@drawText_only_grows_dirty_spans integerFloats (uniformGlyphs 100 100) 4 threeGlyphs
              (fst r) firstFrame (snd r)) as (_ & _ & _ & _ & _ & _ & _ & _ & Ht & Hb).
  - vm_compute. reflexivity.
  - split; [exact Ht|exact Hb].
Defined.

(** X15 on the first run of [twoRuns], drawn a second time. *)
Lemma drawRun_cached_needs_no_device_witness :
  exists t',
    @drawRun integerFloats (uniformGlyphs 100 60) 1 twoRuns twoRunsRow 80 run0to1 firstRunAgain
      = Done t' /\
    @x integerFloats t' = 1 /\
    device (@backend integerFloats t') = device (@backend integerFloats firstRunAgain).
Proof.
  destruct (@drawRun_cached_needs_no_device integerFloats (uniformGlyphs 100 60) twoRuns
              twoRunsRow 80 run0to1 0 firstRunAgain) as (t' & H1 & H2 & H3 & _).
  - vm_compute. split; discriminate.
  - vm_compute. reflexivity.
  - vm_compute. eauto.
  - intros i Hi. assert (i = 0) as -> by (cbn in Hi; lia). vm_compute. eauto.
  - exists t'. auto.
Defined.

(** X16 on glyph 65 when every glyph has an empty black box. *)
Lemma glyph_without_box_costs_nothing_witness :
  exists t1,
    @glyphLoop integerFloats (uniformGlyphs 0 0) 3 threeGlyphs glyphRow 80 face1 atLabelStart =
      @glyphLoop integerFloats (uniformGlyphs 0 0) 2 threeGlyphs glyphRow 80 face1 t1 /\
    @x integerFloats t1 = 1 /\
    _instances (@backend integerFloats t1) = [] /\
    device (@backend integerFloats t1) = device (@backend integerFloats atLabelStart).
Proof.
  destruct (@glyph_without_box_costs_nothing integerFloats (uniformGlyphs 0 0) threeGlyphs
              glyphRow 80 face1 2 atLabelStart) as (t1 & H1 & H2 & _ & _ & H5 & _ & H7).
  - discriminate.
  - reflexivity.
  - vm_compute. eauto.
  - vm_compute. reflexivity.
  - exists t1. split; [exact H1|]. split; [rewrite H2; reflexivity|].
    split; [rewrite H5; reflexivity|]. rewrite H7. cbn. apply app_nil_r.
Defined.

(** ** The glyph atlas *)

(** X17 on the first glyph of [threeGlyphs]: its rectangle is the corner
    of the empty 128 by 128 atlas. *)
Lemma drawGlyph_entry_inside_atlas_witness :
  let e := glyphEntryOf face1 65 (_glyphAtlasMap firstGlyphDrawn) in
  g_texcoord e = v2.mk 0 0 /\ g_size e = v2.mk 100 100 /\
  v2.x (g_texcoord e) + v2.x (g_size e) <= width (_rectPacker firstGlyphDrawn) /\
  v2.y (g_texcoord e) + v2.y (g_size e) <= height (_rectPacker firstGlyphDrawn).
Proof.
  intros e.
  destruct (@drawGlyph_entry_inside_atlas integerFloats (uniformGlyphs 100 100) threeGlyphs
              face1 65 (@backend integerFloats atLabelStart) firstGlyphDrawn)
    as (x0 & y0 & Hpack & _ & Hin).
  - discriminate.
  - vm_compute. eauto.
  - reflexivity.
  - vm_compute. discriminate.
  - vm_compute. discriminate.
  - vm_compute. reflexivity.
  - vm_compute. reflexivity.
  - vm_compute. split; [discriminate|reflexivity].
  - intros x1 y1 H. vm_compute in H. injection H as <- <-. vm_compute.
    repeat split; discriminate.
  - vm_compute. reflexivity.
  - vm_compute in Hpack. injection Hpack as <- <-.
    destruct (Hin face1 (or_introl eq_refl)) as (_ & _ & _ & _ & _ & Hw & Hh & _).
    split; [reflexivity|]. split; [reflexivity|]. split; [exact Hw|exact Hh].
Defined.

(** X18 on [threeGlyphs] with glyphs of 100 by 200 pixels, which no atlas
    of this viewport holds. *)
Lemma drawText_hangs_on_glyph_too_large_witness :
  @_drawText integerFloats (uniformGlyphs 100 200) 4 threeGlyphs firstFrame = OutOfFuel /\
  @_drawText integerFloats (uniformGlyphs 100 200) 1000 threeGlyphs firstFrame = OutOfFuel.
Proof.
  enough (H : forall fuel,
            @_drawText integerFloats (uniformGlyphs 100 200) fuel threeGlyphs firstFrame
              = OutOfFuel) by (split; apply H).
  apply (@drawText_hangs_on_glyph_too_large integerFloats (uniformGlyphs 100 200) threeGlyphs
           firstFrame glyphRow [] run0to3 [] 100 200).
  - reflexivity.
  - reflexivity.
  - vm_compute. discriminate.
  - vm_compute. reflexivity.
  - reflexivity.
  - vm_compute. reflexivity.
  - intros w h u v Hsz. change (@s integerFloats threeGlyphs) with settings100 in Hsz.
    rewrite atlasSize_settings100 in Hsz. injection Hsz as <- <-. reflexivity.
Defined.

(** X27 on the first glyph of [threeGlyphs]: the reset has begun the
    drawing already, and the baseline origin (0, 100) puts the black box
    [0, 100] x [-100, 0] on the corner of the atlas. *)
Lemma drawGlyph_draws_onto_packed_rect_witness :
  exists baselineOriginX baselineOriginY,
    device firstGlyphDrawn =
      device (@backend integerFloats atLabelStart) ++
      [DrawGlyphRun 1 65 baselineOriginX baselineOriginY] /\
    0 + baselineOriginX = 0 /\ -100 + baselineOriginY = 0.
Proof.
  destruct (@drawGlyph_draws_onto_packed_rect integerFloats (uniformGlyphs 100 100) threeGlyphs
              face1 65 (@backend integerFloats atLabelStart) firstGlyphDrawn)
    as (x0 & y0 & ox & oy & dx & dy & Hpack & Hdev & Hx & Hy & _).
  - discriminate.
  - reflexivity.
  - vm_compute. reflexivity.
  - vm_compute in Hpack. injection Hpack as <- <-.
    exists ox, oy. split; [|split; [exact Hx|exact Hy]].
    rewrite Hdev. vm_compute. reflexivity.
Defined.

(** ** Selection, cursor and gridlines *)

(** X20 on [selectionTwoBlocks]: three selected rows, one quad of 60
    pixels at row 0. *)
Lemma drawSelection_one_selection_one_quad_witness :
  _instances (@_drawSelection integerFloats selectionTwoBlocks newBackend) =
    [withHeight 60 (@selectionQuad integerFloats selectionTwoBlocks (selectionRowOf 2 5) 0)].
Proof.
  apply (@drawSelection_one_selection_one_quad integerFloats selectionTwoBlocks newBackend
           [] selectionTwoBlocksRest (selectionRowOf 2 5)).
  - reflexivity.
  - constructor.
  - vm_compute. reflexivity.
  - unfold selectionTwoBlocksRest.
    repeat (constructor; [first [left; vm_compute; discriminate | right; split; reflexivity]|]).
    constructor.
  - vm_compute. split; [discriminate|reflexivity].
  - vm_compute. reflexivity.
Defined.

(** X21 on a cursor of two cells with the background 0xff102030. *)
Lemma drawCursorPart1_one_background_witness :
  _cursorRects (@_drawCursorPart1 integerFloats (cursorPayload 0xff00ff00) newBackend) =
    @cursorShape integerFloats (cursorPayload 0xff00ff00) 0 2 0xff102030.
Proof.
  apply (@drawCursorPart1_one_background integerFloats (cursorPayload 0xff00ff00) newBackend
           0xff102030).
  - reflexivity.
  - intros i Hi. cbn in Hi.
    assert (i = 0 \/ i = 1) as [-> | ->] by lia; reflexivity.
Defined.

(** X22 on a cursor of two cells whose backgrounds differ: the second cell
    gets no cursor. *)
Lemma drawCursorPart1_skips_cell_after_run_witness :
  _cursorRects (@_drawCursorPart1 integerFloats cursorTwoBackgrounds newBackend) =
    map (set_cr_color 0xffffffff)
      (@cursorShape integerFloats cursorTwoBackgrounds 0 1 0xff102030).
Proof.
  rewrite <- (app_nil_r (cursorShape _ 0 1 _)).
  apply (@drawCursorPart1_skips_cell_after_run integerFloats cursorTwoBackgrounds newBackend
           1 0xff102030 0).
  - reflexivity.
  - cbn. lia.
  - intros i Hi. cbn in Hi. assert (i = 0) as -> by lia. reflexivity.
  - vm_compute. discriminate.
  - intros i Hi. cbn in Hi. lia.
Defined.

(** X23 on the range of the cells 1, 2 and 3 in row 0. *)
Lemma gridline_columns_witness :
  _instances (@leftLines integerFloats 3 threeGlyphs allLines 0 1 newBackend) =
    map (@verticalLineQuad integerFloats threeGlyphs allLines 0) [1; 2; 3] /\
  _instances (@rightLines integerFloats 3 threeGlyphs allLines 0 4 newBackend) =
    map (@verticalLineQuad integerFloats threeGlyphs allLines 0) [4; 3; 2].
Proof.
  apply (@gridline_columns integerFloats threeGlyphs allLines 0 newBackend).
  - vm_compute. split; [discriminate|reflexivity].
  - vm_compute. split; [discriminate|reflexivity].
Defined.

(** X24 on two rows, the first with every line over three cells: 3 + 1 +
    3 + 1 + 1 + 1 + 2 + 1 = 13 quads. *)
Lemma drawGridlines_quads_witness :
  (exists qs,
     _instances (@_drawGridlines integerFloats threeGlyphs someGridlines newBackend) = qs /\
     Z.of_nat (length qs) = 13 /\
     Forall isGridlineQuad qs) /\
  _instancesStateChanges (@_drawGridlines integerFloats threeGlyphs someGridlines newBackend) = [] /\
  device (@_drawGridlines integerFloats threeGlyphs someGridlines newBackend) = [].
Proof.
  apply (@drawGridlines_quads integerFloats threeGlyphs someGridlines newBackend).
  unfold someGridlines. cbn [gridLineRanges].
  repeat constructor; vm_compute; discriminate.
Defined.

(** X26 on the frame of [threeGlyphs]. *)
Lemma cursor_rectangles_reach_part2_witness :
  let p := threeGlyphs in
  let r := resultOf (threeGlyphs, firstFrame) threeGlyphsTextInFrame in
  _cursorRects (@_drawGridlines integerFloats (fst r) noGridlines (snd r)) =
    _cursorRects (@_drawCursorPart1 integerFloats p (@_drawBackground integerFloats p firstFrame)) /\
  @s integerFloats (fst r) = @s integerFloats p /\
  threeGlyphsFrame =
    Done (fst r,
          _flushQuads
            (@_drawSelection integerFloats (fst r)
               (@_drawCursorPart2 integerFloats (fst r)
                  (@_drawGridlines integerFloats (fst r) noGridlines (snd r))))).
Proof.
  intros p r.
  apply (@cursor_rectangles_reach_part2 integerFloats (uniformGlyphs 100 100) 4 threeGlyphs
           (fst r) noGridlines firstFrame (snd r)).
  vm_compute. reflexivity.
Defined.

(** X25 on a bitmap of two rows of two cells and a row pitch of 256
    bytes. *)
Lemma uploadColorBitmap_copies_rows_witness :
  @_uploadColorBitmap integerFloats 2 threeGlyphs 256 =
    Some [{| cp_dst := 0; cp_src := 0; cp_n := 8 |};
          {| cp_dst := 256; cp_src := 8; cp_n := 8 |}].
Proof.
  destruct (@uploadColorBitmap_copies_rows integerFloats threeGlyphs 256) as [H _].
  apply (H 2%nat 2%nat).
  - vm_compute. split; reflexivity.
  - reflexivity.
  - apply le_n.
Defined.
